(** * Snap-Fit Calculator: the calculation engine and the parametric sweep

    A shallow embedding of [SnapFitCalc.py]: the profile catalog
    [PROFILE_FACTORS], the engine [calculate_snap_fit], the table
    [default_inputs] and the loop of the Parametric Study tab.

    Numbers.  The script computes with Python floats and with
    [numpy.float64] scalars.  Both are modelled over the reals: every
    operation is exact and nothing overflows.  A Python float is a real;
    a [numpy.float64] is a real, an infinity or a nan.  What the two
    kinds of number do differently is kept: a Python float divided by a
    Python zero raises [ZeroDivisionError], while a division in which a
    [numpy.float64] takes part never raises and yields an infinity or a
    nan.  The reals have one zero, read as the positive zero of the
    floats, so a number that is not zero divided by zero is the infinity
    of the sign of the number.  [np.tan] is the real tangent, meaningful
    where the cosine is not zero. *)

From Stdlib Require Import Reals Lra Lia String List Bool Arith.
Import ListNotations.

Local Open Scope R_scope.

(* ================================================================== *)
(** * Exceptions                                                        *)
(* ================================================================== *)

Inductive exn : Set :=
| KeyError
| TypeError
| ZeroDivisionError.

Inductive exc (A : Type) : Type :=
| Ok (a : A)
| Raise (e : exn).

Arguments Ok {A} a.
Arguments Raise {A} e.

Definition bind {A B : Type} (m : exc A) (k : A -> exc B) : exc B :=
  match m with
  | Ok a => k a
  | Raise e => Raise e
  end.

Declare Scope py_scope.
Delimit Scope py_scope with py.

Notation "x <- m ;; k" := (bind m (fun x => k))
  (at level 61, m at next level, right associativity) : py_scope.
Notation "' pat <- m ;; k" := (bind m (fun x => match x with pat => k end))
  (at level 61, pat pattern, m at next level, right associativity) : py_scope.

(* ================================================================== *)
(** * numpy.float64 over the extended reals                             *)
(* ================================================================== *)

Inductive float64 : Type :=
| Fin (r : R)
| PInf
| NInf
| NaN.

Definition inf_of (negative : bool) : float64 :=
  if negative then NInf else PInf.

(** The sign of a real, as the three-way test the infinities need. *)
Definition Rsign (r : R) : comparison :=
  match total_order_T r 0 with
  | inleft (left _) => Lt
  | inleft (right _) => Eq
  | inright _ => Gt
  end.

Definition f_neg (x : float64) : float64 :=
  match x with
  | Fin r => Fin (- r)
  | PInf => NInf
  | NInf => PInf
  | NaN => NaN
  end.

Definition f_add (x y : float64) : float64 :=
  match x, y with
  | NaN, _ | _, NaN => NaN
  | Fin a, Fin b => Fin (a + b)
  | Fin _, PInf | PInf, Fin _ | PInf, PInf => PInf
  | Fin _, NInf | NInf, Fin _ | NInf, NInf => NInf
  | PInf, NInf | NInf, PInf => NaN
  end.

Definition f_sub (x y : float64) : float64 := f_add x (f_neg y).

(** An infinity of sign [negative] times the finite [r]. *)
Definition inf_times (negative : bool) (r : R) : float64 :=
  match Rsign r with
  | Eq => NaN
  | Gt => inf_of negative
  | Lt => inf_of (negb negative)
  end.

Definition f_mul (x y : float64) : float64 :=
  match x, y with
  | NaN, _ | _, NaN => NaN
  | Fin a, Fin b => Fin (a * b)
  | PInf, Fin b => inf_times false b
  | NInf, Fin b => inf_times true b
  | Fin a, PInf => inf_times false a
  | Fin a, NInf => inf_times true a
  | PInf, PInf | NInf, NInf => PInf
  | PInf, NInf | NInf, PInf => NInf
  end.

Definition f_div (x y : float64) : float64 :=
  match x, y with
  | NaN, _ | _, NaN => NaN
  | Fin a, Fin b =>
      if Req_dec_T b 0 then
        match Rsign a with
        | Eq => NaN
        | Gt => PInf
        | Lt => NInf
        end
      else Fin (a / b)
  | Fin _, PInf | Fin _, NInf => Fin 0
  | PInf, Fin b => match Rsign b with Lt => NInf | _ => PInf end
  | NInf, Fin b => match Rsign b with Lt => PInf | _ => NInf end
  | _, _ => NaN
  end.

Definition f_sq (x : float64) : float64 :=
  match x with
  | Fin a => Fin (a ^ 2)
  | PInf | NInf => PInf
  | NaN => NaN
  end.

(** [np.radians]: the argument times pi/180. *)
Definition f_radians (x : float64) : float64 :=
  match x with
  | Fin r => Fin (r * (PI / 180))
  | other => other
  end.

(** [np.tan]: the tangent of an infinity is a nan. *)
Definition f_tan (x : float64) : float64 :=
  match x with
  | Fin r => Fin (tan r)
  | _ => NaN
  end.

(* ================================================================== *)
(** * Python values and their arithmetic                                *)
(* ================================================================== *)

(** The values the engine handles: [None], a Python number (a float, or
    an int such as the literal 6), or a [numpy.float64] scalar. *)
Inductive pyval : Type :=
| PyNone
| PyFloat (r : R)
| NpFloat64 (x : float64).

(** A binary operator: on two Python numbers the Python operation, on a
    number and a [numpy.float64] (in either order, [numpy.float64]
    being a subclass of float that overrides the reflected operators)
    the numpy operation, and [TypeError] as soon as [None] is an
    operand. *)
Definition py_binop (fpy : R -> R -> exc R) (fnp : float64 -> float64 -> float64)
    (x y : pyval) : exc pyval :=
  match x, y with
  | PyNone, _ | _, PyNone => Raise TypeError
  | PyFloat a, PyFloat b =>
      match fpy a b with
      | Ok r => Ok (PyFloat r)
      | Raise e => Raise e
      end
  | PyFloat a, NpFloat64 v => Ok (NpFloat64 (fnp (Fin a) v))
  | NpFloat64 u, PyFloat b => Ok (NpFloat64 (fnp u (Fin b)))
  | NpFloat64 u, NpFloat64 v => Ok (NpFloat64 (fnp u v))
  end.

Definition py_truediv (a b : R) : exc R :=
  if Req_dec_T b 0 then Raise ZeroDivisionError else Ok (a / b).

Definition py_add : pyval -> pyval -> exc pyval :=
  py_binop (fun a b => Ok (a + b)) f_add.
Definition py_sub : pyval -> pyval -> exc pyval :=
  py_binop (fun a b => Ok (a - b)) f_sub.
Definition py_mul : pyval -> pyval -> exc pyval :=
  py_binop (fun a b => Ok (a * b)) f_mul.
Definition py_div : pyval -> pyval -> exc pyval :=
  py_binop py_truediv f_div.

(** [x ** 2]. *)
Definition py_sq (x : pyval) : exc pyval :=
  match x with
  | PyNone => Raise TypeError
  | PyFloat a => Ok (PyFloat (a ^ 2))
  | NpFloat64 u => Ok (NpFloat64 (f_sq u))
  end.

(** A numpy ufunc applied to a scalar: the result is a [numpy.float64]. *)
Definition np_ufunc (f : float64 -> float64) (x : pyval) : exc pyval :=
  match x with
  | PyNone => Raise TypeError
  | PyFloat a => Ok (NpFloat64 (f (Fin a)))
  | NpFloat64 u => Ok (NpFloat64 (f u))
  end.

Definition np_radians : pyval -> exc pyval := np_ufunc f_radians.
Definition np_tan : pyval -> exc pyval := np_ufunc f_tan.

(** Expressions: operands are evaluated left to right, then the
    operator is applied; the first exception wins. *)
Definition lift1 (op : pyval -> exc pyval) (x : exc pyval) : exc pyval :=
  bind x op.

Definition lift2 (op : pyval -> pyval -> exc pyval) (x y : exc pyval) : exc pyval :=
  bind x (fun a => bind y (fun b => op a b)).

Definition val (v : pyval) : exc pyval := Ok v.
Coercion val : pyval >-> exc.

(** A numeric literal of the source. *)
Definition num (r : R) : exc pyval := Ok (PyFloat r).

Notation "x + y" := (lift2 py_add x y) : py_scope.
Notation "x - y" := (lift2 py_sub x y) : py_scope.
Notation "x * y" := (lift2 py_mul x y) : py_scope.
Notation "x / y" := (lift2 py_div x y) : py_scope.
Notation "x '**2'" := (lift1 py_sq x) (at level 1) : py_scope.

(** The real value of a number, when it has one. *)
Definition real_of (v : pyval) : option R :=
  match v with
  | PyFloat r => Some r
  | NpFloat64 (Fin r) => Some r
  | _ => None
  end.

(** [is_num v r]: [v] is a Python number or a finite [numpy.float64]
    whose value is [r]. *)
Definition is_num (v : pyval) (r : R) : Prop := real_of v = Some r.

(* ================================================================== *)
(** * Strings                                                           *)
(* ================================================================== *)

(** Python's [needle in haystack] on strings. *)
Fixpoint contains (needle haystack : string) : bool :=
  if String.prefix needle haystack then true
  else match haystack with
       | EmptyString => false
       | String _ rest => contains needle rest
       end.

(* ================================================================== *)
(** * Geometry factors                                                  *)
(* ================================================================== *)

Definition PROFILE_FACTORS : list (string * R) :=
  [ ("Rectangle – Constant Cross Section"%string, 0.67);
    ("Rectangle – Y Dimensions Halved"%string, 1.09);
    ("Rectangle – Z Dimensions Quartered"%string, 0.86);
    ("Trapezoid – Constant Cross Section"%string, 1.00);
    ("Trapezoid – Y Dimensions Halved"%string, 1.64);
    ("Trapezoid – Z Dimensions Quartered"%string, 1.28);
    ("Ring Segment – Constant Cross Section"%string, 1.00);
    ("Ring Segment – Y Dimensions Halved"%string, 1.64);
    ("Ring Segment – Z Dimensions Quartered"%string, 1.28);
    ("Irregular – Constant Cross Section"%string, 1/3);
    ("Irregular – Y Dimensions Halved"%string, 0.55);
    ("Irregular – Z Dimensions Quartered"%string, 0.43) ].

(** Lookup in a dict written as a literal whose keys are distinct. *)
Fixpoint dict_get (d : list (string * R)) (key : string) : option R :=
  match d with
  | [] => None
  | (k, v) :: rest => if String.eqb k key then Some v else dict_get rest key
  end.

(** [PROFILE_FACTORS[profile]]. *)
Definition PROFILE_FACTORS_getitem (profile : string) : exc pyval :=
  match dict_get PROFILE_FACTORS profile with
  | Some c => Ok (PyFloat c)
  | None => Raise KeyError
  end.

(* ================================================================== *)
(** * Calculation engine                                                *)
(* ================================================================== *)

Record result : Type := mkResult {
  Permissible_Deflection_y : pyval;
  Deflection_Force_P : pyval;
  Mating_Force_W : pyval
}.

Section Engine.
Local Open Scope py_scope.

(** The branch on the profile family: the deflection [y] and the section
    modulus [Z_sec]. *)
Definition deflection_and_modulus (profile : string)
    (factor eps L h b a r2 Z : pyval) : exc (pyval * pyval) :=
  if contains "Rectangle" profile then
    y <- factor * eps * L **2 / h ;;
    Z_sec <- b * h **2 / num 6 ;;
    Ok (y, Z_sec)
  else if contains "Trapezoid" profile then
    y <- factor * ((a + b) / (num 2 * a + b)) * eps * L **2 / h ;;
    Z_sec <- (h **2 / num 12) * ((a **2 + num 4 * a * b + b **2) / (num 2 * a + b)) ;;
    Ok (y, Z_sec)
  else if contains "Ring Segment" profile then
    y <- factor * eps * L **2 / r2 ;;
    Ok (y, Z)
  else
    y <- factor * eps * L **2 / h ;;
    Ok (y, Z).

(** The body of [calculate_snap_fit], every parameter bound. *)
Definition calculate_snap_fit_body (profile : string)
    (E eps L h b a r2 Z mu alpha_deg : pyval) : exc result :=
  alpha <- np_radians alpha_deg ;;
  factor <- PROFILE_FACTORS_getitem profile ;;
  ' (y, Z_sec) <- deflection_and_modulus profile factor eps L h b a r2 Z ;;
  P <- Z_sec * E * eps / L ;;
  W <- P * ((mu + np_tan alpha) / (num 1 - mu * np_tan alpha)) ;;
  Ok (mkResult y P W).

End Engine.

(** [calculate_snap_fit(profile, E, eps, L, h=None, b=None, a=None,
    r2=None, Z=None, mu=0.3, alpha_deg=5)].  For [h], [b], [a], [r2]
    and [Z] the default is [None], so an omitted argument and [PyNone]
    are one; for [mu] and [alpha_deg] the option says whether the caller
    passed the argument. *)
Definition default_to (default : pyval) (arg : option pyval) : pyval :=
  match arg with
  | Some v => v
  | None => default
  end.

Definition calculate_snap_fit (profile : string)
    (E eps L h b a r2 Z : pyval) (mu alpha_deg : option pyval) : exc result :=
  calculate_snap_fit_body profile E eps L h b a r2 Z
    (default_to (PyFloat 0.3) mu) (default_to (PyFloat 5) alpha_deg).

(* ================================================================== *)
(** * Default inputs                                                    *)
(* ================================================================== *)

Record inputs : Type := mkInputs {
  def_L : R;
  def_h : R;
  def_b : R;
  def_a : R;
  def_r2 : R;
  def_Z : R;
  def_E : R
}.

Definition default_inputs (unit_system : string) : inputs :=
  if String.eqb unit_system "Imperial"
  then mkInputs 1.0 0.10 0.50 0.60 0.50 0.01 300000.0
  else mkInputs 25.4 2.54 12.7 15.24 12.7 4.14e-7 2.07e9.

(* ================================================================== *)
(** * Parametric study                                                  *)
(* ================================================================== *)

(** What the Calculator tab leaves in the script's variables: the
    selected profile and the numbers typed in (the geometry fields of
    the other families stay [None]). *)
Record calculator_tab : Type := mkCalculator {
  sel_profile : string;
  in_E : R;
  in_eps : R;
  in_mu : R;
  in_alpha : R;
  in_L : R;
  in_h : pyval;
  in_b : pyval;
  in_a : pyval;
  in_r2 : pyval;
  in_Z : pyval
}.

(** The choices of the "Parameter to Sweep" select box. *)
Definition sweep_options : list string :=
  [ "Thickness h"%string; "Length L"%string; "Allowable Strain ε"%string ].

(** [np.linspace(start, stop, num)] of numpy, a library outside the
    repository, after its implementation: the samples are
    [arange(0, num) * step + start] with [step = (stop - start) / (num - 1)],
    and when there are at least two the last one is then overwritten
    with [stop].  The array holds [numpy.float64] scalars. *)
Definition np_linspace (start stop : R) (num : nat) : list float64 :=
  let div := (num - 1)%nat in
  let step := (stop - start) / INR div in
  map (fun i : nat =>
         if ((i =? div)%nat && (1 <? num)%nat)%bool
         then Fin stop
         else Fin (INR i * step + start))
      (seq 0 num).

(** One row of the table: [{"Sweep Value": v, **res}]. *)
Record row : Type := mkRow {
  Sweep_Value : pyval;
  row_y : pyval;
  row_P : pyval;
  row_W : pyval
}.

(** A [for] loop that appends one element per iteration; an exception
    in the body ends it. *)
Fixpoint for_each {A B : Type} (body : A -> exc B) (xs : list A) : exc (list B) :=
  match xs with
  | [] => Ok []
  | x :: rest =>
      bind (body x) (fun r => bind (for_each body rest) (fun rs => Ok (r :: rs)))
  end.

(** The body of the loop over the sampled values. *)
Definition sweep_body (defaults : inputs) (mu alpha : pyval)
    (sweep_param : string) (v : pyval) : exc row :=
  let h_s := PyFloat (def_h defaults) in
  let L_s := PyFloat (def_L defaults) in
  let eps_s := PyFloat 0.02 in
  let '(h_s, L_s, eps_s) :=
    if String.eqb sweep_param "Thickness h" then (v, L_s, eps_s)
    else if String.eqb sweep_param "Length L" then (h_s, v, eps_s)
    else (h_s, L_s, v) in
  bind (calculate_snap_fit "Rectangle – Constant Cross Section"
          (PyFloat (def_E defaults)) eps_s L_s h_s (PyFloat (def_b defaults))
          PyNone PyNone PyNone (Some mu) (Some alpha))
       (fun res =>
          Ok (mkRow v (Permissible_Deflection_y res) (Deflection_Force_P res)
                (Mating_Force_W res))).

(** The Parametric Study tab up to the data frame [df]: the rows, in
    the order of the samples.  [mu] and [alpha] are the script's
    variables set in the Calculator tab. *)
Definition parametric_study (unit_system : string) (calc : calculator_tab)
    (sweep_param : string) (start stop : R) (steps : nat) : exc (list row) :=
  let defaults := default_inputs unit_system in
  let vals := np_linspace start stop steps in
  for_each (sweep_body defaults (PyFloat (in_mu calc)) (PyFloat (in_alpha calc))
              sweep_param)
           (map NpFloat64 vals).

(* ================================================================== *)
(** * The catalog as the specification words it                         *)
(* ================================================================== *)

(** Four families, each in three tapers; the name of a variant is the
    family, a dash and the taper. *)
Inductive family : Set := Rectangle | Trapezoid | Ring_Segment | Irregular.
Inductive taper : Set := Constant | Y_Halved | Z_Quartered.

Definition family_name (f : family) : string :=
  match f with
  | Rectangle => "Rectangle"
  | Trapezoid => "Trapezoid"
  | Ring_Segment => "Ring Segment"
  | Irregular => "Irregular"
  end.

Definition taper_name (t : taper) : string :=
  match t with
  | Constant => "Constant Cross Section"
  | Y_Halved => "Y Dimensions Halved"
  | Z_Quartered => "Z Dimensions Quartered"
  end.

Definition variant_name (f : family) (t : taper) : string :=
  (family_name f ++ " – " ++ taper_name t)%string.

Definition all_variants : list (family * taper) :=
  list_prod [Rectangle; Trapezoid; Ring_Segment; Irregular]
            [Constant; Y_Halved; Z_Quartered].

(** The factors as the specification lists them. *)
Definition listed_factor (f : family) (t : taper) : R :=
  match f, t with
  | Rectangle, Constant => 0.67
  | Rectangle, Y_Halved => 1.09
  | Rectangle, Z_Quartered => 0.86
  | (Trapezoid | Ring_Segment), Constant => 1.00
  | (Trapezoid | Ring_Segment), Y_Halved => 1.64
  | (Trapezoid | Ring_Segment), Z_Quartered => 1.28
  | Irregular, Constant => 1 / 3
  | Irregular, Y_Halved => 0.55
  | Irregular, Z_Quartered => 0.43
  end.

(** The test of the engine's [if] chain for each family word. *)
Definition family_flags (profile : string) : list bool :=
  [ contains "Rectangle" profile; contains "Trapezoid" profile;
    contains "Ring Segment" profile; contains "Irregular" profile ].

(* ================================================================== *)
(** * Reasoning about expressions                                       *)
(* ================================================================== *)

(** [evals e r]: the expression [e] raises nothing and its value is a
    number of real value [r]. *)
Definition evals (e : exc pyval) (r : R) : Prop :=
  exists v, e = Ok v /\ is_num v r.

(** [np_valued e]: the expression raises nothing and its value is a
    [numpy.float64], finite or not. *)
Definition np_valued (e : exc pyval) : Prop :=
  exists x, e = Ok (NpFloat64 x).

(** [not_none e]: the expression raises nothing and its value is not
    [None]. *)
Definition not_none (e : exc pyval) : Prop :=
  exists v, e = Ok v /\ v <> PyNone.

(* ================================================================== *)
(** * Notions used in the statements                                   *)
(* ================================================================== *)

(** The mating force as numpy computes it from the Python floats [P],
    [mu] and the angle in degrees. *)
Definition mating_force (P m d : R) : float64 :=
  let t := Fin (tan (d * (PI / 180))) in
  f_mul (Fin P) (f_div (f_add (Fin m) t) (f_sub (Fin 1) (f_mul (Fin m) t))).

(** [x] is within the relative tolerance [tol] of [ref]. *)
Definition within_rel (tol ref x : R) : Prop := Rabs (x - ref) <= tol * Rabs ref.

(** The parameters the specification calls invalid: a length, modulus,
    strain or profile dimension that is not positive, or a friction and
    lead-in angle with [mu * tan(alpha) >= 1]. *)
Definition invalid_parameter (l Ev e dim m d : R) : Prop :=
  l <= 0 \/ Ev <= 0 \/ e <= 0 \/ dim <= 0 \/ m * tan (d * (PI / 180)) >= 1.

(** The fields the family of [profile] reads are Python floats. *)
Definition required_floats (profile : string) (h b a r2 Z : pyval)
    (hv bv av rv zv : R) : Prop :=
  if contains "Rectangle" profile then h = PyFloat hv /\ b = PyFloat bv
  else if contains "Trapezoid" profile
       then h = PyFloat hv /\ a = PyFloat av /\ b = PyFloat bv
  else if contains "Ring Segment" profile then r2 = PyFloat rv /\ Z = PyFloat zv
  else h = PyFloat hv /\ Z = PyFloat zv.

(** One of the divisors the family of [profile] divides by is zero. *)
Definition zero_divisor (profile : string) (l hv bv av rv : R) : Prop :=
  if contains "Rectangle" profile then hv = 0 \/ l = 0
  else if contains "Trapezoid" profile then 2 * av + bv = 0 \/ hv = 0 \/ l = 0
  else if contains "Ring Segment" profile then rv = 0 \/ l = 0
  else hv = 0 \/ l = 0.

(** Sample [i] of [N] linearly spaced values from [start] to [stop]. *)
Definition linear_sample (start stop : R) (N i : nat) : R :=
  start + INR i * (stop - start) / INR (N - 1).

(** The Calculator tab as the form opens in imperial units, with the
    friction coefficient [mu]. *)
Definition imperial_form (mu : R) : calculator_tab :=
  mkCalculator "Rectangle – Constant Cross Section" 300000.0 0.02 mu 5.0 1.0
    (PyFloat 0.10) (PyFloat 0.50) PyNone PyNone PyNone.

(* ================================================================== *)
(** * Unit selection and conversions                                    *)
(* ================================================================== *)

Definition length_unit (unit_system : string) : string :=
  if String.eqb unit_system "Imperial" then "in" else "mm".

Definition E_unit (unit_system : string) : string :=
  if String.eqb unit_system "Imperial" then "psi" else "Pa".

Definition force_unit (unit_system : string) : string :=
  if String.eqb unit_system "Imperial" then "lbf" else "N".

Definition in_to_mm (v : pyval) : exc pyval := (v * num 25.4)%py.
Definition mm_to_in (v : pyval) : exc pyval := (v / num 25.4)%py.
Definition lbf_to_N (v : pyval) : exc pyval := (v * num 4.44822)%py.
Definition N_to_lbf (v : pyval) : exc pyval := (v / num 4.44822)%py.
Definition psi_to_Pa (v : pyval) : exc pyval := (v * num 6894.76)%py.
Definition Pa_to_psi (v : pyval) : exc pyval := (v / num 6894.76)%py.

(* ================================================================== *)
(** * Calculator tab                                                    *)
(* ================================================================== *)

(** The geometry variables after the form: all [None], then the fields
    of the selected family read from their number inputs.  The reals
    [h], [b], [a], [r2], [Z] are what those inputs hold. *)
Definition calculator_geometry (profile : string) (h b a r2 Z : R)
    : pyval * pyval * pyval * pyval * pyval :=
  if contains "Rectangle" profile
  then (PyFloat h, PyFloat b, PyNone, PyNone, PyNone)
  else if contains "Trapezoid" profile
  then (PyFloat h, PyFloat b, PyFloat a, PyNone, PyNone)
  else if contains "Ring Segment" profile
  then (PyNone, PyNone, PyNone, PyFloat r2, PyFloat Z)
  else (PyFloat h, PyNone, PyNone, PyNone, PyFloat Z).

(** [results] as the output column receives it: the engine's result,
    rescaled in place when the unit system is "Metric". *)
Definition calculator_results (unit_system profile : string)
    (E eps mu alpha L h b a r2 Z : R) : exc result :=
  let '(h', b', a', r2', Z') := calculator_geometry profile h b a r2 Z in
  bind (calculate_snap_fit profile (PyFloat E) (PyFloat eps) (PyFloat L)
          h' b' a' r2' Z' (Some (PyFloat mu)) (Some (PyFloat alpha)))
       (fun results =>
          if String.eqb unit_system "Metric"
          then
            bind (Permissible_Deflection_y results * num 25.4)%py (fun y =>
            bind (Deflection_Force_P results * num 4.44822)%py (fun P =>
            bind (Mating_Force_W results * num 4.44822)%py (fun W =>
            Ok (mkResult y P W))))
          else Ok results).

(** The keys of the result dict, in insertion order. *)
Definition result_keys : list string :=
  [ "Permissible Deflection (y)"%string; "Deflection Force (P)"%string;
    "Mating Force (W)"%string ].

(** The unit printed after the value of key [k]. *)
Definition unit_label (unit_system k : string) : string :=
  if contains "Force" k then force_unit unit_system
  else if contains "Deflection" k then length_unit unit_system
  else ""%string.

(* ================================================================== *)
(** * Parametric study: default range and plotted table                 *)
(* ================================================================== *)

Definition start_default (defaults : inputs) (sweep_param : string) : R :=
  if String.eqb sweep_param "Thickness h" then def_h defaults
  else if String.eqb sweep_param "Length L" then def_L defaults
  else 0.01.

Definition stop_default (defaults : inputs) (sweep_param : string) : R :=
  if String.eqb sweep_param "Thickness h" then def_h defaults * 3
  else if String.eqb sweep_param "Length L" then def_L defaults * 3
  else 0.05.

(** A cell of a float64 column of the data frame. *)
Definition as_float64 (v : pyval) : float64 :=
  match v with
  | PyNone => NaN
  | PyFloat r => Fin r
  | NpFloat64 x => x
  end.

(** A row of [df_plot]. *)
Record plot_row : Type := mkPlotRow {
  plot_Sweep_Value : float64;
  plot_y : float64;
  plot_P : float64;
  plot_W : float64
}.

(** The unit conversion of [df_plot], column by column: products by
    25.4 and 4.44822 when the unit system is "Metric", quotients
    otherwise; the swept strain is left as it is. *)
Definition df_plot_row (unit_system sweep_param : string) (r : row) : plot_row :=
  let sv := as_float64 (Sweep_Value r) in
  let y := as_float64 (row_y r) in
  let P := as_float64 (row_P r) in
  let W := as_float64 (row_W r) in
  let swept_length := negb (String.eqb sweep_param "Allowable Strain ε") in
  if String.eqb unit_system "Metric"
  then mkPlotRow (if swept_length then f_mul sv (Fin 25.4) else sv)
         (f_mul y (Fin 25.4)) (f_mul P (Fin 4.44822)) (f_mul W (Fin 4.44822))
  else mkPlotRow (if swept_length then f_div sv (Fin 25.4) else sv)
         (f_div y (Fin 25.4)) (f_div P (Fin 4.44822)) (f_div W (Fin 4.44822)).

Definition df_plot (unit_system sweep_param : string) (df : list row)
    : list plot_row :=
  map (df_plot_row unit_system sweep_param) df.

(* ================================================================== *)
(** * Closed forms of the engine                                        *)
(* ================================================================== *)

(** [raises m]: the computation ends in an exception. *)
Definition raises {A : Type} (m : exc A) : Prop := exists e, m = Raise e.

(** The deflection of each family, on reals. *)
Definition deflection_formula (profile : string) (c e l hv bv av rv : R) : R :=
  if contains "Rectangle" profile then c * e * l ^ 2 / hv
  else if contains "Trapezoid" profile
  then c * ((av + bv) / (2 * av + bv)) * e * l ^ 2 / hv
  else if contains "Ring Segment" profile then c * e * l ^ 2 / rv
  else c * e * l ^ 2 / hv.

(** The section modulus of each family, on reals. *)
Definition modulus_formula (profile : string) (hv bv av zv : R) : R :=
  if contains "Rectangle" profile then bv * hv ^ 2 / 6
  else if contains "Trapezoid" profile
  then hv ^ 2 / 12 * ((av ^ 2 + 4 * av * bv + bv ^ 2) / (2 * av + bv))
  else zv.

(** A field the family of [profile] reads is [None]. *)
Definition missing_required (profile : string) (h b a r2 Z : pyval) : Prop :=
  if contains "Rectangle" profile then h = PyNone \/ b = PyNone
  else if contains "Trapezoid" profile
  then h = PyNone \/ a = PyNone \/ b = PyNone
  else if contains "Ring Segment" profile then r2 = PyNone \/ Z = PyNone
  else h = PyNone \/ Z = PyNone.

(** A keyword argument that is a Python float when given and [None]
    when left out. *)
Definition optional_float (o : option R) : pyval :=
  match o with
  | Some r => PyFloat r
  | None => PyNone
  end.

(** The deflection and the deflection force of the row of a sweep, as
    functions of the sample [x]. *)
Definition sweep_y (d : inputs) (sweep_param : string) (x : R) : R :=
  if String.eqb sweep_param "Thickness h" then 0.67 * 0.02 * def_L d ^ 2 / x
  else if String.eqb sweep_param "Length L" then 0.67 * 0.02 * x ^ 2 / def_h d
  else 0.67 * x * def_L d ^ 2 / def_h d.

Definition sweep_P (d : inputs) (sweep_param : string) (x : R) : R :=
  if String.eqb sweep_param "Thickness h"
  then def_b d * x ^ 2 / 6 * def_E d * 0.02 / def_L d
  else if String.eqb sweep_param "Length L"
  then def_b d * def_h d ^ 2 / 6 * def_E d * 0.02 / x
  else def_b d * def_h d ^ 2 / 6 * def_E d * x / def_L d.

(** The factor between a plotted sweep value and the sample. *)
Definition plot_scale (unit_system sweep_param : string) : R :=
  if String.eqb sweep_param "Allowable Strain ε" then 1
  else if String.eqb unit_system "Metric" then 25.4 else / 25.4.

(* ================================================================== *)
(** * The range in which squaring cannot overflow                       *)
(* ================================================================== *)

(** Python's [x ** 2] on a float raises [OverflowError] when the square
    exceeds the largest float, that is for [x] beyond about 1.34e154 in
    absolute value, an exception [py_sq] does not model.  The
    statements about which calls raise are made for operands of [**]
    within 1e154, whose square is at most 1e308 and is a float. *)
Definition square_in_range (x : R) : Prop := Rabs x <= 1e154.

(** The operands of [**] in the branch of the family of [profile]:
    [L], and [h] (Rectangle), [h], [a] and [b] (Trapezoid). *)
Definition squares_in_range (profile : string) (l hv bv av : R) : Prop :=
  if contains "Rectangle" profile
  then square_in_range l /\ square_in_range hv
  else if contains "Trapezoid" profile
  then square_in_range l /\ square_in_range hv
       /\ square_in_range av /\ square_in_range bv
  else square_in_range l.

Definition optional_in_range (o : option R) : Prop :=
  match o with
  | Some x => square_in_range x
  | None => True
  end.

(* ================================================================== *)
(** * Tactics                                                           *)
(* ================================================================== *)

(** Evaluation of an expression whose operands are known values; the
    tests on reals stay. *)
Ltac py_eval :=
  cbn [bind lift1 lift2 val num py_add py_sub py_mul py_div py_binop py_sq
       np_radians np_tan np_ufunc f_radians f_tan].

Ltac float_run :=
  repeat (py_eval; unfold py_truediv;
          match goal with
          | |- context [Req_dec_T ?x 0] => destruct (Req_dec_T x 0)
          end);
  py_eval.

Ltac float_done :=
  first [ reflexivity
        | eexists; reflexivity
        | exfalso; tauto
        | exfalso; lra ].

(* ================================================================== *)
(** * Numbers in expressions                                            *)
(* ================================================================== *)

Lemma is_num_cases (v : pyval) (r : R) :
  is_num v r -> v = PyFloat r \/ v = NpFloat64 (Fin r).
Proof.
  unfold is_num; destruct v as [ | a | [a | | | ]]; simpl; intros H;
    try discriminate; injection H as ->; auto.
Qed.

Lemma is_num_not_none (v : pyval) (r : R) : is_num v r -> v <> PyNone.
Proof. intros H ->; discriminate H. Qed.

Lemma evals_val (v : pyval) (r : R) : is_num v r -> evals (val v) r.
Proof. intros H; exists v; split; [reflexivity | exact H]. Qed.

Lemma evals_num (r : R) : evals (num r) r.
Proof. exists (PyFloat r); split; reflexivity. Qed.

Lemma evals_not_none (e : exc pyval) (r : R) : evals e r -> not_none e.
Proof.
  intros (v & -> & H); exists v; split; [reflexivity | eapply is_num_not_none; eauto].
Qed.

Lemma np_valued_not_none (e : exc pyval) : np_valued e -> not_none e.
Proof. intros (x & ->); exists (NpFloat64 x); split; [reflexivity | discriminate]. Qed.

Lemma not_none_val (v : pyval) : v <> PyNone -> not_none (val v).
Proof. intros H; exists v; split; [reflexivity | exact H]. Qed.

Section Arithmetic.
Local Open Scope py_scope.

Ltac two_numbers Hx Hy :=
  destruct Hx as (x' & -> & Hx); destruct Hy as (y' & -> & Hy);
  destruct (is_num_cases _ _ Hx) as [-> | ->];
  destruct (is_num_cases _ _ Hy) as [-> | ->];
  cbn; eexists; split; reflexivity.

Lemma evals_add (x y : exc pyval) (a b : R) :
  evals x a -> evals y b -> evals (x + y) (a + b).
Proof. intros Hx Hy; two_numbers Hx Hy. Qed.

Lemma evals_sub (x y : exc pyval) (a b : R) :
  evals x a -> evals y b -> evals (x - y) (a - b).
Proof.
  intros Hx Hy.
  destruct Hx as (x' & -> & Hx); destruct Hy as (y' & -> & Hy);
  destruct (is_num_cases _ _ Hx) as [-> | ->];
  destruct (is_num_cases _ _ Hy) as [-> | ->];
  cbn; eexists; (split; [reflexivity | ]); unfold is_num; cbn; f_equal; lra.
Qed.

Lemma evals_mul (x y : exc pyval) (a b : R) :
  evals x a -> evals y b -> evals (x * y) (a * b).
Proof. intros Hx Hy; two_numbers Hx Hy. Qed.

Lemma evals_div (x y : exc pyval) (a b : R) :
  evals x a -> evals y b -> b <> 0 -> evals (x / y) (a / b).
Proof.
  intros Hx Hy Hb.
  destruct Hx as (x' & -> & Hx); destruct Hy as (y' & -> & Hy);
  destruct (is_num_cases _ _ Hx) as [-> | ->];
  destruct (is_num_cases _ _ Hy) as [-> | ->];
  cbn; unfold py_truediv; destruct (Req_dec_T b 0) as [E0 | _];
  try contradiction; eexists; split; reflexivity.
Qed.

Lemma evals_sq (x : exc pyval) (a : R) : evals x a -> evals (x **2) (a ^ 2).
Proof.
  intros (x' & -> & Hx); destruct (is_num_cases _ _ Hx) as [-> | ->];
    cbn; eexists; split; reflexivity.
Qed.

(** The numpy functions of a number. *)
Lemma np_radians_num (v : pyval) (d : R) :
  is_num v d -> np_radians v = Ok (NpFloat64 (Fin (d * (PI / 180)))).
Proof. intros H; destruct (is_num_cases _ _ H) as [-> | ->]; reflexivity. Qed.

Lemma np_ufunc_not_none (f : float64 -> float64) (v : pyval) :
  v <> PyNone -> np_valued (np_ufunc f v).
Proof. destruct v; [congruence | | ]; intros _; eexists; reflexivity. Qed.

(** Arithmetic in which a [numpy.float64] takes part never raises. *)
Lemma np_valued_binop_r fpy fnp (x y : exc pyval) :
  not_none x -> np_valued y -> np_valued (lift2 (py_binop fpy fnp) x y).
Proof.
  intros (v & -> & Hv) (u & ->); destruct v; [congruence | | ];
    eexists; reflexivity.
Qed.

Lemma np_valued_binop_l fpy fnp (x y : exc pyval) :
  np_valued x -> not_none y -> np_valued (lift2 (py_binop fpy fnp) x y).
Proof.
  intros (u & ->) (v & -> & Hv); destruct v; [congruence | | ];
    eexists; reflexivity.
Qed.

End Arithmetic.

(* ================================================================== *)
(** * The catalog                                                       *)
(* ================================================================== *)

Lemma dict_get_In (d : list (string * R)) (key : string) (c : R) :
  dict_get d key = Some c -> In (key, c) d.
Proof.
  induction d as [ | [k v] rest IH]; simpl; [discriminate | ].
  destruct (String.eqb k key) eqn:Hk.
  - intros H; injection H as ->. apply String.eqb_eq in Hk; subst; auto.
  - auto.
Qed.

(** A profile of the catalog names exactly one of the four families:
    the tests of the engine's [if] chain are mutually exclusive on it. *)
Lemma catalog_one_family (profile : string) (c : R) :
  dict_get PROFILE_FACTORS profile = Some c ->
  In (family_flags profile)
     [ [true; false; false; false]; [false; true; false; false];
       [false; false; true; false]; [false; false; false; true] ].
Proof.
  intros H; apply dict_get_In in H.
  unfold PROFILE_FACTORS in H; cbn [In] in H.
  repeat (destruct H as [H | H];
          [injection H as <- _; vm_compute; tauto | ]).
  contradiction.
Qed.

Lemma getitem_catalog (profile : string) (c : R) :
  dict_get PROFILE_FACTORS profile = Some c ->
  PROFILE_FACTORS_getitem profile = Ok (PyFloat c).
Proof. unfold PROFILE_FACTORS_getitem; intros ->; reflexivity. Qed.

(* ================================================================== *)
(** * The engine after the family branch                                *)
(* ================================================================== *)

Create HintDb py.
#[local] Hint Resolve evals_val evals_num evals_add evals_sub evals_mul
  evals_div evals_sq : py.

Section ForceFormulas.

Variables (profile : string) (c : R).
Variables (E eps L h b a r2 Z mu alpha_deg y Z_sec : pyval).
Variables (Ev e l z : R).

Hypothesis Hcat : dict_get PROFILE_FACTORS profile = Some c.
Hypothesis Hbranch :
  deflection_and_modulus profile (PyFloat c) eps L h b a r2 Z = Ok (y, Z_sec).
Hypothesis HZ : is_num Z_sec z.
Hypothesis HE : is_num E Ev.
Hypothesis Heps : is_num eps e.
Hypothesis HL : is_num L l.
Hypothesis Hl : l <> 0.
Hypothesis Hmu : mu <> PyNone.
Hypothesis Halpha : alpha_deg <> PyNone.

Lemma forces_after_branch :
  exists P W : pyval,
    calculate_snap_fit_body profile E eps L h b a r2 Z mu alpha_deg
      = Ok (mkResult y P W)
    /\ is_num P (z * Ev * e / l)
    /\ (exists w, W = NpFloat64 w)
    /\ (forall m d : R,
          is_num mu m -> is_num alpha_deg d ->
          1 - m * tan (d * (PI / 180)) <> 0 ->
          is_num W (z * Ev * e / l
                    * ((m + tan (d * (PI / 180)))
                       / (1 - m * tan (d * (PI / 180)))))).
Proof.
  unfold calculate_snap_fit_body.
  destruct (np_ufunc_not_none f_radians alpha_deg Halpha) as (ar & Har).
  fold np_radians in Har; rewrite Har; cbn [bind].
  rewrite (getitem_catalog _ _ Hcat); cbn [bind].
  rewrite Hbranch; cbn [bind].
  assert (HP : evals (Z_sec * E * eps / L)%py (z * Ev * e / l)) by auto 10 with py.
  destruct HP as (P & HPeq & HP); rewrite HPeq; cbn [bind].
  set (t := np_tan (NpFloat64 ar)).
  assert (Ht : np_valued t) by (apply np_ufunc_not_none; discriminate).
  assert (HW : np_valued (P * ((mu + t) / (num 1 - mu * t)))%py).
  { apply np_valued_binop_r.
    - apply not_none_val; eapply is_num_not_none; eauto.
    - apply np_valued_binop_l.
      + apply np_valued_binop_r; [apply not_none_val; assumption | assumption].
      + apply np_valued_not_none, np_valued_binop_r.
        * eapply evals_not_none, evals_num.
        * apply np_valued_binop_r; [apply not_none_val; assumption | assumption]. }
  destruct HW as (w & HWeq); rewrite HWeq; cbn [bind].
  exists P, (NpFloat64 w); repeat split; eauto.
  intros m d Hm Hd Hden.
  rewrite (np_radians_num _ _ Hd) in Har; injection Har as <-.
  assert (HW' : evals (P * ((mu + t) / (num 1 - mu * t)))%py
                  (z * Ev * e / l
                   * ((m + tan (d * (PI / 180)))
                      / (1 - m * tan (d * (PI / 180)))))).
  { assert (Ht' : evals t (tan (d * (PI / 180)))).
    { eexists; split; [reflexivity | reflexivity]. }
    auto 10 with py. }
  destruct HW' as (W' & HW'eq & HW'); rewrite HWeq in HW'eq.
  injection HW'eq as <-; exact HW'.
Qed.

End ForceFormulas.

(* ================================================================== *)
(** * The four family branches                                          *)
(* ================================================================== *)

Section Branches.

Variables (profile : string) (c : R).
Variables (eps L h b a r2 Z : pyval).
Variables (e l : R).

Hypothesis Hcat : dict_get PROFILE_FACTORS profile = Some c.
Hypothesis Heps : is_num eps e.
Hypothesis HL : is_num L l.

Let factor : pyval := PyFloat c.

Let Hfactor : is_num factor c.
Proof. reflexivity. Qed.

Lemma branch_rectangle (hv bv : R) :
  contains "Rectangle" profile = true ->
  is_num h hv -> is_num b bv -> hv <> 0 ->
  exists y Z_sec : pyval,
    deflection_and_modulus profile factor eps L h b a r2 Z = Ok (y, Z_sec)
    /\ is_num y (c * e * l ^ 2 / hv)
    /\ is_num Z_sec (bv * hv ^ 2 / 6).
Proof.
  intros Hfam Hh Hb Hhv. unfold deflection_and_modulus; rewrite Hfam.
  assert (Hy : evals (factor * eps * L **2 / h)%py (c * e * l ^ 2 / hv))
    by auto 10 with py.
  destruct Hy as (y & -> & Hy); cbn [bind].
  assert (Hz : evals (b * h **2 / num 6)%py (bv * hv ^ 2 / 6)).
  { apply evals_div; [auto 10 with py | auto with py | lra]. }
  destruct Hz as (Z_sec & -> & Hz); cbn [bind].
  exists y, Z_sec; auto.
Qed.

Lemma branch_trapezoid (hv av bv : R) :
  contains "Trapezoid" profile = true ->
  is_num h hv -> is_num a av -> is_num b bv ->
  hv <> 0 -> 2 * av + bv <> 0 ->
  exists y Z_sec : pyval,
    deflection_and_modulus profile factor eps L h b a r2 Z = Ok (y, Z_sec)
    /\ is_num y (c * ((av + bv) / (2 * av + bv)) * e * l ^ 2 / hv)
    /\ is_num Z_sec
         (hv ^ 2 / 12
          * ((av ^ 2 + 4 * av * bv + bv ^ 2) / (2 * av + bv))).
Proof.
  intros Hfam Hh Ha Hb Hhv Hab.
  pose proof (catalog_one_family _ _ Hcat) as Hone.
  unfold family_flags in Hone; rewrite Hfam in Hone.
  destruct (contains "Rectangle" profile) eqn:Hrect;
    [cbn in Hone; intuition discriminate | clear Hone].
  unfold deflection_and_modulus; rewrite Hrect, Hfam.
  assert (Hy : evals (factor * ((a + b) / (num 2 * a + b)) * eps * L **2 / h)%py
                 (c * ((av + bv) / (2 * av + bv)) * e * l ^ 2 / hv))
    by auto 15 with py.
  destruct Hy as (y & -> & Hy); cbn [bind].
  assert (Hz : evals ((h **2 / num 12)
                      * ((a **2 + num 4 * a * b + b **2) / (num 2 * a + b)))%py
                 (hv ^ 2 / 12
                  * ((av ^ 2 + 4 * av * bv + bv ^ 2) / (2 * av + bv)))).
  { apply evals_mul.
    - apply evals_div; [auto with py | auto with py | lra].
    - auto 15 with py. }
  destruct Hz as (Z_sec & -> & Hz); cbn [bind].
  exists y, Z_sec; auto.
Qed.

Lemma branch_ring_segment (rv : R) :
  contains "Ring Segment" profile = true ->
  is_num r2 rv -> rv <> 0 ->
  exists y : pyval,
    deflection_and_modulus profile factor eps L h b a r2 Z = Ok (y, Z)
    /\ is_num y (c * e * l ^ 2 / rv).
Proof.
  intros Hfam Hr Hrv.
  pose proof (catalog_one_family _ _ Hcat) as Hone.
  unfold family_flags in Hone; rewrite Hfam in Hone.
  destruct (contains "Rectangle" profile) eqn:Hrect;
    [cbn in Hone; intuition discriminate | ].
  destruct (contains "Trapezoid" profile) eqn:Htrap;
    [cbn in Hone; intuition discriminate | clear Hone].
  unfold deflection_and_modulus; rewrite Hrect, Htrap, Hfam.
  assert (Hy : evals (factor * eps * L **2 / r2)%py (c * e * l ^ 2 / rv))
    by auto 10 with py.
  destruct Hy as (y & -> & Hy); cbn [bind].
  exists y; auto.
Qed.

Lemma branch_irregular (hv : R) :
  contains "Irregular" profile = true ->
  is_num h hv -> hv <> 0 ->
  exists y : pyval,
    deflection_and_modulus profile factor eps L h b a r2 Z = Ok (y, Z)
    /\ is_num y (c * e * l ^ 2 / hv).
Proof.
  intros Hfam Hh Hhv.
  pose proof (catalog_one_family _ _ Hcat) as Hone.
  unfold family_flags in Hone; rewrite Hfam in Hone.
  destruct (contains "Rectangle" profile) eqn:Hrect;
    [cbn in Hone; intuition discriminate | ].
  destruct (contains "Trapezoid" profile) eqn:Htrap;
    [cbn in Hone; intuition discriminate | ].
  destruct (contains "Ring Segment" profile) eqn:Hring;
    [cbn in Hone; intuition discriminate | clear Hone].
  unfold deflection_and_modulus; rewrite Hrect, Htrap, Hring.
  assert (Hy : evals (factor * eps * L **2 / h)%py (c * e * l ^ 2 / hv))
    by auto 10 with py.
  destruct Hy as (y & -> & Hy); cbn [bind].
  exists y; auto.
Qed.

End Branches.

Lemma default_to_not_none (r : R) (arg : option pyval) :
  arg <> Some PyNone -> default_to (PyFloat r) arg <> PyNone.
Proof. destruct arg as [v | ]; simpl; [congruence | discriminate]. Qed.

(* ================================================================== *)
(** * The profile catalog                                               *)
(* ================================================================== *)

(** C5.  The catalog has exactly the twelve variants (four families in
    three tapers), no name twice, and maps each of them to the listed
    factor: 0.67 / 1.09 / 0.86 for Rectangle, 1.00 / 1.64 / 1.28 for
    Trapezoid and for Ring Segment, 1/3 / 0.55 / 0.43 for Irregular.
    The table is a constant: every lookup answers from it. *)
Theorem catalog_twelve_fixed_factors :
  map fst PROFILE_FACTORS = map (fun v => variant_name (fst v) (snd v)) all_variants
  /\ length PROFILE_FACTORS = 12%nat
  /\ NoDup (map fst PROFILE_FACTORS)
  /\ (forall f t, dict_get PROFILE_FACTORS (variant_name f t) = Some (listed_factor f t))
  /\ (forall profile c,
        dict_get PROFILE_FACTORS profile = Some c ->
        exists f t, profile = variant_name f t /\ c = listed_factor f t).
Proof.
  split; [reflexivity | ].
  split; [reflexivity | ].
  split.
  { unfold PROFILE_FACTORS; cbn [map fst].
    repeat (constructor; [cbn [In]; intuition discriminate | ]).
    constructor. }
  split.
  { intros [] []; reflexivity. }
  intros profile c H; apply dict_get_In in H.
  unfold PROFILE_FACTORS in H; cbn [In] in H.
  repeat (destruct H as [H | H];
          [injection H as <- <-;
           first [ exists Rectangle, Constant; split; reflexivity
                 | exists Rectangle, Y_Halved; split; reflexivity
                 | exists Rectangle, Z_Quartered; split; reflexivity
                 | exists Trapezoid, Constant; split; reflexivity
                 | exists Trapezoid, Y_Halved; split; reflexivity
                 | exists Trapezoid, Z_Quartered; split; reflexivity
                 | exists Ring_Segment, Constant; split; reflexivity
                 | exists Ring_Segment, Y_Halved; split; reflexivity
                 | exists Ring_Segment, Z_Quartered; split; reflexivity
                 | exists Irregular, Constant; split; reflexivity
                 | exists Irregular, Y_Halved; split; reflexivity
                 | exists Irregular, Z_Quartered; split; reflexivity ] | ]).
  contradiction.
Qed.

(* ================================================================== *)
(** * The formulas of the engine                                        *)
(* ================================================================== *)

Lemma is_num_eq (v : pyval) (r r' : R) : is_num v r -> r = r' -> is_num v r'.
Proof. intros H <-; exact H. Qed.

(** Once the family branch has produced [y] and a numeric [Z_sec], the
    call returns [y] and the force [Z_sec * E * eps / L]. *)
Lemma engine_of_branch (profile : string) (c : R)
    (E eps L h b a r2 Z : pyval) (mu alpha_deg : option pyval)
    (y Z_sec : pyval) (Ev e l z : R) :
  dict_get PROFILE_FACTORS profile = Some c ->
  deflection_and_modulus profile (PyFloat c) eps L h b a r2 Z = Ok (y, Z_sec) ->
  is_num Z_sec z -> is_num E Ev -> is_num eps e -> is_num L l -> l <> 0 ->
  mu <> Some PyNone -> alpha_deg <> Some PyNone ->
  exists r : result,
    calculate_snap_fit profile E eps L h b a r2 Z mu alpha_deg = Ok r
    /\ Permissible_Deflection_y r = y
    /\ is_num (Deflection_Force_P r) (z * Ev * e / l).
Proof.
  intros Hcat Hbr HZ HE He HL Hl Hmu Hal.
  destruct (forces_after_branch profile c E eps L h b a r2 Z
              (default_to (PyFloat 0.3) mu) (default_to (PyFloat 5) alpha_deg)
              y Z_sec Ev e l z Hcat Hbr HZ HE He HL Hl
              (default_to_not_none _ _ Hmu) (default_to_not_none _ _ Hal))
    as (P & W & Hcall & HP & _).
  exists (mkResult y P W); auto.
Qed.

(** C1.  Rectangle family: [y = C * eps * L^2 / h] and the section
    modulus is [b * h^2 / 6].  Trapezoid family:
    [y = C * (a+b)/(2a+b) * eps * L^2 / h] and the section modulus is
    [h^2/12 * (a^2 + 4ab + b^2)/(2a+b)].  [C] is the catalog factor of
    the profile; the section modulus is the one the deflection force
    [P] is computed from. *)
Theorem rectangle_and_trapezoid_formulas :
  (forall (profile : string) (c : R) (E eps L h b a r2 Z : pyval)
          (mu alpha_deg : option pyval) (Ev e l hv bv : R),
      dict_get PROFILE_FACTORS profile = Some c ->
      contains "Rectangle" profile = true ->
      is_num E Ev -> is_num eps e -> is_num L l ->
      is_num h hv -> is_num b bv ->
      hv <> 0 -> l <> 0 ->
      mu <> Some PyNone -> alpha_deg <> Some PyNone ->
      exists (r : result) (Z_sec : pyval),
        calculate_snap_fit profile E eps L h b a r2 Z mu alpha_deg = Ok r
        /\ deflection_and_modulus profile (PyFloat c) eps L h b a r2 Z
           = Ok (Permissible_Deflection_y r, Z_sec)
        /\ is_num (Permissible_Deflection_y r) (c * e * l ^ 2 / hv)
        /\ is_num Z_sec (bv * hv ^ 2 / 6)
        /\ is_num (Deflection_Force_P r) (bv * hv ^ 2 / 6 * Ev * e / l))
  /\
  (forall (profile : string) (c : R) (E eps L h b a r2 Z : pyval)
          (mu alpha_deg : option pyval) (Ev e l hv av bv : R),
      dict_get PROFILE_FACTORS profile = Some c ->
      contains "Trapezoid" profile = true ->
      is_num E Ev -> is_num eps e -> is_num L l ->
      is_num h hv -> is_num a av -> is_num b bv ->
      hv <> 0 -> 2 * av + bv <> 0 -> l <> 0 ->
      mu <> Some PyNone -> alpha_deg <> Some PyNone ->
      exists (r : result) (Z_sec : pyval),
        calculate_snap_fit profile E eps L h b a r2 Z mu alpha_deg = Ok r
        /\ deflection_and_modulus profile (PyFloat c) eps L h b a r2 Z
           = Ok (Permissible_Deflection_y r, Z_sec)
        /\ is_num (Permissible_Deflection_y r)
             (c * (av + bv) / (2 * av + bv) * e * l ^ 2 / hv)
        /\ is_num Z_sec
             (hv ^ 2 / 12 * (av ^ 2 + 4 * av * bv + bv ^ 2) / (2 * av + bv))
        /\ is_num (Deflection_Force_P r)
             (hv ^ 2 / 12 * (av ^ 2 + 4 * av * bv + bv ^ 2) / (2 * av + bv)
              * Ev * e / l)).
Proof.
  split.
  - intros profile c E eps L h b a r2 Z mu alpha_deg Ev e l hv bv
      Hcat Hfam HE He HL Hh Hb Hhv Hl Hmu Hal.
    destruct (branch_rectangle profile c eps L h b a r2 Z e l He HL hv bv
                Hfam Hh Hb Hhv) as (y & Z_sec & Hbr & Hy & HZ).
    destruct (engine_of_branch profile c E eps L h b a r2 Z mu alpha_deg
                y Z_sec Ev e l _ Hcat Hbr HZ HE He HL Hl Hmu Hal)
      as (r & Hcall & Hry & HP).
    exists r, Z_sec; subst y; auto.
  - intros profile c E eps L h b a r2 Z mu alpha_deg Ev e l hv av bv
      Hcat Hfam HE He HL Hh Ha Hb Hhv Hab Hl Hmu Hal.
    destruct (branch_trapezoid profile c eps L h b a r2 Z e l Hcat He HL
                hv av bv Hfam Hh Ha Hb Hhv Hab) as (y & Z_sec & Hbr & Hy & HZ).
    destruct (engine_of_branch profile c E eps L h b a r2 Z mu alpha_deg
                y Z_sec Ev e l _ Hcat Hbr HZ HE He HL Hl Hmu Hal)
      as (r & Hcall & Hry & HP).
    exists r, Z_sec; subst y.
    repeat split; auto.
    + eapply is_num_eq; [exact Hy | field; auto].
    + eapply is_num_eq; [exact HZ | field; auto].
    + eapply is_num_eq; [exact HP | field; auto].
Qed.

(** Witness of C1: the defaults of the metric form, for the first
    Rectangle and the second Trapezoid profile. *)
Lemma rectangle_and_trapezoid_formulas_witness :
  (exists (r : result) (Z_sec : pyval),
      calculate_snap_fit "Rectangle – Constant Cross Section"
        (PyFloat 2.07e9) (PyFloat 0.02) (PyFloat 25.4) (PyFloat 2.54)
        (PyFloat 12.7) PyNone PyNone PyNone
        (Some (PyFloat 0.30)) (Some (PyFloat 5.0)) = Ok r
      /\ deflection_and_modulus "Rectangle – Constant Cross Section"
           (PyFloat 0.67) (PyFloat 0.02) (PyFloat 25.4) (PyFloat 2.54)
           (PyFloat 12.7) PyNone PyNone PyNone
         = Ok (Permissible_Deflection_y r, Z_sec)
      /\ is_num (Permissible_Deflection_y r) (0.67 * 0.02 * 25.4 ^ 2 / 2.54)
      /\ is_num Z_sec (12.7 * 2.54 ^ 2 / 6)
      /\ is_num (Deflection_Force_P r) (12.7 * 2.54 ^ 2 / 6 * 2.07e9 * 0.02 / 25.4))
  /\
  (exists (r : result) (Z_sec : pyval),
      calculate_snap_fit "Trapezoid – Y Dimensions Halved"
        (PyFloat 2.07e9) (PyFloat 0.02) (PyFloat 25.4) (PyFloat 2.54)
        (PyFloat 12.7) (PyFloat 15.24) PyNone PyNone None None = Ok r
      /\ deflection_and_modulus "Trapezoid – Y Dimensions Halved"
           (PyFloat 1.64) (PyFloat 0.02) (PyFloat 25.4) (PyFloat 2.54)
           (PyFloat 12.7) (PyFloat 15.24) PyNone PyNone
         = Ok (Permissible_Deflection_y r, Z_sec)
      /\ is_num (Permissible_Deflection_y r)
           (1.64 * (15.24 + 12.7) / (2 * 15.24 + 12.7) * 0.02 * 25.4 ^ 2 / 2.54)
      /\ is_num Z_sec
           (2.54 ^ 2 / 12 * (15.24 ^ 2 + 4 * 15.24 * 12.7 + 12.7 ^ 2)
            / (2 * 15.24 + 12.7))
      /\ is_num (Deflection_Force_P r)
           (2.54 ^ 2 / 12 * (15.24 ^ 2 + 4 * 15.24 * 12.7 + 12.7 ^ 2)
            / (2 * 15.24 + 12.7) * 2.07e9 * 0.02 / 25.4)).
Proof.
  split.
  - apply (proj1 rectangle_and_trapezoid_formulas);
      try reflexivity; try discriminate; lra.
  - apply (proj2 rectangle_and_trapezoid_formulas);
      try reflexivity; try discriminate; lra.
Defined.

(** C2.  Ring Segment family: [y = C * eps * L^2 / r2]; Irregular
    family: [y = C * eps * L^2 / h]; in both the section modulus is the
    argument [Z] itself, and the deflection force is computed from it. *)
Theorem ring_segment_and_irregular_formulas :
  (forall (profile : string) (c : R) (E eps L h b a r2 Z : pyval)
          (mu alpha_deg : option pyval) (Ev e l rv zv : R),
      dict_get PROFILE_FACTORS profile = Some c ->
      contains "Ring Segment" profile = true ->
      is_num E Ev -> is_num eps e -> is_num L l ->
      is_num r2 rv -> is_num Z zv ->
      rv <> 0 -> l <> 0 ->
      mu <> Some PyNone -> alpha_deg <> Some PyNone ->
      exists r : result,
        calculate_snap_fit profile E eps L h b a r2 Z mu alpha_deg = Ok r
        /\ deflection_and_modulus profile (PyFloat c) eps L h b a r2 Z
           = Ok (Permissible_Deflection_y r, Z)
        /\ is_num (Permissible_Deflection_y r) (c * e * l ^ 2 / rv)
        /\ is_num (Deflection_Force_P r) (zv * Ev * e / l))
  /\
  (forall (profile : string) (c : R) (E eps L h b a r2 Z : pyval)
          (mu alpha_deg : option pyval) (Ev e l hv zv : R),
      dict_get PROFILE_FACTORS profile = Some c ->
      contains "Irregular" profile = true ->
      is_num E Ev -> is_num eps e -> is_num L l ->
      is_num h hv -> is_num Z zv ->
      hv <> 0 -> l <> 0 ->
      mu <> Some PyNone -> alpha_deg <> Some PyNone ->
      exists r : result,
        calculate_snap_fit profile E eps L h b a r2 Z mu alpha_deg = Ok r
        /\ deflection_and_modulus profile (PyFloat c) eps L h b a r2 Z
           = Ok (Permissible_Deflection_y r, Z)
        /\ is_num (Permissible_Deflection_y r) (c * e * l ^ 2 / hv)
        /\ is_num (Deflection_Force_P r) (zv * Ev * e / l)).
Proof.
  split.
  - intros profile c E eps L h b a r2 Z mu alpha_deg Ev e l rv zv
      Hcat Hfam HE He HL Hr HZ Hrv Hl Hmu Hal.
    destruct (branch_ring_segment profile c eps L h b a r2 Z e l Hcat He HL
                rv Hfam Hr Hrv) as (y & Hbr & Hy).
    destruct (engine_of_branch profile c E eps L h b a r2 Z mu alpha_deg
                y Z Ev e l zv Hcat Hbr HZ HE He HL Hl Hmu Hal)
      as (r & Hcall & Hry & HP).
    exists r; subst y; auto.
  - intros profile c E eps L h b a r2 Z mu alpha_deg Ev e l hv zv
      Hcat Hfam HE He HL Hh HZ Hhv Hl Hmu Hal.
    destruct (branch_irregular profile c eps L h b a r2 Z e l Hcat He HL
                hv Hfam Hh Hhv) as (y & Hbr & Hy).
    destruct (engine_of_branch profile c E eps L h b a r2 Z mu alpha_deg
                y Z Ev e l zv Hcat Hbr HZ HE He HL Hl Hmu Hal)
      as (r & Hcall & Hry & HP).
    exists r; subst y; auto.
Qed.

(** Witness of C2: the defaults of the imperial form. *)
Lemma ring_segment_and_irregular_formulas_witness :
  (exists r : result,
      calculate_snap_fit "Ring Segment – Z Dimensions Quartered"
        (PyFloat 300000.0) (PyFloat 0.02) (PyFloat 1.0) PyNone PyNone PyNone
        (PyFloat 0.50) (PyFloat 0.01)
        (Some (PyFloat 0.30)) (Some (PyFloat 5.0)) = Ok r
      /\ deflection_and_modulus "Ring Segment – Z Dimensions Quartered"
           (PyFloat 1.28) (PyFloat 0.02) (PyFloat 1.0) PyNone PyNone PyNone
           (PyFloat 0.50) (PyFloat 0.01)
         = Ok (Permissible_Deflection_y r, PyFloat 0.01)
      /\ is_num (Permissible_Deflection_y r) (1.28 * 0.02 * 1.0 ^ 2 / 0.50)
      /\ is_num (Deflection_Force_P r) (0.01 * 300000.0 * 0.02 / 1.0))
  /\
  (exists r : result,
      calculate_snap_fit "Irregular – Constant Cross Section"
        (PyFloat 300000.0) (PyFloat 0.02) (PyFloat 1.0) (PyFloat 0.10)
        PyNone PyNone PyNone (PyFloat 0.01)
        (Some (PyFloat 0.30)) (Some (PyFloat 5.0)) = Ok r
      /\ deflection_and_modulus "Irregular – Constant Cross Section"
           (PyFloat (1 / 3)) (PyFloat 0.02) (PyFloat 1.0) (PyFloat 0.10)
           PyNone PyNone PyNone (PyFloat 0.01)
         = Ok (Permissible_Deflection_y r, PyFloat 0.01)
      /\ is_num (Permissible_Deflection_y r) (1 / 3 * 0.02 * 1.0 ^ 2 / 0.10)
      /\ is_num (Deflection_Force_P r) (0.01 * 300000.0 * 0.02 / 1.0)).
Proof.
  split.
  - apply (proj1 ring_segment_and_irregular_formulas);
      try reflexivity; try discriminate; lra.
  - apply (proj2 ring_segment_and_irregular_formulas);
      try reflexivity; try discriminate; lra.
Defined.

(** C3.  Whatever the family, once the branch has determined [y] and
    [Z_sec] the call returns [P = Z_sec * E * eps / L] and
    [W = P * (mu + tan(alpha_rad)) / (1 - mu * tan(alpha_rad))], where
    [alpha_rad] is the lead-in angle in radians; the mating force is a
    finite number when the denominator is not zero. *)
Theorem force_formulas_uniform (profile : string) (c : R)
    (E eps L h b a r2 Z mu alpha_deg y Z_sec : pyval) (Ev e l z m d : R) :
  dict_get PROFILE_FACTORS profile = Some c ->
  deflection_and_modulus profile (PyFloat c) eps L h b a r2 Z = Ok (y, Z_sec) ->
  is_num Z_sec z -> is_num E Ev -> is_num eps e -> is_num L l -> l <> 0 ->
  is_num mu m -> is_num alpha_deg d ->
  let alpha_rad := d * PI / 180 in
  exists r : result,
    calculate_snap_fit profile E eps L h b a r2 Z (Some mu) (Some alpha_deg) = Ok r
    /\ Permissible_Deflection_y r = y
    /\ is_num (Deflection_Force_P r) (z * Ev * e / l)
    /\ (1 - m * tan alpha_rad <> 0 ->
        is_num (Mating_Force_W r)
          ((z * Ev * e / l) * (m + tan alpha_rad) / (1 - m * tan alpha_rad))).
Proof.
  intros Hcat Hbr HZ HE He HL Hl Hm Hd alpha_rad.
  destruct (forces_after_branch profile c E eps L h b a r2 Z mu alpha_deg
              y Z_sec Ev e l z Hcat Hbr HZ HE He HL Hl
              (is_num_not_none _ _ Hm) (is_num_not_none _ _ Hd))
    as (P & W & Hcall & HP & _ & HW).
  exists (mkResult y P W); repeat split; auto.
  cbn [Mating_Force_W]; intros Hden.
  assert (Hrad : d * (PI / 180) = alpha_rad) by (unfold alpha_rad; field).
  specialize (HW m d Hm Hd); rewrite Hrad in HW.
  eapply is_num_eq; [exact (HW Hden) | field; auto].
Qed.

(* ================================================================== *)
(** * Calls with Python floats                                          *)
(* ================================================================== *)

Lemma py_truediv_nonzero (a b : R) : b <> 0 -> py_truediv a b = Ok (a / b).
Proof.
  intros Hb; unfold py_truediv; destruct (Req_dec_T b 0); [contradiction | reflexivity].
Qed.

Lemma mating_force_finite (P m d : R) :
  1 - m * tan (d * (PI / 180)) <> 0 ->
  mating_force P m d
  = Fin (P * ((m + tan (d * (PI / 180))) / (1 - m * tan (d * (PI / 180))))).
Proof.
  intros Hden; unfold mating_force, f_sub; cbn [f_add f_mul f_neg f_div].
  destruct (Req_dec_T _ 0) as [E0 | _]; [exfalso; apply Hden; lra | ].
  cbn [f_mul]; do 2 f_equal; f_equal; lra.
Qed.

(** The tangent of the default lead-in angle, five degrees. *)
Lemma tan_5_degrees : 0 < tan (5 * (PI / 180)) < 2 / 9.
Proof.
  pose proof PI_RGT_0 as Hpi; pose proof PI_4 as Hpi4.
  set (x := 5 * (PI / 180)).
  assert (Hx0 : 0 < x) by (unfold x; lra).
  assert (Hx1 : x <= 1 / 9) by (unfold x; lra).
  assert (Hsin : sin x < x) by (apply sin_lt_x; exact Hx0).
  assert (Hsin0 : 0 < sin x) by (apply sin_gt_0; unfold x in *; lra).
  assert (Hcos : 1 / 2 <= cos x).
  { rewrite <- cos_PI3; apply cos_decr_1; unfold x; lra. }
  unfold tan; split.
  - apply Rdiv_lt_0_compat; lra.
  - apply Rmult_lt_reg_r with (cos x); [lra | ].
    unfold Rdiv at 1; rewrite Rmult_assoc, Rinv_l by lra; nra.
Qed.

(** A Rectangle profile called with Python floats, as the Calculator
    tab does. *)
Lemma rectangle_python_floats (profile : string) (c Ev e l hv bv m d : R)
    (a r2 Z : pyval) :
  dict_get PROFILE_FACTORS profile = Some c ->
  contains "Rectangle" profile = true ->
  hv <> 0 -> l <> 0 ->
  calculate_snap_fit_body profile (PyFloat Ev) (PyFloat e) (PyFloat l)
    (PyFloat hv) (PyFloat bv) a r2 Z (PyFloat m) (PyFloat d)
  = Ok (mkResult (PyFloat (c * e * l ^ 2 / hv))
          (PyFloat (bv * hv ^ 2 / 6 * Ev * e / l))
          (NpFloat64 (mating_force (bv * hv ^ 2 / 6 * Ev * e / l) m d))).
Proof.
  intros Hcat Hfam Hhv Hl.
  unfold calculate_snap_fit_body, deflection_and_modulus.
  rewrite (getitem_catalog _ _ Hcat), Hfam.
  py_eval. rewrite (py_truediv_nonzero _ hv Hhv).
  py_eval. rewrite (py_truediv_nonzero _ 6) by lra.
  py_eval. rewrite (py_truediv_nonzero _ l Hl).
  reflexivity.
Qed.

Lemma branch_rectangle_floats (profile : string) (c e l hv bv : R) (a r2 Z : pyval) :
  contains "Rectangle" profile = true ->
  hv <> 0 ->
  deflection_and_modulus profile (PyFloat c) (PyFloat e) (PyFloat l)
    (PyFloat hv) (PyFloat bv) a r2 Z
  = Ok (PyFloat (c * e * l ^ 2 / hv), PyFloat (bv * hv ^ 2 / 6)).
Proof.
  intros Hfam Hhv; unfold deflection_and_modulus; rewrite Hfam.
  py_eval. rewrite (py_truediv_nonzero _ hv Hhv).
  py_eval. rewrite (py_truediv_nonzero _ 6) by lra.
  reflexivity.
Qed.

(** Witness of C3: the defaults of the metric form. *)
Lemma force_formulas_uniform_witness :
  exists r : result,
    calculate_snap_fit "Rectangle – Constant Cross Section"
      (PyFloat 2.07e9) (PyFloat 0.02) (PyFloat 25.4) (PyFloat 2.54)
      (PyFloat 12.7) PyNone PyNone PyNone
      (Some (PyFloat 0.30)) (Some (PyFloat 5.0)) = Ok r
    /\ Permissible_Deflection_y r = PyFloat (0.67 * 0.02 * 25.4 ^ 2 / 2.54)
    /\ is_num (Deflection_Force_P r) (12.7 * 2.54 ^ 2 / 6 * 2.07e9 * 0.02 / 25.4)
    /\ (1 - 0.30 * tan (5.0 * PI / 180) <> 0 ->
        is_num (Mating_Force_W r)
          ((12.7 * 2.54 ^ 2 / 6 * 2.07e9 * 0.02 / 25.4)
           * (0.30 + tan (5.0 * PI / 180)) / (1 - 0.30 * tan (5.0 * PI / 180)))).
Proof.
  apply (force_formulas_uniform "Rectangle – Constant Cross Section" 0.67
           (PyFloat 2.07e9) (PyFloat 0.02) (PyFloat 25.4) (PyFloat 2.54)
           (PyFloat 12.7) PyNone PyNone PyNone (PyFloat 0.30) (PyFloat 5.0)
           (PyFloat (0.67 * 0.02 * 25.4 ^ 2 / 2.54))
           (PyFloat (12.7 * 2.54 ^ 2 / 6))).
  - reflexivity.
  - apply branch_rectangle_floats; [reflexivity | lra].
  - reflexivity.
  - reflexivity.
  - reflexivity.
  - reflexivity.
  - lra.
  - reflexivity.
  - reflexivity.
Defined.

(* ================================================================== *)
(** * Mating force against deflection force                             *)
(* ================================================================== *)

(** The call of the form's defaults, metric: Rectangle, constant cross
    section, [mu = 0.30], [alpha = 5] degrees. *)
Lemma metric_defaults_call :
  calculate_snap_fit "Rectangle – Constant Cross Section"
    (PyFloat 2.07e9) (PyFloat 0.02) (PyFloat 25.4) (PyFloat 2.54)
    (PyFloat 12.7) PyNone PyNone PyNone
    (Some (PyFloat 0.30)) (Some (PyFloat 5.0))
  = Ok (mkResult (PyFloat (0.67 * 0.02 * 25.4 ^ 2 / 2.54))
          (PyFloat (12.7 * 2.54 ^ 2 / 6 * 2.07e9 * 0.02 / 25.4))
          (NpFloat64 (mating_force (12.7 * 2.54 ^ 2 / 6 * 2.07e9 * 0.02 / 25.4)
                        0.30 5.0))).
Proof.
  unfold calculate_snap_fit; cbn [default_to].
  apply rectangle_python_floats; [reflexivity | reflexivity | lra | lra].
Qed.

(** C6, as stated, fails on the form's defaults: [mu = 0.30 > 0],
    [alpha = 5 >= 0] and [mu * tan(alpha) < 1], every parameter is
    positive, and yet the mating force is smaller than the deflection
    force (about 0.4 of it). *)
Lemma mating_force_below_deflection_force :
  exists (r : result) (p w : R),
    calculate_snap_fit "Rectangle – Constant Cross Section"
      (PyFloat 2.07e9) (PyFloat 0.02) (PyFloat 25.4) (PyFloat 2.54)
      (PyFloat 12.7) PyNone PyNone PyNone
      (Some (PyFloat 0.30)) (Some (PyFloat 5.0)) = Ok r
    /\ is_num (Deflection_Force_P r) p
    /\ is_num (Mating_Force_W r) w
    /\ 0.30 > 0 /\ 5.0 >= 0 /\ 0.30 * tan (5.0 * (PI / 180)) < 1
    /\ w < p.
Proof.
  pose proof tan_5_degrees as Ht.
  replace 5 with 5.0 in Ht by lra.
  set (t := tan (5.0 * (PI / 180))) in *.
  assert (Hden : 1 - 0.30 * t <> 0) by lra.
  eexists; eexists; eexists.
  split; [apply metric_defaults_call | ].
  cbn [Deflection_Force_P Mating_Force_W].
  rewrite (mating_force_finite _ _ _ Hden); fold t.
  split; [reflexivity | ].
  split; [reflexivity | ].
  repeat split; try lra.
  assert (Hq : (0.30 + t) / (1 - 0.30 * t) < 1).
  { apply Rmult_lt_reg_r with (1 - 0.30 * t); [lra | ].
    unfold Rdiv; rewrite Rmult_assoc, Rinv_l by lra; lra. }
  assert (HP : 0 < 12.7 * 2.54 ^ 2 / 6 * 2.07e9 * 0.02 / 25.4) by lra.
  nra.
Qed.

(** C6, amended.  For an input whose deflection force is positive and
    with [mu * tan(alpha) < 1], the mating force is at least the
    deflection force exactly when [mu + tan(alpha) >= 1 - mu * tan(alpha)];
    below that threshold of friction and lead-in angle it is smaller. *)
Theorem mating_force_at_least_deflection_force_iff (profile : string) (c : R)
    (E eps L h b a r2 Z mu alpha_deg y Z_sec : pyval) (Ev e l z m d : R) :
  dict_get PROFILE_FACTORS profile = Some c ->
  deflection_and_modulus profile (PyFloat c) eps L h b a r2 Z = Ok (y, Z_sec) ->
  is_num Z_sec z -> is_num E Ev -> is_num eps e -> is_num L l -> l <> 0 ->
  is_num mu m -> is_num alpha_deg d ->
  0 < z * Ev * e / l ->
  m * tan (d * (PI / 180)) < 1 ->
  exists (r : result) (p w : R),
    calculate_snap_fit profile E eps L h b a r2 Z (Some mu) (Some alpha_deg) = Ok r
    /\ is_num (Deflection_Force_P r) p
    /\ is_num (Mating_Force_W r) w
    /\ (p <= w <-> 1 - m * tan (d * (PI / 180)) <= m + tan (d * (PI / 180))).
Proof.
  intros Hcat Hbr HZ HE He HL Hl Hm Hd Hpos Hvalid.
  destruct (forces_after_branch profile c E eps L h b a r2 Z mu alpha_deg
              y Z_sec Ev e l z Hcat Hbr HZ HE He HL Hl
              (is_num_not_none _ _ Hm) (is_num_not_none _ _ Hd))
    as (P & W & Hcall & HP & _ & HW).
  set (t := tan (d * (PI / 180))) in *.
  assert (Hden : 1 - m * t <> 0) by lra.
  exists (mkResult y P W), (z * Ev * e / l),
    (z * Ev * e / l * ((m + t) / (1 - m * t))).
  split; [exact Hcall | ].
  split; [exact HP | ].
  split; [exact (HW m d Hm Hd Hden) | ].
  set (p := z * Ev * e / l) in *.
  assert (Hq : (m + t) / (1 - m * t) * (1 - m * t) = m + t)
    by (field; lra).
  set (q := (m + t) / (1 - m * t)) in *.
  split; intros H; nra.
Qed.

(** Witness of the amended C6: the defaults of the metric form. *)
Lemma mating_force_at_least_deflection_force_iff_witness :
  exists (r : result) (p w : R),
    calculate_snap_fit "Rectangle – Constant Cross Section"
      (PyFloat 2.07e9) (PyFloat 0.02) (PyFloat 25.4) (PyFloat 2.54)
      (PyFloat 12.7) PyNone PyNone PyNone
      (Some (PyFloat 0.30)) (Some (PyFloat 5)) = Ok r
    /\ is_num (Deflection_Force_P r) p
    /\ is_num (Mating_Force_W r) w
    /\ (p <= w <-> 1 - 0.30 * tan (5 * (PI / 180)) <= 0.30 + tan (5 * (PI / 180))).
Proof.
  pose proof tan_5_degrees as Ht.
  apply (mating_force_at_least_deflection_force_iff
           "Rectangle – Constant Cross Section" 0.67
           (PyFloat 2.07e9) (PyFloat 0.02) (PyFloat 25.4) (PyFloat 2.54)
           (PyFloat 12.7) PyNone PyNone PyNone (PyFloat 0.30) (PyFloat 5)
           (PyFloat (0.67 * 0.02 * 25.4 ^ 2 / 2.54))
           (PyFloat (12.7 * 2.54 ^ 2 / 6))
           2.07e9 0.02 25.4 (12.7 * 2.54 ^ 2 / 6) 0.30 5).
  - reflexivity.
  - apply branch_rectangle_floats; [reflexivity | lra].
  - reflexivity.
  - reflexivity.
  - reflexivity.
  - reflexivity.
  - lra.
  - reflexivity.
  - reflexivity.
  - lra.
  - lra.
Defined.

(* ================================================================== *)
(** * The reference values of the Rectangle example                     *)
(* ================================================================== *)

Lemma within_rel_intro (tol ref x : R) :
  0 <= ref -> ref - tol * ref <= x <= ref + tol * ref -> within_rel tol ref x.
Proof.
  intros Href Hx; unfold within_rel.
  rewrite (Rabs_right ref) by lra.
  apply Rabs_le; lra.
Qed.

Lemma within_rel_elim (tol ref x : R) :
  0 <= ref -> within_rel tol ref x -> ref - tol * ref <= x <= ref + tol * ref.
Proof.
  unfold within_rel; intros Href H.
  rewrite (Rabs_right ref) in H by lra.
  unfold Rabs in H; destruct (Rcase_abs (x - ref)); lra.
Qed.

(** C8, as stated, fails: the engine's [y] and [P] for these inputs are
    not within 1e-3 of 3.3508 and 8873.5. *)
Lemma reference_numbers_for_y_and_P_off :
  exists (r : result) (yv pv : R),
    calculate_snap_fit "Rectangle – Constant Cross Section"
      (PyFloat 2.07e9) (PyFloat 0.02) (PyFloat 25.4) (PyFloat 2.54)
      (PyFloat 12.7) PyNone PyNone PyNone
      (Some (PyFloat 0.30)) (Some (PyFloat 5.0)) = Ok r
    /\ is_num (Permissible_Deflection_y r) yv
    /\ is_num (Deflection_Force_P r) pv
    /\ ~ within_rel 1e-3 3.3508 yv
    /\ ~ within_rel 1e-3 8873.5 pv.
Proof.
  eexists; eexists; eexists.
  split; [apply metric_defaults_call | ].
  cbn [Permissible_Deflection_y Deflection_Force_P].
  split; [reflexivity | ].
  split; [reflexivity | ].
  split; intros H; apply within_rel_elim in H; lra.
Qed.

(** C8, amended.  For the Rectangle, constant cross section profile
    with [C = 0.67], [eps = 0.02], [L = 25.4], [h = 2.54], [b = 12.7],
    [E = 2.07e9], [mu = 0.30] and [alpha = 5] degrees, within a relative
    tolerance of 1e-3: [y] is 3.4036, the section modulus
    [12.7 * 2.54^2 / 6] is 13.656, and [P = Z_sec * E * eps / L] is
    2.2258e7. *)
Theorem rectangle_reference_values :
  dict_get PROFILE_FACTORS "Rectangle – Constant Cross Section" = Some 0.67
  /\ exists (r : result) (yv zv pv : R),
      calculate_snap_fit "Rectangle – Constant Cross Section"
        (PyFloat 2.07e9) (PyFloat 0.02) (PyFloat 25.4) (PyFloat 2.54)
        (PyFloat 12.7) PyNone PyNone PyNone
        (Some (PyFloat 0.30)) (Some (PyFloat 5.0)) = Ok r
      /\ deflection_and_modulus "Rectangle – Constant Cross Section"
           (PyFloat 0.67) (PyFloat 0.02) (PyFloat 25.4) (PyFloat 2.54)
           (PyFloat 12.7) PyNone PyNone PyNone
         = Ok (Permissible_Deflection_y r, PyFloat zv)
      /\ is_num (Permissible_Deflection_y r) yv
      /\ is_num (Deflection_Force_P r) pv
      /\ zv = 12.7 * 2.54 ^ 2 / 6
      /\ pv = zv * 2.07e9 * 0.02 / 25.4
      /\ within_rel 1e-3 3.4036 yv
      /\ within_rel 1e-3 13.656 zv
      /\ within_rel 1e-3 2.2258e7 pv.
Proof.
  split; [reflexivity | ].
  eexists; eexists; exists (12.7 * 2.54 ^ 2 / 6); eexists.
  split; [apply metric_defaults_call | ].
  cbn [Permissible_Deflection_y Deflection_Force_P].
  split; [apply branch_rectangle_floats; [reflexivity | lra] | ].
  split; [reflexivity | ].
  split; [reflexivity | ].
  split; [reflexivity | ].
  split; [reflexivity | ].
  repeat split; apply within_rel_intro; lra.
Qed.

(* ================================================================== *)
(** * What the engine rejects                                           *)
(* ================================================================== *)

(** C4, as stated, fails: every parameter the specification calls
    invalid is accepted.  First call: [L], [eps] and [h] negative and
    [E] zero; second call: [mu * tan(alpha) = 2]. *)
Lemma invalid_parameters_accepted :
  (invalid_parameter (-25.4) 0 (-0.02) (-2.54) 0.30 5.0
   /\ calculate_snap_fit "Rectangle – Constant Cross Section"
        (PyFloat 0) (PyFloat (-0.02)) (PyFloat (-25.4)) (PyFloat (-2.54))
        (PyFloat 12.7) PyNone PyNone PyNone
        (Some (PyFloat 0.30)) (Some (PyFloat 5.0))
      = Ok (mkResult (PyFloat (0.67 * -0.02 * (-25.4) ^ 2 / -2.54))
              (PyFloat (12.7 * (-2.54) ^ 2 / 6 * 0 * -0.02 / -25.4))
              (NpFloat64
                 (mating_force (12.7 * (-2.54) ^ 2 / 6 * 0 * -0.02 / -25.4)
                    0.30 5.0))))
  /\
  (invalid_parameter 25.4 2.07e9 0.02 2.54 2 45
   /\ calculate_snap_fit "Rectangle – Constant Cross Section"
        (PyFloat 2.07e9) (PyFloat 0.02) (PyFloat 25.4) (PyFloat 2.54)
        (PyFloat 12.7) PyNone PyNone PyNone
        (Some (PyFloat 2)) (Some (PyFloat 45))
      = Ok (mkResult (PyFloat (0.67 * 0.02 * 25.4 ^ 2 / 2.54))
              (PyFloat (12.7 * 2.54 ^ 2 / 6 * 2.07e9 * 0.02 / 25.4))
              (NpFloat64
                 (Fin (12.7 * 2.54 ^ 2 / 6 * 2.07e9 * 0.02 / 25.4
                       * ((2 + 1) / (1 - 2 * 1))))))).
Proof.
  split; split.
  - left; lra.
  - unfold calculate_snap_fit; cbn [default_to].
    apply rectangle_python_floats; [reflexivity | reflexivity | lra | lra].
  - do 4 right. replace (45 * (PI / 180)) with (PI / 4) by field.
    rewrite tan_PI4; lra.
  - unfold calculate_snap_fit; cbn [default_to].
    rewrite (rectangle_python_floats _ 0.67) by (reflexivity || lra).
    rewrite mating_force_finite;
      replace (45 * (PI / 180)) with (PI / 4) by field; rewrite tan_PI4;
      [reflexivity | lra].
Qed.

Lemma small_square (x : R) : -1e154 <= x <= 1e154 -> square_in_range x.
Proof. intros Hx; unfold square_in_range; apply Rabs_le; lra. Qed.

(** C4, amended.  The engine validates nothing.  Called with Python
    floats for the fields the profile's family reads, none of them so
    large that its square overflows, it raises [ZeroDivisionError], and
    returns nothing, when one of its divisors is zero: [L], and [h],
    [r2] or [2a + b] according to the family.  When none is zero it
    returns a result, whatever the signs of [L], [E], [eps] and the
    dimensions and whatever [mu * tan(alpha)]. *)
Theorem fails_only_on_zero_divisor (profile : string) (c Ev e l m d : R)
    (h b a r2 Z : pyval) (hv bv av rv zv : R) :
  dict_get PROFILE_FACTORS profile = Some c ->
  required_floats profile h b a r2 Z hv bv av rv zv ->
  squares_in_range profile l hv bv av ->
  (zero_divisor profile l hv bv av rv ->
   calculate_snap_fit profile (PyFloat Ev) (PyFloat e) (PyFloat l) h b a r2 Z
     (Some (PyFloat m)) (Some (PyFloat d)) = Raise ZeroDivisionError)
  /\
  (~ zero_divisor profile l hv bv av rv ->
   exists r : result,
     calculate_snap_fit profile (PyFloat Ev) (PyFloat e) (PyFloat l) h b a r2 Z
       (Some (PyFloat m)) (Some (PyFloat d)) = Ok r).
Proof.
  intros Hcat Hreq _.
  unfold required_floats in Hreq; unfold zero_divisor.
  unfold calculate_snap_fit, calculate_snap_fit_body, deflection_and_modulus.
  cbn [default_to].
  rewrite (getitem_catalog _ _ Hcat).
  destruct (contains "Rectangle" profile);
    [ | destruct (contains "Trapezoid" profile);
        [ | destruct (contains "Ring Segment" profile) ] ];
    clear Hcat.
  - destruct Hreq as (-> & ->); split; intros Hz; float_run; float_done.
  - destruct Hreq as (-> & -> & ->); split; intros Hz; float_run; float_done.
  - destruct Hreq as (-> & ->); split; intros Hz; float_run; float_done.
  - destruct Hreq as (-> & ->); split; intros Hz; float_run; float_done.
Qed.

(** Witness of the amended C4: a zero thickness raises, a negative
    modulus, strain and length do not. *)
Lemma fails_only_on_zero_divisor_witness :
  calculate_snap_fit "Rectangle – Constant Cross Section"
    (PyFloat 2.07e9) (PyFloat 0.02) (PyFloat 25.4) (PyFloat 0) (PyFloat 12.7)
    PyNone PyNone PyNone (Some (PyFloat 0.30)) (Some (PyFloat 5.0))
  = Raise ZeroDivisionError
  /\ exists r : result,
      calculate_snap_fit "Trapezoid – Constant Cross Section"
        (PyFloat (-2.07e9)) (PyFloat (-0.02)) (PyFloat (-25.4)) (PyFloat 2.54)
        (PyFloat 12.7) (PyFloat 15.24) PyNone PyNone
        (Some (PyFloat 2)) (Some (PyFloat 45)) = Ok r.
Proof.
  split.
  - apply (proj1 (fails_only_on_zero_divisor
                    "Rectangle – Constant Cross Section" 0.67 2.07e9 0.02 25.4
                    0.30 5.0 (PyFloat 0) (PyFloat 12.7) PyNone PyNone PyNone
                    0 12.7 0 0 0 eq_refl (conj eq_refl eq_refl)
                    (conj (small_square 25.4 ltac:(lra))
                          (small_square 0 ltac:(lra))))).
    left; reflexivity.
  - apply (proj2 (fails_only_on_zero_divisor
                    "Trapezoid – Constant Cross Section" 1.00 (-2.07e9) (-0.02)
                    (-25.4) 2 45 (PyFloat 2.54) (PyFloat 12.7) (PyFloat 15.24)
                    PyNone PyNone 2.54 12.7 15.24 0 0 eq_refl
                    (conj eq_refl (conj eq_refl eq_refl))
                    (conj (small_square (-25.4) ltac:(lra))
                       (conj (small_square 2.54 ltac:(lra))
                          (conj (small_square 15.24 ltac:(lra))
                                (small_square 12.7 ltac:(lra))))))).
    intros Hz; hnf in Hz; destruct Hz as [Hz | [Hz | Hz]]; lra.
Defined.

(* ================================================================== *)
(** * Optional contact parameters                                       *)
(* ================================================================== *)

(** C10.  A call that omits [mu], [alpha_deg] or both is the call with
    [mu = 0.3] and [alpha_deg = 5] in their place: it returns what that
    call returns, so the omission makes no call fail. *)
Theorem contact_parameters_default (profile : string)
    (E eps L h b a r2 Z : pyval) (mu alpha_deg : pyval) :
  calculate_snap_fit profile E eps L h b a r2 Z None None
  = calculate_snap_fit profile E eps L h b a r2 Z
      (Some (PyFloat 0.3)) (Some (PyFloat 5))
  /\ calculate_snap_fit profile E eps L h b a r2 Z None (Some alpha_deg)
     = calculate_snap_fit profile E eps L h b a r2 Z
         (Some (PyFloat 0.3)) (Some alpha_deg)
  /\ calculate_snap_fit profile E eps L h b a r2 Z (Some mu) None
     = calculate_snap_fit profile E eps L h b a r2 Z (Some mu) (Some (PyFloat 5))
  /\ (forall (c Ev e l hv bv : R),
        dict_get PROFILE_FACTORS profile = Some c ->
        contains "Rectangle" profile = true ->
        E = PyFloat Ev -> eps = PyFloat e -> L = PyFloat l ->
        h = PyFloat hv -> b = PyFloat bv -> hv <> 0 -> l <> 0 ->
        calculate_snap_fit profile E eps L h b a r2 Z None None
        = Ok (mkResult (PyFloat (c * e * l ^ 2 / hv))
                (PyFloat (bv * hv ^ 2 / 6 * Ev * e / l))
                (NpFloat64 (mating_force (bv * hv ^ 2 / 6 * Ev * e / l) 0.3 5)))).
Proof.
  repeat split.
  intros c Ev e l hv bv Hcat Hfam -> -> -> -> -> Hhv Hl.
  unfold calculate_snap_fit; cbn [default_to].
  apply rectangle_python_floats; assumption.
Qed.

(** Witness of C10: the metric defaults with both contact parameters
    left out. *)
Lemma contact_parameters_default_witness :
  calculate_snap_fit "Rectangle – Constant Cross Section"
    (PyFloat 2.07e9) (PyFloat 0.02) (PyFloat 25.4) (PyFloat 2.54)
    (PyFloat 12.7) PyNone PyNone PyNone None None
  = Ok (mkResult (PyFloat (0.67 * 0.02 * 25.4 ^ 2 / 2.54))
          (PyFloat (12.7 * 2.54 ^ 2 / 6 * 2.07e9 * 0.02 / 25.4))
          (NpFloat64
             (mating_force (12.7 * 2.54 ^ 2 / 6 * 2.07e9 * 0.02 / 25.4) 0.3 5))).
Proof.
  apply (proj2 (proj2 (proj2
           (contact_parameters_default "Rectangle – Constant Cross Section"
              (PyFloat 2.07e9) (PyFloat 0.02) (PyFloat 25.4) (PyFloat 2.54)
              (PyFloat 12.7) PyNone PyNone PyNone PyNone PyNone))));
    try reflexivity; lra.
Defined.

(* ================================================================== *)
(** * Calls that cannot raise                                           *)
(* ================================================================== *)

Section Totality.
Local Open Scope py_scope.

Lemma not_none_num (r : R) : not_none (num r).
Proof. exists (PyFloat r); split; [reflexivity | discriminate]. Qed.

Lemma not_none_binop fpy fnp (x y : exc pyval) :
  (forall u v : R, exists r : R, fpy u v = Ok r) ->
  not_none x -> not_none y -> not_none (lift2 (py_binop fpy fnp) x y).
Proof.
  intros Hf (u & -> & Hu) (v & -> & Hv).
  destruct u as [ | p | p]; [congruence | | ];
    (destruct v as [ | q | q]; [congruence | | ]); cbn;
    try (eexists; split; [reflexivity | discriminate]).
  destruct (Hf p q) as (r & ->); eexists; split; [reflexivity | discriminate].
Qed.

Lemma not_none_add (x y : exc pyval) :
  not_none x -> not_none y -> not_none (x + y).
Proof. apply not_none_binop; intros; eexists; reflexivity. Qed.

Lemma not_none_sub (x y : exc pyval) :
  not_none x -> not_none y -> not_none (x - y).
Proof. apply not_none_binop; intros; eexists; reflexivity. Qed.

Lemma not_none_mul (x y : exc pyval) :
  not_none x -> not_none y -> not_none (x * y).
Proof. apply not_none_binop; intros; eexists; reflexivity. Qed.

(** A division raises only when a Python float is divided by the
    Python float zero. *)
Lemma not_none_div (x y : exc pyval) :
  not_none x -> not_none y -> y <> Ok (PyFloat 0) -> not_none (x / y).
Proof.
  intros (u & -> & Hu) (v & -> & Hv) Hy.
  destruct u as [ | p | p]; [congruence | | ];
    (destruct v as [ | q | q]; [congruence | | ]); cbn;
    try (eexists; split; [reflexivity | discriminate]).
  rewrite py_truediv_nonzero by (intros ->; apply Hy; reflexivity).
  eexists; split; [reflexivity | discriminate].
Qed.

Lemma not_none_sq (x : exc pyval) : not_none x -> not_none (x **2).
Proof.
  intros (u & -> & Hu); destruct u; [congruence | | ]; cbn;
    eexists; (split; [reflexivity | discriminate]).
Qed.

Lemma val_not_python_zero (v : pyval) : v <> PyFloat 0 -> val v <> Ok (PyFloat 0).
Proof. unfold val; congruence. Qed.

Create HintDb py_total.
#[local] Hint Resolve not_none_num not_none_add not_none_sub not_none_mul
  not_none_sq not_none_val np_valued_not_none : py_total.

(** A Rectangle profile of the catalog, arguments that are not [None],
    and neither [h] nor [L] the Python float zero: the call returns. *)
Lemma rectangle_call_returns (profile : string) (c : R)
    (E eps L h b a r2 Z mu alpha_deg : pyval) :
  dict_get PROFILE_FACTORS profile = Some c ->
  contains "Rectangle" profile = true ->
  E <> PyNone -> eps <> PyNone -> L <> PyNone -> h <> PyNone -> b <> PyNone ->
  mu <> PyNone -> alpha_deg <> PyNone ->
  h <> PyFloat 0 -> L <> PyFloat 0 ->
  exists r : result,
    calculate_snap_fit_body profile E eps L h b a r2 Z mu alpha_deg = Ok r.
Proof.
  intros Hcat Hfam HE He HL Hh Hb Hmu Hal Hh0 HL0.
  unfold calculate_snap_fit_body, deflection_and_modulus.
  destruct (np_ufunc_not_none f_radians alpha_deg Hal) as (ar & Har).
  fold np_radians in Har; rewrite Har; cbn [bind].
  rewrite (getitem_catalog _ _ Hcat), Hfam; cbn [bind].
  assert (Hy : not_none (PyFloat c * eps * L **2 / h)).
  { apply not_none_div; [ | auto with py_total | apply val_not_python_zero; assumption].
    apply not_none_mul; [ | auto with py_total].
    apply not_none_mul; [apply not_none_val; discriminate | auto with py_total]. }
  destruct Hy as (y & -> & _); cbn [bind].
  assert (Hz : not_none (b * h **2 / num 6)).
  { apply not_none_div; [auto with py_total | auto with py_total | ].
    unfold num; intros H; injection H; lra. }
  destruct Hz as (Z_sec & -> & HZ); cbn [bind].
  assert (HP : not_none (Z_sec * E * eps / L)).
  { apply not_none_div;
      [auto 6 with py_total | auto with py_total
      | apply val_not_python_zero; assumption]. }
  destruct HP as (P & -> & HP); cbn [bind].
  set (t := np_tan (NpFloat64 ar)).
  assert (Ht : np_valued t) by (apply np_ufunc_not_none; discriminate).
  assert (HW : np_valued (P * ((mu + t) / (num 1 - mu * t)))).
  { apply np_valued_binop_r; [apply not_none_val; assumption | ].
    apply np_valued_binop_l.
    - apply np_valued_binop_r; [apply not_none_val; assumption | assumption].
    - apply np_valued_not_none, np_valued_binop_r; [apply not_none_num | ].
      apply np_valued_binop_r; [apply not_none_val; assumption | assumption]. }
  destruct HW as (w & ->); cbn [bind].
  eexists; reflexivity.
Qed.

End Totality.

(* ================================================================== *)
(** * The samples of a sweep                                            *)
(* ================================================================== *)

Lemma linspace_linear (start stop : R) (N : nat) :
  (2 <= N)%nat ->
  np_linspace start stop N
  = map (fun i => Fin (linear_sample start stop N i)) (seq 0 N).
Proof.
  intros HN; unfold np_linspace; apply map_ext_in; intros i Hi.
  assert (Hdiv : INR (N - 1) <> 0) by (apply not_0_INR; lia).
  destruct ((i =? N - 1)%nat && (1 <? N)%nat)%bool eqn:Hlast.
  - apply andb_true_iff in Hlast; destruct Hlast as (Hi' & _).
    apply Nat.eqb_eq in Hi'; subst i.
    f_equal; unfold linear_sample; field; exact Hdiv.
  - f_equal; unfold linear_sample; field; exact Hdiv.
Qed.

Lemma linear_sample_first (start stop : R) (N : nat) :
  linear_sample start stop N 0 = start.
Proof. unfold linear_sample; cbn [INR]; unfold Rdiv; ring. Qed.

Lemma linear_sample_last (start stop : R) (N : nat) :
  (2 <= N)%nat -> linear_sample start stop N (N - 1) = stop.
Proof.
  intros HN; unfold linear_sample; field; apply not_0_INR; lia.
Qed.

(** In row order the samples move from [start] towards [stop]. *)
Lemma linear_sample_step (start stop : R) (N i j : nat) :
  (i < j)%nat -> (j < N)%nat ->
  linear_sample start stop N j - linear_sample start stop N i
  = (INR j - INR i) / INR (N - 1) * (stop - start)
  /\ 0 < (INR j - INR i) / INR (N - 1).
Proof.
  intros Hij HjN.
  assert (Hdiv : 0 < INR (N - 1)) by (apply lt_0_INR; lia).
  split.
  - unfold linear_sample; field; lra.
  - apply Rdiv_lt_0_compat; [ | exact Hdiv].
    apply lt_INR in Hij; lra.
Qed.

(* ================================================================== *)
(** * The rows of a sweep                                               *)
(* ================================================================== *)

Lemma for_each_returns {A B : Type} (body : A -> exc B) (key : B -> A)
    (xs : list A) :
  (forall x, In x xs -> exists r, body x = Ok r /\ key r = x) ->
  exists rs, for_each body xs = Ok rs /\ map key rs = xs.
Proof.
  induction xs as [ | x rest IH]; intros Hbody.
  - exists []; split; reflexivity.
  - destruct (Hbody x (or_introl eq_refl)) as (r & Hr & Hk).
    destruct IH as (rs & Hrs & Hks);
      [intros x' Hx'; apply Hbody; right; exact Hx' | ].
    exists (r :: rs); cbn [for_each map]; rewrite Hr; cbn [bind].
    rewrite Hrs; cbn [bind]; rewrite Hk, Hks; split; reflexivity.
Qed.

Lemma for_each_rows {A B : Type} (body : A -> exc B) (xs : list A) (rs : list B) :
  for_each body xs = Ok rs ->
  forall r, In r rs -> exists x, In x xs /\ body x = Ok r.
Proof.
  revert rs; induction xs as [ | x rest IH]; intros rs; cbn [for_each].
  - intros H; injection H as <-; intros r [].
  - destruct (body x) as [r0 | e] eqn:Hr0; cbn [bind]; [ | discriminate].
    destruct (for_each body rest) as [rs0 | e] eqn:Hrs0; cbn [bind]; [ | discriminate].
    intros H; injection H as <-; intros r [<- | Hin].
    + exists x; split; [left; reflexivity | exact Hr0].
    + destruct (IH rs0 eq_refl r Hin) as (x' & Hx' & Hb).
      exists x'; split; [right; exact Hx' | exact Hb].
Qed.

Lemma for_each_head {A B : Type} (body : A -> exc B) (x : A) (xs : list A)
    (rs : list B) :
  for_each body (x :: xs) = Ok rs ->
  exists r rest, rs = r :: rest /\ body x = Ok r.
Proof.
  cbn [for_each]; destruct (body x) as [r | e]; cbn [bind]; [ | discriminate].
  destruct (for_each body xs) as [rest | e]; cbn [bind]; [ | discriminate].
  intros H; injection H as <-; exists r, rest; split; reflexivity.
Qed.

Lemma default_inputs_nonzero (unit_system : string) :
  def_h (default_inputs unit_system) <> 0
  /\ def_L (default_inputs unit_system) <> 0.
Proof.
  unfold default_inputs; destruct (String.eqb unit_system "Imperial");
    cbn [def_h def_L]; split; lra.
Qed.

(** The body of the loop never raises on a [numpy.float64] sample: the
    swept field is a numpy scalar, the other divisors are defaults. *)
Lemma sweep_body_returns (unit_system : string) (m al : R)
    (sweep_param : string) (x : float64) :
  exists r : row,
    sweep_body (default_inputs unit_system) (PyFloat m) (PyFloat al)
      sweep_param (NpFloat64 x) = Ok r
    /\ Sweep_Value r = NpFloat64 x.
Proof.
  destruct (default_inputs_nonzero unit_system) as (Hh & HL).
  unfold sweep_body, calculate_snap_fit; cbn [default_to].
  destruct (String.eqb sweep_param "Thickness h");
    [ | destruct (String.eqb sweep_param "Length L") ].
  all: match goal with
       | |- context [calculate_snap_fit_body ?p ?E ?e ?L ?h ?b ?a ?r2 ?Z ?mu ?al] =>
           destruct (rectangle_call_returns p 0.67 E e L h b a r2 Z mu al)
             as (res & ->);
             try reflexivity; try discriminate; try congruence
       end.
  all: cbn [bind]; eexists; split; reflexivity.
Qed.

(** The study returns one row per sample, in the order of the samples. *)
Lemma parametric_study_rows (unit_system : string) (calc : calculator_tab)
    (sweep_param : string) (start stop : R) (steps : nat) :
  exists rows : list row,
    parametric_study unit_system calc sweep_param start stop steps = Ok rows
    /\ map Sweep_Value rows = map NpFloat64 (np_linspace start stop steps).
Proof.
  unfold parametric_study; apply for_each_returns.
  intros v Hv; apply in_map_iff in Hv; destruct Hv as (x & <- & _).
  apply sweep_body_returns.
Qed.

(** Row [i] of a study of [N >= 2] steps carries sample [i]. *)
Lemma parametric_study_nth (unit_system : string) (calc : calculator_tab)
    (sweep_param : string) (start stop : R) (N : nat) :
  (2 <= N)%nat ->
  exists rows : list row,
    parametric_study unit_system calc sweep_param start stop N = Ok rows
    /\ length rows = N
    /\ forall i, (i < N)%nat ->
         exists r, nth_error rows i = Some r
                   /\ Sweep_Value r
                      = NpFloat64 (Fin (linear_sample start stop N i)).
Proof.
  intros HN.
  destruct (parametric_study_rows unit_system calc sweep_param start stop N)
    as (rows & Hrows & Hvals).
  rewrite (linspace_linear _ _ _ HN), map_map in Hvals.
  exists rows; split; [exact Hrows | ]; split.
  - rewrite <- (length_map Sweep_Value), Hvals, length_map, length_seq.
    reflexivity.
  - intros i Hi.
    assert (Hnth : nth_error (map Sweep_Value rows) i
                   = Some (NpFloat64 (Fin (linear_sample start stop N i)))).
    { rewrite Hvals, nth_error_map, nth_error_seq.
      apply Nat.ltb_lt in Hi; rewrite Hi; reflexivity. }
    rewrite nth_error_map in Hnth.
    destruct (nth_error rows i) as [r | ]; [ | discriminate].
    exists r; split; [reflexivity | ]; cbn in Hnth; congruence.
Qed.

(** C7, as stated, fails when [start > stop]: a sweep of the strain
    from 0.05 down to 0.01 in five steps has its second value below its
    first. *)
Lemma descending_sweep_not_nondecreasing :
  exists (rows : list row) (r0 r1 : row) (x0 x1 : R),
    parametric_study "Imperial" (imperial_form 0.30) "Allowable Strain ε"
      0.05 0.01 5 = Ok rows
    /\ nth_error rows 0 = Some r0
    /\ nth_error rows 1 = Some r1
    /\ is_num (Sweep_Value r0) x0
    /\ is_num (Sweep_Value r1) x1
    /\ x1 < x0.
Proof.
  destruct (parametric_study_nth "Imperial" (imperial_form 0.30)
              "Allowable Strain ε" 0.05 0.01 5) as (rows & Hrows & _ & Hnth);
    [lia | ].
  destruct (Hnth 0%nat) as (r0 & Hr0 & Hv0); [lia | ].
  destruct (Hnth 1%nat) as (r1 & Hr1 & Hv1); [lia | ].
  exists rows, r0, r1, (linear_sample 0.05 0.01 5 0), (linear_sample 0.05 0.01 5 1).
  repeat split; try assumption.
  - rewrite Hv0; reflexivity.
  - rewrite Hv1; reflexivity.
  - destruct (linear_sample_step 0.05 0.01 5 0 1) as (Hstep & Hpos); [lia | lia | ].
    nra.
Qed.

(** C7, amended.  A sweep of [N >= 2] steps returns exactly [N] rows;
    row [i] carries the value [start + i * (stop - start) / (N - 1)], so
    the first carries [start] and the last [stop]; in row order the
    values are non-decreasing when [start <= stop], strictly increasing
    when [start < stop], and strictly decreasing when [start > stop]. *)
Theorem sweep_rows_linearly_spaced (unit_system : string) (calc : calculator_tab)
    (sweep_param : string) (start stop : R) (N : nat) :
  (2 <= N)%nat ->
  exists rows : list row,
    parametric_study unit_system calc sweep_param start stop N = Ok rows
    /\ length rows = N
    /\ (forall i, (i < N)%nat ->
          exists r, nth_error rows i = Some r
                    /\ Sweep_Value r
                       = NpFloat64 (Fin (start + INR i * (stop - start) / INR (N - 1))))
    /\ (exists r, nth_error rows 0 = Some r /\ Sweep_Value r = NpFloat64 (Fin start))
    /\ (exists r, nth_error rows (N - 1) = Some r
                  /\ Sweep_Value r = NpFloat64 (Fin stop))
    /\ (forall i j ri rj xi xj,
          (i < j)%nat ->
          nth_error rows i = Some ri -> nth_error rows j = Some rj ->
          is_num (Sweep_Value ri) xi -> is_num (Sweep_Value rj) xj ->
          (start <= stop -> xi <= xj)
          /\ (start < stop -> xi < xj)
          /\ (stop < start -> xj < xi)).
Proof.
  intros HN.
  destruct (parametric_study_nth unit_system calc sweep_param start stop N HN)
    as (rows & Hrows & Hlen & Hnth).
  exists rows; split; [exact Hrows | ]; split; [exact Hlen | ].
  split; [exact Hnth | ]; split; [ | split].
  - destruct (Hnth 0%nat) as (r & Hr & Hv); [lia | ].
    exists r; split; [exact Hr | ].
    rewrite Hv, linear_sample_first; reflexivity.
  - destruct (Hnth (N - 1)%nat) as (r & Hr & Hv); [lia | ].
    exists r; split; [exact Hr | ].
    rewrite Hv, linear_sample_last by exact HN; reflexivity.
  - intros i j ri rj xi xj Hij Hri Hrj Hxi Hxj.
    assert (HjN : (j < N)%nat).
    { rewrite <- Hlen; apply nth_error_Some; congruence. }
    destruct (Hnth i) as (ri' & Hri' & Hvi); [lia | ].
    destruct (Hnth j) as (rj' & Hrj' & Hvj); [lia | ].
    assert (ri' = ri) by congruence; assert (rj' = rj) by congruence; subst ri' rj'.
    rewrite Hvi in Hxi; rewrite Hvj in Hxj.
    injection Hxi as <-; injection Hxj as <-.
    destruct (linear_sample_step start stop N i j Hij HjN) as (Hstep & Hpos).
    repeat split; intros Hord; nra.
Qed.

(** Witness of the amended C7: a sweep of the thickness in twenty
    steps, the slider's default. *)
Lemma sweep_rows_linearly_spaced_witness :
  exists rows : list row,
    parametric_study "Imperial" (imperial_form 0.30) "Thickness h"
      0.10 (0.10 * 3) 20 = Ok rows
    /\ length rows = 20%nat
    /\ (exists r, nth_error rows 0 = Some r /\ Sweep_Value r = NpFloat64 (Fin 0.10))
    /\ (exists r, nth_error rows 19 = Some r
                  /\ Sweep_Value r = NpFloat64 (Fin (0.10 * 3))).
Proof.
  destruct (sweep_rows_linearly_spaced "Imperial" (imperial_form 0.30)
              "Thickness h" 0.10 (0.10 * 3) 20)
    as (rows & Hrows & Hlen & _ & Hfirst & Hlast & _); [lia | ].
  exists rows; repeat split; assumption.
Defined.

(* ================================================================== *)
(** * What a sweep evaluates                                            *)
(* ================================================================== *)

(** A sample of the thickness sweep: the mating force of its row. *)
Lemma thickness_row_mating_force (unit_system : string) (m al x : R) :
  x <> 0 ->
  1 - m * tan (al * (PI / 180)) <> 0 ->
  let d := default_inputs unit_system in
  exists r : row,
    sweep_body d (PyFloat m) (PyFloat al) "Thickness h" (NpFloat64 (Fin x)) = Ok r
    /\ is_num (row_W r)
         (def_b d * x ^ 2 / 6 * def_E d * 0.02 / def_L d
          * ((m + tan (al * (PI / 180))) / (1 - m * tan (al * (PI / 180))))).
Proof.
  intros Hx Hden d.
  destruct (default_inputs_nonzero unit_system) as (_ & HL); fold d in HL.
  unfold sweep_body, calculate_snap_fit; cbn [String.eqb Ascii.eqb Bool.eqb default_to].
  destruct (branch_rectangle "Rectangle – Constant Cross Section" 0.67
              (PyFloat 0.02) (PyFloat (def_L d)) (NpFloat64 (Fin x))
              (PyFloat (def_b d)) PyNone PyNone PyNone 0.02 (def_L d)
              eq_refl eq_refl x (def_b d) eq_refl eq_refl eq_refl Hx)
    as (y & Z_sec & Hbr & _ & HZ).
  destruct (forces_after_branch "Rectangle – Constant Cross Section" 0.67
              (PyFloat (def_E d)) (PyFloat 0.02) (PyFloat (def_L d))
              (NpFloat64 (Fin x)) (PyFloat (def_b d)) PyNone PyNone PyNone
              (PyFloat m) (PyFloat al) y Z_sec (def_E d) 0.02 (def_L d)
              (def_b d * x ^ 2 / 6) eq_refl Hbr HZ eq_refl eq_refl eq_refl HL)
    as (P & W & -> & _ & _ & HW); try discriminate.
  cbn [bind]; eexists; split; [reflexivity | ].
  cbn [row_W Mating_Force_W]; apply HW; [reflexivity | reflexivity | exact Hden].
Qed.

(** C9, as stated, fails: the rows are not the same whatever is entered
    elsewhere.  Two forms that differ only in the friction coefficient
    of the Calculator tab give different tables for the same sweep. *)
Lemma sweep_depends_on_contact_parameters :
  parametric_study "Imperial" (imperial_form 0.30) "Thickness h" 0.10 0.30 5
  <> parametric_study "Imperial" (imperial_form 0.50) "Thickness h" 0.10 0.30 5.
Proof.
  pose proof tan_5_degrees as Ht.
  replace 5 with 5.0 in Ht by lra.
  set (t := tan (5.0 * (PI / 180))) in *.
  destruct (parametric_study_rows "Imperial" (imperial_form 0.30) "Thickness h"
              0.10 0.30 5) as (rowsA & HA & _).
  destruct (parametric_study_rows "Imperial" (imperial_form 0.50) "Thickness h"
              0.10 0.30 5) as (rowsB & HB & _).
  rewrite HA, HB; intros Heq; injection Heq as Heq; subst rowsB.
  unfold parametric_study in HA, HB.
  rewrite linspace_linear in HA, HB by lia.
  cbn [seq map] in HA, HB; rewrite linear_sample_first in HA, HB.
  apply for_each_head in HA; destruct HA as (rA & restA & -> & HrA).
  apply for_each_head in HB; destruct HB as (rB & restB & Hrows & HrB).
  injection Hrows as <- _.
  cbn [imperial_form in_mu in_alpha] in HrA, HrB.
  destruct (thickness_row_mating_force "Imperial" 0.30 5.0 0.10)
    as (r1 & Hr1 & HW1); [lra | fold t; lra | ].
  destruct (thickness_row_mating_force "Imperial" 0.50 5.0 0.10)
    as (r2 & Hr2 & HW2); [lra | fold t; lra | ].
  rewrite HrA in Hr1; injection Hr1 as <-.
  rewrite HrB in Hr2; injection Hr2 as <-.
  fold t in HW1, HW2.
  unfold is_num in HW1, HW2; rewrite HW1 in HW2; injection HW2 as HW.
  cbn [default_inputs String.eqb Ascii.eqb Bool.eqb def_b def_E def_L] in HW.
  clearbody t.
  assert (HqA : (0.30 + t) / (1 - 0.30 * t) * (1 - 0.30 * t) = 0.30 + t).
  { unfold Rdiv; rewrite Rmult_assoc, Rinv_l by lra; lra. }
  assert (HqB : (0.50 + t) / (1 - 0.50 * t) * (1 - 0.50 * t) = 0.50 + t).
  { unfold Rdiv; rewrite Rmult_assoc, Rinv_l by lra; lra. }
  set (qA := (0.30 + t) / (1 - 0.30 * t)) in *.
  set (qB := (0.50 + t) / (1 - 0.50 * t)) in *.
  assert (Hq : qA = qB) by lra.
  rewrite <- Hq in HqB.
  assert (H1 : qA * (1 - 0.30 * t) * (1 - 0.50 * t) = (0.30 + t) * (1 - 0.50 * t))
    by (rewrite HqA; reflexivity).
  assert (H2 : qA * (1 - 0.50 * t) * (1 - 0.30 * t) = (0.50 + t) * (1 - 0.30 * t))
    by (rewrite HqB; reflexivity).
  nra.
Qed.

(** C9, amended.  Every row of every sweep is the engine's result for
    the profile "Rectangle – Constant Cross Section" with the default
    [E] and [b], the defaults of [h], [L] and [eps] except the swept
    one, which is the sample, and the [mu] and [alpha] entered in the
    Calculator tab; nothing else entered there matters.  The swept
    parameter is one of thickness, length and allowable strain. *)
Theorem sweep_rows_use_rectangle_defaults (unit_system : string)
    (calc : calculator_tab) (sweep_param : string) (start stop : R) (steps : nat) :
  In sweep_param sweep_options ->
  let d := default_inputs unit_system in
  let swept (name : string) (v default : pyval) : pyval :=
    if String.eqb sweep_param name then v else default in
  exists rows : list row,
    parametric_study unit_system calc sweep_param start stop steps = Ok rows
    /\ (forall r, In r rows ->
          exists (v : pyval) (res : result),
            In v (map NpFloat64 (np_linspace start stop steps))
            /\ calculate_snap_fit "Rectangle – Constant Cross Section"
                 (PyFloat (def_E d))
                 (swept "Allowable Strain ε"%string v (PyFloat 0.02))
                 (swept "Length L"%string v (PyFloat (def_L d)))
                 (swept "Thickness h"%string v (PyFloat (def_h d)))
                 (PyFloat (def_b d)) PyNone PyNone PyNone
                 (Some (PyFloat (in_mu calc))) (Some (PyFloat (in_alpha calc)))
               = Ok res
            /\ r = mkRow v (Permissible_Deflection_y res)
                     (Deflection_Force_P res) (Mating_Force_W res))
    /\ (forall calc' : calculator_tab,
          in_mu calc' = in_mu calc -> in_alpha calc' = in_alpha calc ->
          parametric_study unit_system calc' sweep_param start stop steps = Ok rows)
    /\ sweep_options
       = [ "Thickness h"%string; "Length L"%string; "Allowable Strain ε"%string ].
Proof.
  intros Hopt d swept.
  destruct (parametric_study_rows unit_system calc sweep_param start stop steps)
    as (rows & Hrows & _).
  exists rows; split; [exact Hrows | ]; split; [ | split].
  - intros r Hr.
    destruct (for_each_rows _ _ _ Hrows r Hr) as (v & Hv & Hbody).
    unfold sweep_body in Hbody; fold d in Hbody.
    assert (Hcall :
      bind (calculate_snap_fit "Rectangle – Constant Cross Section"
              (PyFloat (def_E d))
              (swept "Allowable Strain ε"%string v (PyFloat 0.02))
              (swept "Length L"%string v (PyFloat (def_L d)))
              (swept "Thickness h"%string v (PyFloat (def_h d)))
              (PyFloat (def_b d)) PyNone PyNone PyNone
              (Some (PyFloat (in_mu calc))) (Some (PyFloat (in_alpha calc))))
           (fun res => Ok (mkRow v (Permissible_Deflection_y res)
                             (Deflection_Force_P res) (Mating_Force_W res)))
      = Ok r).
    { unfold swept; unfold sweep_options in Hopt; cbn [In] in Hopt.
      destruct Hopt as [<- | [<- | [<- | []]]]; exact Hbody. }
    destruct (calculate_snap_fit _ _ _ _ _ _ _ _ _ _ _) as [res | e] eqn:Hres;
      cbn [bind] in Hcall; [ | discriminate].
    exists v, res; split; [exact Hv | ]; split; [exact Hres | congruence].
  - intros calc' Hmu Hal; rewrite <- Hrows.
    unfold parametric_study; rewrite Hmu, Hal; reflexivity.
  - reflexivity.
Qed.

(** Witness of the amended C9: a sweep of the length. *)
Lemma sweep_rows_use_rectangle_defaults_witness :
  exists rows : list row,
    parametric_study "Imperial" (imperial_form 0.30) "Length L" 1.0 (1.0 * 3) 20
    = Ok rows
    /\ parametric_study "Imperial" (imperial_form 0.30) "Length L" 1.0 (1.0 * 3) 20
       = parametric_study "Imperial"
           (mkCalculator "Irregular – Y Dimensions Halved" 1 1 0.30 5.0 1
              (PyFloat 1) PyNone PyNone PyNone (PyFloat 1))
           "Length L" 1.0 (1.0 * 3) 20.
Proof.
  destruct (sweep_rows_use_rectangle_defaults "Imperial" (imperial_form 0.30)
              "Length L" 1.0 (1.0 * 3) 20)
    as (rows & Hrows & _ & Hsame & _).
  - right; left; reflexivity.
  - exists rows; split; [exact Hrows | ].
    rewrite Hrows; symmetry; apply Hsame; reflexivity.
Defined.

(* ================================================================== *)
(** * The engine on Python floats, in closed form                       *)
(* ================================================================== *)

Lemma Rsign_pos (r : R) : 0 < r -> Rsign r = Gt.
Proof.
  intros Hr; unfold Rsign; destruct (total_order_T r 0) as [[H | H] | H];
    [lra | lra | reflexivity].
Qed.

Lemma Rsign_neg (r : R) : r < 0 -> Rsign r = Lt.
Proof.
  intros Hr; unfold Rsign; destruct (total_order_T r 0) as [[H | H] | H];
    [reflexivity | lra | lra].
Qed.

Lemma Rsign_zero : Rsign 0 = Eq.
Proof.
  unfold Rsign; destruct (total_order_T 0 0) as [[H | H] | H];
    [lra | reflexivity | lra].
Qed.

Lemma catalog_factor_positive (profile : string) (c : R) :
  dict_get PROFILE_FACTORS profile = Some c -> 0 < c.
Proof.
  intros H; apply dict_get_In in H.
  unfold PROFILE_FACTORS in H; cbn [In] in H.
  repeat (destruct H as [H | H]; [injection H as _ <-; lra | ]).
  contradiction.
Qed.

(** A call with Python floats in the fields its family reads and no
    zero divisor returns the three closed forms. *)
Lemma call_on_floats (profile : string) (c Ev e l m d : R)
    (h b a r2 Z : pyval) (hv bv av rv zv : R) :
  dict_get PROFILE_FACTORS profile = Some c ->
  required_floats profile h b a r2 Z hv bv av rv zv ->
  ~ zero_divisor profile l hv bv av rv ->
  let P := modulus_formula profile hv bv av zv * Ev * e / l in
  calculate_snap_fit profile (PyFloat Ev) (PyFloat e) (PyFloat l) h b a r2 Z
    (Some (PyFloat m)) (Some (PyFloat d))
  = Ok (mkResult (PyFloat (deflection_formula profile c e l hv bv av rv))
          (PyFloat P) (NpFloat64 (mating_force P m d))).
Proof.
  intros Hcat Hreq Hnz P; subst P.
  unfold required_floats in Hreq; unfold zero_divisor in Hnz.
  unfold deflection_formula, modulus_formula.
  unfold calculate_snap_fit, calculate_snap_fit_body, deflection_and_modulus.
  cbn [default_to].
  rewrite (getitem_catalog _ _ Hcat).
  destruct (contains "Rectangle" profile);
    [ | destruct (contains "Trapezoid" profile);
        [ | destruct (contains "Ring Segment" profile) ] ];
    clear Hcat.
  - destruct Hreq as (-> & ->); float_run; float_done.
  - destruct Hreq as (-> & -> & ->); float_run; float_done.
  - destruct Hreq as (-> & ->); float_run; float_done.
  - destruct Hreq as (-> & ->); float_run; float_done.
Qed.

(* ================================================================== *)
(** * Exceptions of the engine                                          *)
(* ================================================================== *)

(** X1.  A profile that is not a key of the catalog makes the call
    raise [KeyError], whatever the other arguments, provided the angle
    is not [None]; an angle that is [None] raises [TypeError] before
    the catalog is consulted. *)
Theorem unknown_profile_raises_key_error (profile : string)
    (E eps L h b a r2 Z : pyval) (mu alpha_deg : option pyval) :
  dict_get PROFILE_FACTORS profile = None ->
  alpha_deg <> Some PyNone ->
  calculate_snap_fit profile E eps L h b a r2 Z mu alpha_deg = Raise KeyError
  /\ calculate_snap_fit profile E eps L h b a r2 Z mu (Some PyNone)
     = Raise TypeError.
Proof.
  intros Hcat Hal; split; [ | reflexivity].
  unfold calculate_snap_fit, calculate_snap_fit_body.
  destruct (np_ufunc_not_none f_radians _ (default_to_not_none 5 _ Hal))
    as (ar & Har).
  fold np_radians in Har; rewrite Har; cbn [bind].
  unfold PROFILE_FACTORS_getitem; rewrite Hcat; reflexivity.
Qed.

Lemma unknown_profile_raises_key_error_witness :
  calculate_snap_fit "Circle – Constant Cross Section"
    (PyFloat 2.07e9) (PyFloat 0.02) (PyFloat 25.4) (PyFloat 2.54) (PyFloat 12.7)
    PyNone PyNone PyNone None None = Raise KeyError
  /\ calculate_snap_fit "Circle – Constant Cross Section"
       (PyFloat 2.07e9) (PyFloat 0.02) (PyFloat 25.4) (PyFloat 2.54) (PyFloat 12.7)
       PyNone PyNone PyNone None (Some PyNone) = Raise TypeError.
Proof.
  apply unknown_profile_raises_key_error; [reflexivity | discriminate].
Defined.

Section Raising.
Local Open Scope py_scope.

Lemma raises_lift1 op (x : exc pyval) : raises x -> raises (lift1 op x).
Proof. intros (e & ->); exists e; reflexivity. Qed.

Lemma raises_lift2_l op (x y : exc pyval) : raises x -> raises (lift2 op x y).
Proof. intros (e & ->); exists e; reflexivity. Qed.

Lemma raises_lift2_r op (x y : exc pyval) : raises y -> raises (lift2 op x y).
Proof.
  intros (e & ->); destruct x as [v | e']; eexists; reflexivity.
Qed.

Lemma raises_none_l fpy fnp (y : exc pyval) :
  raises (lift2 (py_binop fpy fnp) (val PyNone) y).
Proof. destruct y as [v | e]; eexists; reflexivity. Qed.

Lemma raises_none_r fpy fnp (x : exc pyval) :
  raises (lift2 (py_binop fpy fnp) x (val PyNone)).
Proof.
  destruct x as [v | e]; [destruct v | ]; eexists; reflexivity.
Qed.

Lemma raises_sq_none : raises ((val PyNone) **2).
Proof. eexists; reflexivity. Qed.

End Raising.

Create HintDb py_raise.
#[local] Hint Resolve raises_lift1 raises_lift2_l raises_lift2_r
  raises_none_l raises_none_r raises_sq_none : py_raise.

Ltac bind_head t :=
  match t with
  | bind ?m _ => bind_head m
  | _ => t
  end.

(** One step of a computation that must end in an exception: either its
    first expression has [None] among its operands, or it is run. *)
Ltac raise_step :=
  match goal with
  | |- raises (Raise _) => eexists; reflexivity
  | |- raises ?g =>
      let m := bind_head g in
      first
        [ let H := fresh "H" in
          assert (H : raises m)
            by (unfold py_add, py_sub, py_mul, py_div; auto 8 with py_raise);
          destruct H as (? & ->); cbn [bind]; eexists; reflexivity
        | destruct m; cbn [bind] ]
  end.

(** X2.  A call that leaves out ([None]) a field the family of its
    profile reads never returns a result, whatever the other
    arguments. *)
Theorem missing_required_field_raises (profile : string)
    (E eps L h b a r2 Z : pyval) (mu alpha_deg : option pyval) :
  missing_required profile h b a r2 Z ->
  raises (calculate_snap_fit profile E eps L h b a r2 Z mu alpha_deg).
Proof.
  unfold missing_required.
  unfold calculate_snap_fit, calculate_snap_fit_body, deflection_and_modulus.
  intros Hmiss.
  destruct (np_radians _); cbn [bind]; [ | eexists; reflexivity].
  destruct (PROFILE_FACTORS_getitem profile); cbn [bind]; [ | eexists; reflexivity].
  destruct (contains "Rectangle" profile);
    [ | destruct (contains "Trapezoid" profile);
        [ | destruct (contains "Ring Segment" profile) ] ].
  - destruct Hmiss as [-> | ->]; repeat raise_step.
  - destruct Hmiss as [-> | [-> | ->]]; repeat raise_step.
  - destruct Hmiss as [-> | ->]; repeat raise_step.
  - destruct Hmiss as [-> | ->]; repeat raise_step.
Qed.

Lemma missing_required_field_raises_witness :
  raises (calculate_snap_fit "Ring Segment – Constant Cross Section"
            (PyFloat 2.07e9) (PyFloat 0.02) (PyFloat 25.4) (PyFloat 2.54)
            (PyFloat 12.7) (PyFloat 15.24) (PyFloat 12.7) PyNone None None).
Proof.
  apply missing_required_field_raises; right; reflexivity.
Defined.

(** X3.  With Python floats for the other arguments, no division by
    zero on the way and no square that overflows on the way ([L] and,
    when given, [h] are the operands of [**] met before a missing
    field), the exception of a missing required field is
    [TypeError]. *)
Theorem missing_required_field_type_error (profile : string)
    (c Ev e l m d : R) (oh ob oa or2 oZ : option R) :
  dict_get PROFILE_FACTORS profile = Some c ->
  missing_required profile (optional_float oh) (optional_float ob)
    (optional_float oa) (optional_float or2) (optional_float oZ) ->
  square_in_range l -> optional_in_range oh ->
  l <> 0 -> oh <> Some 0 -> or2 <> Some 0 ->
  (forall av bv, oa = Some av -> ob = Some bv -> 2 * av + bv <> 0) ->
  calculate_snap_fit profile (PyFloat Ev) (PyFloat e) (PyFloat l)
    (optional_float oh) (optional_float ob) (optional_float oa)
    (optional_float or2) (optional_float oZ)
    (Some (PyFloat m)) (Some (PyFloat d))
  = Raise TypeError.
Proof.
  intros Hcat Hmiss _ _ Hl Hh Hr Hab.
  unfold missing_required in Hmiss.
  unfold calculate_snap_fit, calculate_snap_fit_body, deflection_and_modulus.
  cbn [default_to].
  rewrite (getitem_catalog _ _ Hcat); clear Hcat.
  destruct (contains "Rectangle" profile);
    [ | destruct (contains "Trapezoid" profile);
        [ | destruct (contains "Ring Segment" profile) ] ].
  all: destruct oh as [hv | ], ob as [bv | ], oa as [av | ], or2 as [rv | ],
         oZ as [zv | ]; cbn [optional_float] in *;
       try (exfalso; intuition discriminate).
  all: float_run; try reflexivity; exfalso.
  all: try lra; try (apply Hh; f_equal; assumption);
       try (apply Hr; f_equal; assumption);
       try (eapply Hab; [reflexivity | reflexivity | assumption]).
Qed.

Lemma missing_required_field_type_error_witness :
  calculate_snap_fit "Trapezoid – Constant Cross Section"
    (PyFloat 2.07e9) (PyFloat 0.02) (PyFloat 25.4) (PyFloat 2.54) (PyFloat 12.7)
    PyNone PyNone PyNone (Some (PyFloat 0.30)) (Some (PyFloat 5.0))
  = Raise TypeError.
Proof.
  apply (missing_required_field_type_error "Trapezoid – Constant Cross Section"
           1.00 2.07e9 0.02 25.4 0.30 5.0 (Some 2.54) (Some 12.7) None None None).
  - reflexivity.
  - right; left; reflexivity.
  - apply small_square; lra.
  - apply small_square; lra.
  - lra.
  - intros H; injection H; lra.
  - discriminate.
  - discriminate.
Defined.

(* ================================================================== *)
(** * Signs and sizes of the outputs                                    *)
(* ================================================================== *)

Ltac positive :=
  repeat first
    [ assumption
    | apply Rdiv_lt_0_compat
    | apply Rmult_lt_0_compat
    | apply Rplus_lt_0_compat
    | apply pow_lt
    | lra ].

Lemma tan_degrees_nonneg (d : R) : 0 <= d < 90 -> 0 <= tan (d * (PI / 180)).
Proof.
  intros (Hd0 & Hd90); pose proof PI_RGT_0 as Hpi.
  destruct (Req_dec_T d 0) as [-> | Hd].
  - rewrite Rmult_0_l, tan_0; lra.
  - left; apply tan_gt_0; nra.
Qed.

Lemma formulas_positive (profile : string) (c Ev e l hv bv av rv zv : R) :
  0 < c -> 0 < Ev -> 0 < e -> 0 < l ->
  0 < hv -> 0 < bv -> 0 < av -> 0 < rv -> 0 < zv ->
  0 < deflection_formula profile c e l hv bv av rv
  /\ 0 < modulus_formula profile hv bv av zv * Ev * e / l.
Proof.
  intros; unfold deflection_formula, modulus_formula.
  destruct (contains "Rectangle" profile);
    [ | destruct (contains "Trapezoid" profile);
        [ | destruct (contains "Ring Segment" profile) ] ];
    split; positive.
Qed.

Lemma positive_no_zero_divisor (profile : string) (l hv bv av rv : R) :
  0 < l -> 0 < hv -> 0 < bv -> 0 < av -> 0 < rv ->
  ~ zero_divisor profile l hv bv av rv.
Proof.
  intros; unfold zero_divisor.
  destruct (contains "Rectangle" profile);
    [ | destruct (contains "Trapezoid" profile);
        [ | destruct (contains "Ring Segment" profile) ] ];
    intros Hz; repeat destruct Hz as [Hz | Hz]; lra.
Qed.

(** X4.  Physically valid input gives physically meaningful output:
    for a profile of the catalog, positive modulus, strain, length and
    dimensions, [mu >= 0], an angle of at least 0 and less than 90
    degrees and [mu * tan(alpha) < 1], the call returns finite numbers
    with [y > 0], [P > 0] and [W >= 0]. *)
Theorem valid_input_positive_output (profile : string) (c Ev e l m d : R)
    (h b a r2 Z : pyval) (hv bv av rv zv : R) :
  dict_get PROFILE_FACTORS profile = Some c ->
  required_floats profile h b a r2 Z hv bv av rv zv ->
  0 < Ev -> 0 < e -> 0 < l ->
  0 < hv -> 0 < bv -> 0 < av -> 0 < rv -> 0 < zv ->
  0 <= m -> 0 <= d < 90 -> m * tan (d * (PI / 180)) < 1 ->
  exists y P W : R,
    calculate_snap_fit profile (PyFloat Ev) (PyFloat e) (PyFloat l) h b a r2 Z
      (Some (PyFloat m)) (Some (PyFloat d))
    = Ok (mkResult (PyFloat y) (PyFloat P) (NpFloat64 (Fin W)))
    /\ 0 < y /\ 0 < P /\ 0 <= W.
Proof.
  intros Hcat Hreq HE He Hl Hh Hb Ha Hr HZ Hm Hd Hjam.
  pose proof (catalog_factor_positive _ _ Hcat) as Hc.
  pose proof (tan_degrees_nonneg d Hd) as Ht.
  destruct (formulas_positive profile c Ev e l hv bv av rv zv)
    as (Hy & HP); try assumption.
  rewrite (call_on_floats profile c Ev e l m d h b a r2 Z hv bv av rv zv Hcat Hreq)
    by (apply positive_no_zero_divisor; assumption).
  rewrite mating_force_finite by lra.
  do 3 eexists; split; [reflexivity | ].
  split; [exact Hy | split; [exact HP | ]].
  apply Rmult_le_pos; [lra | ].
  apply Rmult_le_pos; [lra | left; apply Rinv_0_lt_compat; lra].
Qed.

Lemma valid_input_positive_output_witness :
  exists y P W : R,
    calculate_snap_fit "Irregular – Y Dimensions Halved"
      (PyFloat 300000.0) (PyFloat 0.02) (PyFloat 1.0) (PyFloat 0.10) PyNone
      PyNone PyNone (PyFloat 0.01) (Some (PyFloat 0.30)) (Some (PyFloat 5))
    = Ok (mkResult (PyFloat y) (PyFloat P) (NpFloat64 (Fin W)))
    /\ 0 < y /\ 0 < P /\ 0 <= W.
Proof.
  pose proof tan_5_degrees as Ht.
  apply (valid_input_positive_output "Irregular – Y Dimensions Halved" 0.55
           300000.0 0.02 1.0 0.30 5 (PyFloat 0.10) PyNone PyNone PyNone
           (PyFloat 0.01) 0.10 1 1 1 0.01);
    try reflexivity; try lra.
  split; reflexivity.
Defined.

(** X5.  Self-locking is not an error.  For an angle of at least 0
    and less than 90 degrees with [mu * tan(alpha) > 1], a positive
    deflection force, no zero divisor and no square that overflows, the
    call returns: the deflection force is what it is for any other
    contact parameters, and the mating force is the finite negative
    number [P * (mu + tan(alpha)) / (1 - mu * tan(alpha))]. *)
Theorem self_locking_returns (profile : string) (c Ev e l m d : R)
    (h b a r2 Z : pyval) (hv bv av rv zv : R) :
  dict_get PROFILE_FACTORS profile = Some c ->
  required_floats profile h b a r2 Z hv bv av rv zv ->
  ~ zero_divisor profile l hv bv av rv ->
  squares_in_range profile l hv bv av ->
  let t := tan (d * (PI / 180)) in
  let P := modulus_formula profile hv bv av zv * Ev * e / l in
  0 < P -> 0 <= d < 90 -> m * t > 1 ->
  exists (r : result) (w : R),
    calculate_snap_fit profile (PyFloat Ev) (PyFloat e) (PyFloat l) h b a r2 Z
      (Some (PyFloat m)) (Some (PyFloat d)) = Ok r
    /\ Deflection_Force_P r = PyFloat P
    /\ Mating_Force_W r = NpFloat64 (Fin w)
    /\ w = P * ((m + t) / (1 - m * t))
    /\ w < 0.
Proof.
  intros Hcat Hreq Hnz _ t P HP Hd Hgt.
  pose proof (tan_degrees_nonneg d Hd) as Ht; fold t in Ht.
  assert (Hmt : 0 < m + t) by nra.
  rewrite (call_on_floats profile c Ev e l m d h b a r2 Z hv bv av rv zv
             Hcat Hreq Hnz).
  fold P; rewrite mating_force_finite by (fold t; lra); fold t.
  do 2 eexists; split; [reflexivity | ].
  cbn [Deflection_Force_P Mating_Force_W].
  split; [reflexivity | split; [reflexivity | split; [reflexivity | ]]].
  assert (Hq : (m + t) / (1 - m * t) < 0).
  { assert (Hinv : / (1 - m * t) < 0) by (apply Rinv_lt_0_compat; lra).
    unfold Rdiv; nra. }
  nra.
Qed.

Lemma self_locking_returns_witness :
  exists (r : result) (w : R),
    calculate_snap_fit "Rectangle – Constant Cross Section"
      (PyFloat 300000.0) (PyFloat 0.02) (PyFloat 1.0) (PyFloat 0.10)
      (PyFloat 0.50) PyNone PyNone PyNone
      (Some (PyFloat 2)) (Some (PyFloat 45)) = Ok r
    /\ Mating_Force_W r = NpFloat64 (Fin w)
    /\ w < 0.
Proof.
  assert (Ht : tan (45 * (PI / 180)) = 1).
  { replace (45 * (PI / 180)) with (PI / 4) by field; apply tan_PI4. }
  destruct (self_locking_returns "Rectangle – Constant Cross Section" 0.67
              300000.0 0.02 1.0 2 45 (PyFloat 0.10) (PyFloat 0.50) PyNone PyNone
              PyNone 0.10 0.50 0 0 0 eq_refl (conj eq_refl eq_refl))
    as (r & w & Hr & _ & HW & _ & Hneg).
  - intros Hz; hnf in Hz; destruct Hz; lra.
  - split; apply small_square; lra.
  - change (0 < 0.50 * 0.10 ^ 2 / 6 * 300000.0 * 0.02 / 1.0); lra.
  - lra.
  - rewrite Ht; lra.
  - exists r, w; repeat split; assumption.
Defined.

(* ================================================================== *)
(** * What each argument reaches                                        *)
(* ================================================================== *)

(** X6.  The contact parameters reach the mating force only, and the
    modulus does not reach the deflection: two calls that differ in
    [E], [mu] and [alpha_deg] and both return have the same [y], and
    the same [P] when [E] is the same. *)
Theorem contact_parameters_reach_only_W (profile : string)
    (E1 E2 eps L h b a r2 Z : pyval) (mu1 al1 mu2 al2 : option pyval)
    (res1 res2 : result) :
  calculate_snap_fit profile E1 eps L h b a r2 Z mu1 al1 = Ok res1 ->
  calculate_snap_fit profile E2 eps L h b a r2 Z mu2 al2 = Ok res2 ->
  Permissible_Deflection_y res1 = Permissible_Deflection_y res2
  /\ (E1 = E2 -> Deflection_Force_P res1 = Deflection_Force_P res2).
Proof.
  unfold calculate_snap_fit, calculate_snap_fit_body; intros H1 H2.
  destruct (np_radians (default_to _ al1)); cbn [bind] in H1; [ | discriminate].
  destruct (np_radians (default_to _ al2)); cbn [bind] in H2; [ | discriminate].
  destruct (PROFILE_FACTORS_getitem profile); cbn [bind] in H1, H2; [ | discriminate].
  destruct (deflection_and_modulus _ _ _ _ _ _ _ _ _) as [[y Z_sec] | ];
    cbn [bind] in H1, H2; [ | discriminate].
  destruct (lift2 py_div (lift2 py_mul (lift2 py_mul Z_sec E1) eps) L)
    as [P1 | ] eqn:HP1; cbn [bind] in H1; [ | discriminate].
  destruct (lift2 py_div (lift2 py_mul (lift2 py_mul Z_sec E2) eps) L)
    as [P2 | ] eqn:HP2; cbn [bind] in H2; [ | discriminate].
  repeat match goal with
         | H : bind ?m _ = Ok _ |- _ =>
             destruct m; cbn [bind] in H; [ | discriminate]
         end.
  injection H1 as <-; injection H2 as <-; cbn.
  split; [reflexivity | intros ->; congruence].
Qed.

Lemma contact_parameters_reach_only_W_witness :
  Permissible_Deflection_y
    (mkResult (PyFloat (0.67 * 0.02 * 25.4 ^ 2 / 2.54))
       (PyFloat (12.7 * 2.54 ^ 2 / 6 * 2.07e9 * 0.02 / 25.4))
       (NpFloat64 (mating_force (12.7 * 2.54 ^ 2 / 6 * 2.07e9 * 0.02 / 25.4) 0.30 5.0)))
  = Permissible_Deflection_y
      (mkResult (PyFloat (0.67 * 0.02 * 25.4 ^ 2 / 2.54))
         (PyFloat (12.7 * 2.54 ^ 2 / 6 * 1 * 0.02 / 25.4))
         (NpFloat64 (mating_force (12.7 * 2.54 ^ 2 / 6 * 1 * 0.02 / 25.4) 2 45))).
Proof.
  refine (proj1 (contact_parameters_reach_only_W
                   "Rectangle – Constant Cross Section"
                   (PyFloat 2.07e9) (PyFloat 1) (PyFloat 0.02) (PyFloat 25.4)
                   (PyFloat 2.54) (PyFloat 12.7) PyNone PyNone PyNone
                   (Some (PyFloat 0.30)) (Some (PyFloat 5.0))
                   (Some (PyFloat 2)) (Some (PyFloat 45)) _ _ _ _)).
  - apply metric_defaults_call.
  - unfold calculate_snap_fit; cbn [default_to].
    apply rectangle_python_floats; [reflexivity | reflexivity | lra | lra].
Defined.

(** X7.  A field the family does not read is harmless: the call is the
    same whatever is passed for it.  Rectangle reads [h] and [b],
    Trapezoid [h], [a] and [b], Ring Segment [r2] and [Z], Irregular
    [h] and [Z]. *)
Theorem unread_fields_ignored (profile : string) (c : R)
    (E eps L h b a r2 Z h' b' a' r2' Z' : pyval) (mu alpha_deg : option pyval) :
  dict_get PROFILE_FACTORS profile = Some c ->
  let call := calculate_snap_fit profile E eps L in
  (contains "Rectangle" profile = true ->
   call h b a r2 Z mu alpha_deg = call h b a' r2' Z' mu alpha_deg)
  /\ (contains "Trapezoid" profile = true ->
      call h b a r2 Z mu alpha_deg = call h b a r2' Z' mu alpha_deg)
  /\ (contains "Ring Segment" profile = true ->
      call h b a r2 Z mu alpha_deg = call h' b' a' r2 Z mu alpha_deg)
  /\ (contains "Irregular" profile = true ->
      call h b a r2 Z mu alpha_deg = call h b' a' r2' Z mu alpha_deg).
Proof.
  intros Hcat call; subst call.
  pose proof (catalog_one_family _ _ Hcat) as Hone.
  unfold family_flags in Hone.
  unfold calculate_snap_fit, calculate_snap_fit_body, deflection_and_modulus.
  destruct (contains "Rectangle" profile), (contains "Trapezoid" profile),
    (contains "Ring Segment" profile), (contains "Irregular" profile);
    cbn in Hone; try (exfalso; intuition discriminate);
    repeat split; intros Hfam; try discriminate Hfam; reflexivity.
Qed.

Lemma unread_fields_ignored_witness :
  calculate_snap_fit "Ring Segment – Y Dimensions Halved"
    (PyFloat 1) (PyFloat 1) (PyFloat 1) (PyFloat 0) PyNone (PyFloat 7)
    (PyFloat 1) (PyFloat 1) None None
  = calculate_snap_fit "Ring Segment – Y Dimensions Halved"
      (PyFloat 1) (PyFloat 1) (PyFloat 1) PyNone PyNone PyNone
      (PyFloat 1) (PyFloat 1) None None.
Proof.
  apply (proj1 (proj2 (proj2
           (unread_fields_ignored "Ring Segment – Y Dimensions Halved" 1.64
              (PyFloat 1) (PyFloat 1) (PyFloat 1) (PyFloat 0) PyNone (PyFloat 7)
              (PyFloat 1) (PyFloat 1) PyNone PyNone PyNone PyNone PyNone
              None None eq_refl))));
    reflexivity.
Defined.

(* ================================================================== *)
(** * Relations between calls                                           *)
(* ================================================================== *)

Lemma required_floats_rectangle (profile : string) (a r2 Z : pyval)
    (hv bv av rv zv : R) :
  contains "Rectangle" profile = true ->
  required_floats profile (PyFloat hv) (PyFloat bv) a r2 Z hv bv av rv zv.
Proof. intros H; unfold required_floats; rewrite H; split; reflexivity. Qed.

Lemma required_floats_trapezoid (profile : string) (c : R) (r2 Z : pyval)
    (hv bv av rv zv : R) :
  dict_get PROFILE_FACTORS profile = Some c ->
  contains "Trapezoid" profile = true ->
  contains "Rectangle" profile = false
  /\ required_floats profile (PyFloat hv) (PyFloat bv) (PyFloat av) r2 Z
       hv bv av rv zv.
Proof.
  intros Hcat Hfam; pose proof (catalog_one_family _ _ Hcat) as Hone.
  unfold family_flags in Hone; rewrite Hfam in Hone.
  destruct (contains "Rectangle" profile) eqn:Hrect;
    [cbn in Hone; intuition discriminate | ].
  split; [reflexivity | ].
  unfold required_floats; rewrite Hrect, Hfam; repeat split; reflexivity.
Qed.

(** X8.  A trapezoid whose two widths are equal is a rectangle to the
    forces: it has the section modulus, the deflection force and the
    mating force of the Rectangle profile of that width, and its
    deflection is its factor times 2/3 of [eps * L^2 / h]. *)
Theorem trapezoid_of_equal_widths (trapezoid rectangle : string)
    (cT cR Ev e l hv w m d : R) :
  dict_get PROFILE_FACTORS trapezoid = Some cT ->
  contains "Trapezoid" trapezoid = true ->
  dict_get PROFILE_FACTORS rectangle = Some cR ->
  contains "Rectangle" rectangle = true ->
  hv <> 0 -> w <> 0 -> l <> 0 ->
  exists (resT resR : result) (p : R),
    calculate_snap_fit trapezoid (PyFloat Ev) (PyFloat e) (PyFloat l)
      (PyFloat hv) (PyFloat w) (PyFloat w) PyNone PyNone
      (Some (PyFloat m)) (Some (PyFloat d)) = Ok resT
    /\ calculate_snap_fit rectangle (PyFloat Ev) (PyFloat e) (PyFloat l)
         (PyFloat hv) (PyFloat w) PyNone PyNone PyNone
         (Some (PyFloat m)) (Some (PyFloat d)) = Ok resR
    /\ is_num (Permissible_Deflection_y resT) (cT * (2 / 3) * e * l ^ 2 / hv)
    /\ p = w * hv ^ 2 / 6 * Ev * e / l
    /\ Deflection_Force_P resT = PyFloat p
    /\ Deflection_Force_P resR = PyFloat p
    /\ Mating_Force_W resT = Mating_Force_W resR.
Proof.
  intros HcT HfT HcR HfR Hhv Hw Hl.
  destruct (required_floats_trapezoid trapezoid cT PyNone PyNone hv w w 0 0 HcT HfT)
    as (HrectT & HreqT).
  pose proof (required_floats_rectangle rectangle PyNone PyNone PyNone
                hv w 0 0 0 HfR) as HreqR.
  rewrite (call_on_floats trapezoid cT Ev e l m d _ _ _ _ _ hv w w 0 0 HcT HreqT)
    by (unfold zero_divisor; rewrite HrectT, HfT;
        intros [Hz | [Hz | Hz]]; [apply Hw; lra | contradiction | contradiction]).
  rewrite (call_on_floats rectangle cR Ev e l m d _ _ _ _ _ hv w 0 0 0 HcR HreqR)
    by (unfold zero_divisor; rewrite HfR; intros [Hz | Hz]; contradiction).
  unfold deflection_formula, modulus_formula; rewrite HrectT, HfT, HfR.
  assert (Hmod : hv ^ 2 / 12 * ((w ^ 2 + 4 * w * w + w ^ 2) / (2 * w + w))
                 = w * hv ^ 2 / 6) by (field; lra).
  rewrite Hmod.
  do 3 eexists; split; [reflexivity | ]; split; [reflexivity | ].
  cbn [Permissible_Deflection_y Deflection_Force_P Mating_Force_W].
  split; [unfold is_num; cbn; f_equal; field; split; lra | ].
  repeat split; reflexivity.
Qed.

Lemma trapezoid_of_equal_widths_witness :
  exists (resT resR : result) (p : R),
    calculate_snap_fit "Trapezoid – Constant Cross Section"
      (PyFloat 300000.0) (PyFloat 0.02) (PyFloat 1.0)
      (PyFloat 0.10) (PyFloat 0.50) (PyFloat 0.50) PyNone PyNone
      (Some (PyFloat 0.30)) (Some (PyFloat 5.0)) = Ok resT
    /\ calculate_snap_fit "Rectangle – Constant Cross Section"
         (PyFloat 300000.0) (PyFloat 0.02) (PyFloat 1.0)
         (PyFloat 0.10) (PyFloat 0.50) PyNone PyNone PyNone
         (Some (PyFloat 0.30)) (Some (PyFloat 5.0)) = Ok resR
    /\ is_num (Permissible_Deflection_y resT)
         (1.00 * (2 / 3) * 0.02 * 1.0 ^ 2 / 0.10)
    /\ p = 0.50 * 0.10 ^ 2 / 6 * 300000.0 * 0.02 / 1.0
    /\ Deflection_Force_P resT = PyFloat p
    /\ Deflection_Force_P resR = PyFloat p
    /\ Mating_Force_W resT = Mating_Force_W resR.
Proof.
  apply (trapezoid_of_equal_widths "Trapezoid – Constant Cross Section"
           "Rectangle – Constant Cross Section" 1.00 0.67);
    try reflexivity; lra.
Defined.

(** X9.  The deflection is homogeneous in the lengths: multiplying
    [L] and every dimension the family reads by [k] (25.4 to pass from
    inches to millimetres) multiplies [y] by [k], whatever the modulus,
    the supplied section modulus and the contact parameters of the two
    calls. *)
Theorem deflection_scales_with_lengths (profile : string) (c k : R)
    (Ev Ev' e l m d m' d' : R) (h b a r2 Z h' b' a' r2' Z' : pyval)
    (hv bv av rv zv zv' : R) :
  dict_get PROFILE_FACTORS profile = Some c ->
  required_floats profile h b a r2 Z hv bv av rv zv ->
  required_floats profile h' b' a' r2' Z' (k * hv) (k * bv) (k * av) (k * rv) zv' ->
  ~ zero_divisor profile l hv bv av rv ->
  k <> 0 ->
  exists (res res' : result) (y : R),
    calculate_snap_fit profile (PyFloat Ev) (PyFloat e) (PyFloat l) h b a r2 Z
      (Some (PyFloat m)) (Some (PyFloat d)) = Ok res
    /\ calculate_snap_fit profile (PyFloat Ev') (PyFloat e) (PyFloat (k * l))
         h' b' a' r2' Z' (Some (PyFloat m')) (Some (PyFloat d')) = Ok res'
    /\ is_num (Permissible_Deflection_y res) y
    /\ is_num (Permissible_Deflection_y res') (k * y).
Proof.
  intros Hcat Hreq Hreq' Hnz Hk.
  assert (Hnz' : ~ zero_divisor profile (k * l) (k * hv) (k * bv) (k * av) (k * rv)).
  { revert Hnz; unfold zero_divisor.
    destruct (contains "Rectangle" profile);
      [ | destruct (contains "Trapezoid" profile);
          [ | destruct (contains "Ring Segment" profile) ] ];
      intros Hnz Hz; apply Hnz;
      repeat match goal with
             | H : _ \/ _ |- _ => destruct H as [H | H]
             end;
      match goal with
      | H : k * ?x = 0 |- _ =>
          apply Rmult_integral in H; destruct H as [H | H]; [contradiction | tauto]
      | H : 2 * (k * av) + k * bv = 0 |- _ =>
          left; assert (H' : k * (2 * av + bv) = 0) by lra;
          apply Rmult_integral in H'; destruct H' as [H' | H'];
          [contradiction | exact H']
      end. }
  rewrite (call_on_floats profile c Ev e l m d h b a r2 Z hv bv av rv zv
             Hcat Hreq Hnz).
  rewrite (call_on_floats profile c Ev' e (k * l) m' d' h' b' a' r2' Z'
             (k * hv) (k * bv) (k * av) (k * rv) zv' Hcat Hreq' Hnz').
  do 3 eexists; split; [reflexivity | ]; split; [reflexivity | ].
  cbn [Permissible_Deflection_y]; split; [reflexivity | ].
  unfold is_num; cbn [real_of]; f_equal.
  revert Hnz; unfold zero_divisor, deflection_formula.
  destruct (contains "Rectangle" profile);
    [ | destruct (contains "Trapezoid" profile);
        [ | destruct (contains "Ring Segment" profile) ] ];
    intros Hnz; field; repeat split; try assumption;
    try (intros Hz; apply Hnz; tauto).
  intros Hz; apply Hnz; left.
  assert (Hz' : k * (2 * av + bv) = 0) by lra.
  apply Rmult_integral in Hz'; destruct Hz' as [Hz' | Hz']; [contradiction | exact Hz'].
Qed.

Lemma deflection_scales_with_lengths_witness :
  exists (res res' : result) (y : R),
    calculate_snap_fit "Rectangle – Constant Cross Section"
      (PyFloat 300000.0) (PyFloat 0.02) (PyFloat 1.0) (PyFloat 0.10)
      (PyFloat 0.50) PyNone PyNone PyNone
      (Some (PyFloat 0.30)) (Some (PyFloat 5.0)) = Ok res
    /\ calculate_snap_fit "Rectangle – Constant Cross Section"
         (PyFloat 2.07e9) (PyFloat 0.02) (PyFloat (25.4 * 1.0))
         (PyFloat (25.4 * 0.10)) (PyFloat (25.4 * 0.50)) PyNone PyNone PyNone
         (Some (PyFloat 0.30)) (Some (PyFloat 5.0)) = Ok res'
    /\ is_num (Permissible_Deflection_y res) y
    /\ is_num (Permissible_Deflection_y res') (25.4 * y).
Proof.
  apply (deflection_scales_with_lengths "Rectangle – Constant Cross Section"
           0.67 25.4 300000.0 2.07e9 0.02 1.0 0.30 5.0 0.30 5.0
           (PyFloat 0.10) (PyFloat 0.50) PyNone PyNone PyNone
           (PyFloat (25.4 * 0.10)) (PyFloat (25.4 * 0.50)) PyNone PyNone PyNone
           0.10 0.50 0 0 0 0).
  - reflexivity.
  - split; reflexivity.
  - split; reflexivity.
  - intros Hz; hnf in Hz; destruct Hz; lra.
  - lra.
Defined.

(* ================================================================== *)
(** * Unit conversions                                                  *)
(* ================================================================== *)

Lemma times_then_over (k : R) (v : pyval) :
  0 < k -> v <> PyNone ->
  bind (lift2 py_mul v (num k)) (fun u => lift2 py_div u (num k)) = Ok v.
Proof.
  intros Hk Hv; destruct v as [ | r | [r | | | ]]; [congruence | | | | | ];
    cbn [bind lift2 val num py_mul py_div py_binop f_mul];
    unfold inf_times; rewrite ?(Rsign_pos k Hk);
    cbn [f_div inf_of negb]; rewrite ?(Rsign_pos k Hk);
    rewrite ?py_truediv_nonzero by lra; try reflexivity.
  - do 2 f_equal; field; lra.
  - destruct (Req_dec_T k 0); [lra | do 3 f_equal; field; lra].
Qed.

Lemma over_then_times (k : R) (v : pyval) :
  0 < k -> v <> PyNone ->
  bind (lift2 py_div v (num k)) (fun u => lift2 py_mul u (num k)) = Ok v.
Proof.
  intros Hk Hv; destruct v as [ | r | [r | | | ]]; [congruence | | | | | ];
    cbn [bind lift2 val num py_mul py_div py_binop f_div];
    rewrite ?(Rsign_pos k Hk); rewrite ?py_truediv_nonzero by lra;
    try (destruct (Req_dec_T k 0); [lra | ]);
    cbn [bind lift2 val num py_mul py_div py_binop f_mul];
    unfold inf_times; rewrite ?(Rsign_pos k Hk); cbn [inf_of negb];
    try reflexivity.
  - do 2 f_equal; field; lra.
  - do 3 f_equal; field; lra.
Qed.

(** X10.  The conversions come in inverse pairs: inches and
    millimetres, pounds-force and newtons, psi and pascals.  On every
    value but [None], converting and converting back gives the value
    again (in the exact arithmetic of the model), infinities and nans
    included; on [None] every conversion raises [TypeError]. *)
Theorem conversions_round_trip (v : pyval) :
  (v <> PyNone ->
   bind (in_to_mm v) mm_to_in = Ok v /\ bind (mm_to_in v) in_to_mm = Ok v
   /\ bind (lbf_to_N v) N_to_lbf = Ok v /\ bind (N_to_lbf v) lbf_to_N = Ok v
   /\ bind (psi_to_Pa v) Pa_to_psi = Ok v /\ bind (Pa_to_psi v) psi_to_Pa = Ok v)
  /\ in_to_mm PyNone = Raise TypeError /\ mm_to_in PyNone = Raise TypeError
  /\ lbf_to_N PyNone = Raise TypeError /\ N_to_lbf PyNone = Raise TypeError
  /\ psi_to_Pa PyNone = Raise TypeError /\ Pa_to_psi PyNone = Raise TypeError.
Proof.
  split; [ | repeat split; reflexivity].
  intros Hv; unfold in_to_mm, mm_to_in, lbf_to_N, N_to_lbf, psi_to_Pa, Pa_to_psi.
  repeat split;
    first [apply times_then_over | apply over_then_times]; (lra || assumption).
Qed.

Lemma conversions_round_trip_witness :
  bind (in_to_mm (PyFloat 0.10)) mm_to_in = Ok (PyFloat 0.10)
  /\ bind (N_to_lbf (NpFloat64 NInf)) lbf_to_N = Ok (NpFloat64 NInf).
Proof.
  destruct (proj1 (conversions_round_trip (PyFloat 0.10))) as (H1 & _);
    [discriminate | ].
  destruct (proj1 (conversions_round_trip (NpFloat64 NInf)))
    as (_ & _ & _ & H2 & _); [discriminate | ].
  split; assumption.
Defined.

(* ================================================================== *)
(** * The Calculator tab                                                *)
(* ================================================================== *)

Lemma calculator_geometry_required (profile : string) (h b a r2 Z : R) :
  let '(h', b', a', r2', Z') := calculator_geometry profile h b a r2 Z in
  required_floats profile h' b' a' r2' Z' h b a r2 Z.
Proof.
  unfold calculator_geometry, required_floats.
  destruct (contains "Rectangle" profile);
    [ | destruct (contains "Trapezoid" profile);
        [ | destruct (contains "Ring Segment" profile) ] ];
    repeat split; reflexivity.
Qed.

Lemma zero_divisor_raises (profile : string) (c Ev e l m d : R)
    (h b a r2 Z : pyval) (hv bv av rv zv : R) :
  dict_get PROFILE_FACTORS profile = Some c ->
  required_floats profile h b a r2 Z hv bv av rv zv ->
  zero_divisor profile l hv bv av rv ->
  calculate_snap_fit profile (PyFloat Ev) (PyFloat e) (PyFloat l) h b a r2 Z
    (Some (PyFloat m)) (Some (PyFloat d)) = Raise ZeroDivisionError.
Proof.
  intros Hcat Hreq.
  unfold required_floats in Hreq; unfold zero_divisor.
  unfold calculate_snap_fit, calculate_snap_fit_body, deflection_and_modulus.
  cbn [default_to].
  rewrite (getitem_catalog _ _ Hcat).
  destruct (contains "Rectangle" profile);
    [ | destruct (contains "Trapezoid" profile);
        [ | destruct (contains "Ring Segment" profile) ] ];
    clear Hcat.
  - destruct Hreq as (-> & ->); intros Hz; float_run; float_done.
  - destruct Hreq as (-> & -> & ->); intros Hz; float_run; float_done.
  - destruct Hreq as (-> & ->); intros Hz; float_run; float_done.
  - destruct Hreq as (-> & ->); intros Hz; float_run; float_done.
Qed.

Lemma calculator_results_returns (unit_system profile : string)
    (c E eps mu alpha L h b a r2 Z : R) :
  dict_get PROFILE_FACTORS profile = Some c ->
  ~ zero_divisor profile L h b a r2 ->
  let y := deflection_formula profile c eps L h b a r2 in
  let P := modulus_formula profile h b a Z * E * eps / L in
  let W := mating_force P mu alpha in
  calculator_results unit_system profile E eps mu alpha L h b a r2 Z
  = Ok (if String.eqb unit_system "Metric"
        then mkResult (PyFloat (y * 25.4)) (PyFloat (P * 4.44822))
               (NpFloat64 (f_mul W (Fin 4.44822)))
        else mkResult (PyFloat y) (PyFloat P) (NpFloat64 W)).
Proof.
  intros Hcat Hz y P W.
  pose proof (calculator_geometry_required profile h b a r2 Z) as Hreq.
  unfold calculator_results.
  destruct (calculator_geometry profile h b a r2 Z) as [[[[h' b'] a'] r2'] Z'].
  rewrite (call_on_floats profile c E eps L mu alpha h' b' a' r2' Z'
             h b a r2 Z Hcat Hreq Hz); cbn [bind].
  destruct (String.eqb unit_system "Metric"); reflexivity.
Qed.

(** X11.  The form passes the engine exactly the fields the selected
    family reads, so for a profile of the catalog the Calculator tab
    never meets a missing field.  With entries whose squares do not
    overflow, it fails, with [ZeroDivisionError], when a divisor typed
    in is zero, and otherwise shows the engine's three outputs, as they
    are when the unit system is not "Metric", and with the deflection
    multiplied by 25.4 and both forces by 4.44822 when it is. *)
Theorem calculator_tab_outputs (unit_system profile : string)
    (c E eps mu alpha L h b a r2 Z : R) :
  dict_get PROFILE_FACTORS profile = Some c ->
  squares_in_range profile L h b a ->
  let y := deflection_formula profile c eps L h b a r2 in
  let P := modulus_formula profile h b a Z * E * eps / L in
  let W := mating_force P mu alpha in
  (zero_divisor profile L h b a r2 ->
   calculator_results unit_system profile E eps mu alpha L h b a r2 Z
   = Raise ZeroDivisionError)
  /\ (~ zero_divisor profile L h b a r2 ->
      calculator_results unit_system profile E eps mu alpha L h b a r2 Z
      = Ok (if String.eqb unit_system "Metric"
            then mkResult (PyFloat (y * 25.4)) (PyFloat (P * 4.44822))
                   (NpFloat64 (f_mul W (Fin 4.44822)))
            else mkResult (PyFloat y) (PyFloat P) (NpFloat64 W))).
Proof.
  intros Hcat _ y P W.
  pose proof (calculator_geometry_required profile h b a r2 Z) as Hreq.
  unfold calculator_results.
  destruct (calculator_geometry profile h b a r2 Z) as [[[[h' b'] a'] r2'] Z'].
  split; intros Hz.
  - rewrite (zero_divisor_raises profile c E eps L mu alpha h' b' a' r2' Z'
               h b a r2 Z Hcat Hreq Hz); reflexivity.
  - rewrite (call_on_floats profile c E eps L mu alpha h' b' a' r2' Z'
               h b a r2 Z Hcat Hreq Hz); cbn [bind].
    destruct (String.eqb unit_system "Metric"); reflexivity.
Qed.

Lemma calculator_tab_outputs_witness :
  calculator_results "Metric" "Ring Segment – Constant Cross Section"
    2.07e9 0.02 0.30 5.0 25.4 2.54 12.7 15.24 0 4.14e-7
  = Raise ZeroDivisionError.
Proof.
  assert (Hrange : squares_in_range "Ring Segment – Constant Cross Section"
                     25.4 2.54 12.7 15.24).
  { change (square_in_range 25.4); apply small_square; lra. }
  apply (proj1 (calculator_tab_outputs "Metric"
                  "Ring Segment – Constant Cross Section" 1.00
                  2.07e9 0.02 0.30 5.0 25.4 2.54 12.7 15.24 0 4.14e-7 eq_refl
                  Hrange)).
  left; reflexivity.
Defined.

(** X12.  Each output is printed with the unit of its kind: the
    deflection with the length unit and both forces with the force
    unit, the key "Deflection Force (P)" included although it names a
    deflection too.  The units are inches and pounds-force when the
    unit system is "Imperial", millimetres and newtons otherwise. *)
Theorem output_unit_labels (unit_system : string) :
  map (unit_label unit_system) result_keys
  = [ length_unit unit_system; force_unit unit_system; force_unit unit_system ]
  /\ (length_unit "Imperial", force_unit "Imperial", E_unit "Imperial")
     = ("in"%string, "lbf"%string, "psi"%string)
  /\ (unit_system <> "Imperial"%string ->
      (length_unit unit_system, force_unit unit_system, E_unit unit_system)
      = ("mm"%string, "N"%string, "Pa"%string)).
Proof.
  split; [reflexivity | split; [reflexivity | ]].
  intros Hus; apply String.eqb_neq in Hus.
  unfold length_unit, force_unit, E_unit; rewrite Hus; reflexivity.
Qed.

Lemma default_inputs_positive (unit_system : string) :
  let d := default_inputs unit_system in
  0 < def_L d /\ 0 < def_h d /\ 0 < def_b d /\ 0 < def_a d
  /\ 0 < def_r2 d /\ 0 < def_Z d /\ 0 < def_E d.
Proof.
  unfold default_inputs; destruct (String.eqb unit_system "Imperial");
    cbn; repeat split; lra.
Qed.

(** X13.  As the page opens, with the default value in every field,
    the Calculator tab shows finite positive outputs for each of the
    twelve profiles, in either unit system. *)
Theorem calculator_defaults_positive (unit_system profile : string) (c : R) :
  dict_get PROFILE_FACTORS profile = Some c ->
  let d := default_inputs unit_system in
  exists y P W : R,
    calculator_results unit_system profile (def_E d) 0.02 0.30 5.0 (def_L d)
      (def_h d) (def_b d) (def_a d) (def_r2 d) (def_Z d)
    = Ok (mkResult (PyFloat y) (PyFloat P) (NpFloat64 (Fin W)))
    /\ 0 < y /\ 0 < P /\ 0 < W.
Proof.
  intros Hcat d.
  destruct (default_inputs_positive unit_system)
    as (HL & Hh & Hb & Ha & Hr & HZ & HE); fold d in HL, Hh, Hb, Ha, Hr, HZ, HE.
  pose proof (catalog_factor_positive _ _ Hcat) as Hc.
  pose proof tan_5_degrees as Ht; replace 5 with 5.0 in Ht by lra.
  destruct (formulas_positive profile c (def_E d) 0.02 (def_L d) (def_h d)
              (def_b d) (def_a d) (def_r2 d) (def_Z d))
    as (Hy & HP); try assumption; try lra.
  rewrite (calculator_results_returns unit_system profile c (def_E d) 0.02
             0.30 5.0 (def_L d) (def_h d) (def_b d) (def_a d) (def_r2 d)
             (def_Z d) Hcat)
    by (apply positive_no_zero_divisor; assumption).
  rewrite mating_force_finite by lra.
  set (t := tan (5.0 * (PI / 180))) in *.
  assert (HW : 0 < modulus_formula profile (def_h d) (def_b d) (def_a d) (def_Z d)
                   * def_E d * 0.02 / def_L d * ((0.30 + t) / (1 - 0.30 * t))).
  { apply Rmult_lt_0_compat; [exact HP | apply Rdiv_lt_0_compat; lra]. }
  destruct (String.eqb unit_system "Metric"); cbn [f_mul];
    do 3 eexists; (split; [reflexivity | ]); repeat split; nra.
Qed.

Lemma calculator_defaults_positive_witness :
  exists y P W : R,
    calculator_results "Metric" "Trapezoid – Z Dimensions Quartered"
      2.07e9 0.02 0.30 5.0 25.4 2.54 12.7 15.24 12.7 4.14e-7
    = Ok (mkResult (PyFloat y) (PyFloat P) (NpFloat64 (Fin W)))
    /\ 0 < y /\ 0 < P /\ 0 < W.
Proof.
  exact (calculator_defaults_positive "Metric"
           "Trapezoid – Z Dimensions Quartered" 1.28 eq_refl).
Defined.

(* ================================================================== *)
(** * The rows of a sweep, in closed form                               *)
(* ================================================================== *)

Lemma f_div_fin (a b : R) : b <> 0 -> f_div (Fin a) (Fin b) = Fin (a / b).
Proof.
  intros Hb; cbn [f_div]; destruct (Req_dec_T b 0); [contradiction | reflexivity].
Qed.

Lemma for_each_nth {A B : Type} (body : A -> exc B) (xs : list A) (rs : list B) :
  for_each body xs = Ok rs ->
  forall i x, nth_error xs i = Some x ->
  exists r, nth_error rs i = Some r /\ body x = Ok r.
Proof.
  revert rs; induction xs as [ | x0 rest IH]; intros rs; cbn [for_each].
  - intros _ [ | i] x H; discriminate H.
  - destruct (body x0) as [r0 | e] eqn:Hr0; cbn [bind]; [ | discriminate].
    destruct (for_each body rest) as [rs0 | e] eqn:Hrs0; cbn [bind]; [ | discriminate].
    intros H; injection H as <-; intros [ | i] x Hx; cbn [nth_error] in *.
    + injection Hx as <-; exists r0; split; [reflexivity | exact Hr0].
    + exact (IH rs0 eq_refl i x Hx).
Qed.

(** Row [i] of a study is the loop body run on sample [i]. *)
Lemma study_row_at (unit_system : string) (calc : calculator_tab)
    (sweep_param : string) (start stop : R) (N i : nat) :
  (2 <= N)%nat -> (i < N)%nat ->
  exists (rows : list row) (r : row),
    parametric_study unit_system calc sweep_param start stop N = Ok rows
    /\ length rows = N
    /\ nth_error rows i = Some r
    /\ sweep_body (default_inputs unit_system) (PyFloat (in_mu calc))
         (PyFloat (in_alpha calc)) sweep_param
         (NpFloat64 (Fin (linear_sample start stop N i))) = Ok r.
Proof.
  intros HN Hi.
  destruct (parametric_study_nth unit_system calc sweep_param start stop N HN)
    as (rows & Hrows & Hlen & _).
  pose proof Hrows as Hfor; unfold parametric_study in Hfor.
  rewrite (linspace_linear _ _ _ HN), map_map in Hfor.
  destruct (for_each_nth _ _ _ Hfor i
              (NpFloat64 (Fin (linear_sample start stop N i))))
    as (r & Hr & Hbody).
  { rewrite nth_error_map, nth_error_seq.
    apply Nat.ltb_lt in Hi; rewrite Hi; reflexivity. }
  exists rows, r; repeat split; assumption.
Qed.

(** The loop body on a finite sample that is not zero. *)
Lemma sweep_body_closed_form (unit_system : string) (m al : R)
    (sweep_param : string) (x : R) :
  x <> 0 ->
  let d := default_inputs unit_system in
  exists r : row,
    sweep_body d (PyFloat m) (PyFloat al) sweep_param (NpFloat64 (Fin x)) = Ok r
    /\ Sweep_Value r = NpFloat64 (Fin x)
    /\ row_y r = NpFloat64 (Fin (sweep_y d sweep_param x))
    /\ row_P r = NpFloat64 (Fin (sweep_P d sweep_param x)).
Proof.
  intros Hx d.
  destruct (default_inputs_nonzero unit_system) as (Hh & HL); fold d in Hh, HL.
  unfold sweep_body, sweep_y, sweep_P.
  unfold calculate_snap_fit, calculate_snap_fit_body, deflection_and_modulus.
  cbn [default_to].
  rewrite (getitem_catalog "Rectangle – Constant Cross Section" 0.67 eq_refl).
  change (contains "Rectangle" "Rectangle – Constant Cross Section") with true.
  destruct (String.eqb sweep_param "Thickness h");
    [ | destruct (String.eqb sweep_param "Length L") ];
    cbv iota; float_run; try (exfalso; lra);
    cbn [bind]; eexists; (split; [reflexivity | ]);
    cbn [Sweep_Value row_y row_P Permissible_Deflection_y Deflection_Force_P];
    repeat first [ rewrite f_div_fin by (assumption || lra)
                 | progress cbn [f_mul f_sq] ];
    repeat split; reflexivity.
Qed.

Lemma f_div_zero_pos (a : R) : 0 < a -> f_div (Fin a) (Fin 0) = PInf.
Proof.
  intros Ha; cbn [f_div]; destruct (Req_dec_T 0 0) as [_ | H]; [ | congruence].
  rewrite (Rsign_pos a Ha); reflexivity.
Qed.

Lemma sweep_body_zero_thickness (unit_system : string) (m al : R) :
  exists r : row,
    sweep_body (default_inputs unit_system) (PyFloat m) (PyFloat al)
      "Thickness h" (NpFloat64 (Fin 0)) = Ok r
    /\ row_y r = NpFloat64 PInf /\ is_num (row_P r) 0.
Proof.
  destruct (default_inputs_positive unit_system)
    as (HL & Hh & Hb & _ & _ & _ & HE).
  set (d := default_inputs unit_system) in *.
  unfold sweep_body.
  unfold calculate_snap_fit, calculate_snap_fit_body, deflection_and_modulus.
  cbn [default_to String.eqb Ascii.eqb Bool.eqb]; cbv iota.
  rewrite (getitem_catalog "Rectangle – Constant Cross Section" 0.67 eq_refl).
  change (contains "Rectangle" "Rectangle – Constant Cross Section") with true.
  cbv iota; py_eval; cbn [bind f_sq f_mul].
  rewrite f_div_zero_pos by positive.
  repeat first [ rewrite f_div_fin by lra | progress cbn [f_mul] ].
  eexists; split; [reflexivity | ].
  cbn [row_y row_P Permissible_Deflection_y Deflection_Force_P].
  split; [reflexivity | ].
  unfold is_num; cbn [real_of]; f_equal.
  replace (0 ^ 2) with 0 by lra; unfold Rdiv.
  rewrite Rmult_0_r, !Rmult_0_l; reflexivity.
Qed.

Lemma sweep_body_zero_length (unit_system : string) (m al : R) :
  exists r : row,
    sweep_body (default_inputs unit_system) (PyFloat m) (PyFloat al)
      "Length L" (NpFloat64 (Fin 0)) = Ok r
    /\ is_num (row_y r) 0 /\ row_P r = NpFloat64 PInf.
Proof.
  destruct (default_inputs_positive unit_system)
    as (HL & Hh & Hb & _ & _ & _ & HE).
  set (d := default_inputs unit_system) in *.
  unfold sweep_body.
  unfold calculate_snap_fit, calculate_snap_fit_body, deflection_and_modulus.
  cbn [default_to String.eqb Ascii.eqb Bool.eqb]; cbv iota.
  rewrite (getitem_catalog "Rectangle – Constant Cross Section" 0.67 eq_refl).
  change (contains "Rectangle" "Rectangle – Constant Cross Section") with true.
  cbv iota; py_eval; cbn [bind f_sq f_mul].
  rewrite (py_truediv_nonzero _ 6) by lra.
  py_eval; cbn [bind f_mul].
  rewrite (f_div_fin _ (def_h d)) by lra.
  rewrite f_div_zero_pos by positive.
  eexists; split; [reflexivity | ].
  cbn [row_y row_P Permissible_Deflection_y Deflection_Force_P].
  split; [ | reflexivity].
  unfold is_num; cbn [real_of]; f_equal.
  replace (0 ^ 2) with 0 by lra; unfold Rdiv.
  rewrite Rmult_0_r, Rmult_0_l; reflexivity.
Qed.

(** X14.  A sweep through zero does not fail: the study returns all
    its rows, and the row whose sample is zero holds an infinite
    deflection and a zero force when the thickness is swept, a zero
    deflection and an infinite force when the length is swept. *)
Theorem zero_sample_row (unit_system : string) (calc : calculator_tab)
    (sweep_param : string) (start stop : R) (N i : nat) :
  (2 <= N)%nat -> (i < N)%nat ->
  linear_sample start stop N i = 0 ->
  exists (rows : list row) (r : row),
    parametric_study unit_system calc sweep_param start stop N = Ok rows
    /\ length rows = N
    /\ nth_error rows i = Some r
    /\ (sweep_param = "Thickness h"%string ->
        row_y r = NpFloat64 PInf /\ is_num (row_P r) 0)
    /\ (sweep_param = "Length L"%string ->
        is_num (row_y r) 0 /\ row_P r = NpFloat64 PInf).
Proof.
  intros HN Hi Hzero.
  destruct (study_row_at unit_system calc sweep_param start stop N i HN Hi)
    as (rows & r & Hrows & Hlen & Hr & Hbody).
  exists rows, r; split; [exact Hrows | split; [exact Hlen | split; [exact Hr | ]]].
  rewrite Hzero in Hbody.
  split; intros ->.
  - destruct (sweep_body_zero_thickness unit_system (in_mu calc) (in_alpha calc))
      as (r0 & Hr0 & Hy & HP).
    rewrite Hbody in Hr0; injection Hr0 as <-; split; assumption.
  - destruct (sweep_body_zero_length unit_system (in_mu calc) (in_alpha calc))
      as (r0 & Hr0 & Hy & HP).
    rewrite Hbody in Hr0; injection Hr0 as <-; split; assumption.
Qed.

Lemma zero_sample_row_witness :
  exists (rows : list row) (r : row),
    parametric_study "Imperial" (imperial_form 0.30) "Thickness h" (-0.10) 0.10 5
    = Ok rows
    /\ length rows = 5%nat
    /\ nth_error rows 2 = Some r
    /\ row_y r = NpFloat64 PInf /\ is_num (row_P r) 0.
Proof.
  destruct (zero_sample_row "Imperial" (imperial_form 0.30) "Thickness h"
              (-0.10) 0.10 5 2)
    as (rows & r & Hrows & Hlen & Hr & Hth & _).
  - lia.
  - lia.
  - unfold linear_sample; cbn [INR Nat.sub]; lra.
  - exists rows, r; repeat split; try assumption; apply Hth; reflexivity.
Defined.

Lemma linear_sample_between (start stop : R) (N i : nat) :
  (2 <= N)%nat -> (i < N)%nat ->
  Rmin start stop <= linear_sample start stop N i <= Rmax start stop.
Proof.
  intros HN Hi.
  assert (Hdiv : 0 < INR (N - 1)) by (apply lt_0_INR; lia).
  assert (Hi0 : 0 <= INR i) by apply pos_INR.
  assert (HiN : INR i <= INR (N - 1)) by (apply le_INR; lia).
  set (t := INR i / INR (N - 1)).
  assert (Ht : 0 <= t <= 1).
  { unfold t; split.
    - apply Rmult_le_pos; [exact Hi0 | left; apply Rinv_0_lt_compat; exact Hdiv].
    - apply Rmult_le_reg_r with (INR (N - 1)); [exact Hdiv | ].
      unfold Rdiv; rewrite Rmult_assoc, Rinv_l by lra; lra. }
  assert (Hs : linear_sample start stop N i = start + t * (stop - start)).
  { unfold linear_sample, t; field; lra. }
  rewrite Hs; clearbody t.
  unfold Rmin, Rmax; destruct (Rle_dec start stop); split; nra.
Qed.

Lemma sweep_formulas_positive (unit_system sweep_param : string) (x : R) :
  0 < x ->
  let d := default_inputs unit_system in
  0 < sweep_y d sweep_param x /\ 0 < sweep_P d sweep_param x.
Proof.
  intros Hx d.
  destruct (default_inputs_positive unit_system)
    as (HL & Hh & Hb & _ & _ & _ & HE); fold d in HL, Hh, Hb, HE.
  unfold sweep_y, sweep_P.
  destruct (String.eqb sweep_param "Thickness h");
    [ | destruct (String.eqb sweep_param "Length L") ];
    split; positive.
Qed.

(** X15.  A sweep between two positive bounds, in either order, gives
    only finite rows: each row carries a sample between the bounds, a
    positive deflection and a positive deflection force, which are the
    Rectangle formulas at the defaults with the sample in the place of
    the swept parameter. *)
Theorem positive_range_rows (unit_system : string) (calc : calculator_tab)
    (sweep_param : string) (start stop : R) (N : nat) :
  (2 <= N)%nat -> 0 < start -> 0 < stop ->
  let d := default_inputs unit_system in
  exists rows : list row,
    parametric_study unit_system calc sweep_param start stop N = Ok rows
    /\ forall i, (i < N)%nat ->
         exists (r : row) (x : R),
           nth_error rows i = Some r
           /\ Sweep_Value r = NpFloat64 (Fin x)
           /\ Rmin start stop <= x <= Rmax start stop
           /\ row_y r = NpFloat64 (Fin (sweep_y d sweep_param x))
           /\ row_P r = NpFloat64 (Fin (sweep_P d sweep_param x))
           /\ 0 < sweep_y d sweep_param x
           /\ 0 < sweep_P d sweep_param x.
Proof.
  intros HN Hstart Hstop d; subst d.
  destruct (parametric_study_rows unit_system calc sweep_param start stop N)
    as (rows & Hrows & _).
  exists rows; split; [exact Hrows | ]; intros i Hi.
  destruct (study_row_at unit_system calc sweep_param start stop N i HN Hi)
    as (rows' & r & Hrows' & _ & Hr & Hbody).
  rewrite Hrows in Hrows'; injection Hrows' as <-.
  pose proof (linear_sample_between start stop N i HN Hi) as Hx.
  set (x := linear_sample start stop N i) in *.
  assert (Hpos : 0 < x).
  { revert Hx; unfold Rmin; destruct (Rle_dec start stop); lra. }
  destruct (sweep_body_closed_form unit_system (in_mu calc) (in_alpha calc)
              sweep_param x) as (r0 & Hr0 & Hv & Hy & HP); [lra | ].
  rewrite Hbody in Hr0; injection Hr0 as <-.
  destruct (sweep_formulas_positive unit_system sweep_param x Hpos) as (Hy0 & HP0).
  exists r, x; repeat split; try assumption; apply Hx.
Qed.

Lemma default_range_positive (unit_system sweep_param : string) :
  let d := default_inputs unit_system in
  0 < start_default d sweep_param < stop_default d sweep_param.
Proof.
  intros d; destruct (default_inputs_positive unit_system)
    as (HL & Hh & _); fold d in HL, Hh.
  unfold start_default, stop_default.
  destruct (String.eqb sweep_param "Thickness h");
    [ | destruct (String.eqb sweep_param "Length L") ]; lra.
Qed.

(** Witness of X15: the default range of the length sweep, with the
    default number of steps. *)
Lemma positive_range_rows_witness :
  let d := default_inputs "Metric" in
  exists rows : list row,
    parametric_study "Metric" (imperial_form 0.30) "Length L"
      (start_default d "Length L") (stop_default d "Length L") 20 = Ok rows
    /\ forall i, (i < 20)%nat ->
         exists (r : row) (x : R),
           nth_error rows i = Some r
           /\ Sweep_Value r = NpFloat64 (Fin x)
           /\ Rmin (start_default d "Length L") (stop_default d "Length L") <= x
              <= Rmax (start_default d "Length L") (stop_default d "Length L")
           /\ row_y r = NpFloat64 (Fin (sweep_y d "Length L" x))
           /\ row_P r = NpFloat64 (Fin (sweep_P d "Length L" x))
           /\ 0 < sweep_y d "Length L" x
           /\ 0 < sweep_P d "Length L" x.
Proof.
  intros d.
  pose proof (default_range_positive "Metric" "Length L") as Hrange.
  apply (positive_range_rows "Metric" (imperial_form 0.30) "Length L"
           (start_default d "Length L") (stop_default d "Length L") 20);
    [lia | | ]; fold d in Hrange; lra.
Defined.

Ltac positive_factor :=
  repeat first
    [ assumption
    | lra
    | apply Rinv_0_lt_compat
    | apply Rmult_lt_0_compat
    | apply pow_lt ].

Ltac peel_right := repeat (apply Rmult_lt_compat_r; [positive_factor | ]).

Lemma sweep_formulas_trend (unit_system sweep_param : string) (x1 x2 : R) :
  0 < x1 -> x1 < x2 ->
  let d := default_inputs unit_system in
  (sweep_param = "Thickness h"%string ->
   sweep_y d sweep_param x2 < sweep_y d sweep_param x1
   /\ sweep_P d sweep_param x1 < sweep_P d sweep_param x2)
  /\ (sweep_param = "Length L"%string ->
      sweep_y d sweep_param x1 < sweep_y d sweep_param x2
      /\ sweep_P d sweep_param x2 < sweep_P d sweep_param x1)
  /\ (sweep_param = "Allowable Strain ε"%string ->
      sweep_y d sweep_param x1 < sweep_y d sweep_param x2
      /\ sweep_P d sweep_param x1 < sweep_P d sweep_param x2).
Proof.
  intros H1 H12 d.
  destruct (default_inputs_positive unit_system)
    as (HL & Hh & Hb & _ & _ & _ & HE); fold d in HL, Hh, Hb, HE.
  assert (Hsq : x1 ^ 2 < x2 ^ 2) by nra.
  assert (Hinv : / x2 < / x1) by (apply Rinv_lt_contravar; nra).
  unfold sweep_y, sweep_P.
  split; [ | split]; intros ->; cbn [String.eqb Ascii.eqb Bool.eqb]; cbv iota;
    unfold Rdiv; split.
  - apply Rmult_lt_compat_l; [positive_factor | exact Hinv].
  - peel_right; apply Rmult_lt_compat_l; assumption.
  - peel_right; apply Rmult_lt_compat_l; [lra | exact Hsq].
  - apply Rmult_lt_compat_l; [positive_factor | exact Hinv].
  - peel_right; apply Rmult_lt_compat_l; [lra | exact H12].
  - peel_right; apply Rmult_lt_compat_l; [positive_factor | exact H12].
Qed.

(** X16.  Along an ascending sweep over positive values the outputs
    move one way: with the thickness the deflection falls and the
    deflection force rises, with the length the deflection rises and
    the force falls, with the allowable strain both rise. *)
Theorem sweep_trend (unit_system : string) (calc : calculator_tab)
    (sweep_param : string) (start stop : R) (N i j : nat) :
  (2 <= N)%nat -> 0 < start -> start < stop -> (i < j)%nat -> (j < N)%nat ->
  exists (rows : list row) (ri rj : row) (yi yj Pi Pj : R),
    parametric_study unit_system calc sweep_param start stop N = Ok rows
    /\ nth_error rows i = Some ri /\ nth_error rows j = Some rj
    /\ row_y ri = NpFloat64 (Fin yi) /\ row_y rj = NpFloat64 (Fin yj)
    /\ row_P ri = NpFloat64 (Fin Pi) /\ row_P rj = NpFloat64 (Fin Pj)
    /\ (sweep_param = "Thickness h"%string -> yj < yi /\ Pi < Pj)
    /\ (sweep_param = "Length L"%string -> yi < yj /\ Pj < Pi)
    /\ (sweep_param = "Allowable Strain ε"%string -> yi < yj /\ Pi < Pj).
Proof.
  intros HN Hstart Hinc Hij HjN.
  destruct (study_row_at unit_system calc sweep_param start stop N i HN)
    as (rows & ri & Hrows & _ & Hri & Hbi); [lia | ].
  destruct (study_row_at unit_system calc sweep_param start stop N j HN HjN)
    as (rows' & rj & Hrows' & _ & Hrj & Hbj).
  rewrite Hrows in Hrows'; injection Hrows' as <-.
  pose proof (linear_sample_between start stop N i HN) as Hxi.
  destruct (linear_sample_step start stop N i j Hij HjN) as (Hstep & Hpos).
  set (xi := linear_sample start stop N i) in *.
  set (xj := linear_sample start stop N j) in *.
  assert (Hxi0 : 0 < xi).
  { assert (Hi : (i < N)%nat) by lia; specialize (Hxi Hi).
    revert Hxi; unfold Rmin; destruct (Rle_dec start stop); lra. }
  assert (Hxij : xi < xj) by nra.
  destruct (sweep_body_closed_form unit_system (in_mu calc) (in_alpha calc)
              sweep_param xi) as (r0 & Hr0 & _ & Hyi & HPi); [lra | ].
  rewrite Hbi in Hr0; injection Hr0 as <-.
  destruct (sweep_body_closed_form unit_system (in_mu calc) (in_alpha calc)
              sweep_param xj) as (r0 & Hr0 & _ & Hyj & HPj); [lra | ].
  rewrite Hbj in Hr0; injection Hr0 as <-.
  destruct (sweep_formulas_trend unit_system sweep_param xi xj Hxi0 Hxij)
    as (Hth & Hlen & Hstr).
  do 7 eexists.
  split; [exact Hrows | ].
  split; [exact Hri | split; [exact Hrj | ]].
  split; [exact Hyi | split; [exact Hyj | ]].
  split; [exact HPi | split; [exact HPj | ]].
  split; [exact Hth | split; [exact Hlen | exact Hstr]].
Qed.

Lemma sweep_trend_witness :
  exists (rows : list row) (ri rj : row) (yi yj Pi Pj : R),
    parametric_study "Imperial" (imperial_form 0.30) "Thickness h"
      0.10 (0.10 * 3) 20 = Ok rows
    /\ nth_error rows 0 = Some ri /\ nth_error rows 19 = Some rj
    /\ row_y ri = NpFloat64 (Fin yi) /\ row_y rj = NpFloat64 (Fin yj)
    /\ row_P ri = NpFloat64 (Fin Pi) /\ row_P rj = NpFloat64 (Fin Pj)
    /\ yj < yi /\ Pi < Pj.
Proof.
  destruct (sweep_trend "Imperial" (imperial_form 0.30) "Thickness h"
              0.10 (0.10 * 3) 20 0 19)
    as (rows & ri & rj & yi & yj & Pi & Pj & H1 & H2 & H3 & H4 & H5 & H6 & H7
        & Hth & _); try lia; try lra.
  exists rows, ri, rj, yi, yj, Pi, Pj; repeat split; try assumption;
    apply Hth; reflexivity.
Defined.

(* ================================================================== *)
(** * The plotted table                                                 *)
(* ================================================================== *)

(** X17.  The plotted table has a row for each row of the study, in
    the same order, and shows the samples rescaled by one factor: a
    swept strain as it is, a swept length multiplied by 25.4 when the
    unit system is "Metric" and divided by 25.4 otherwise. *)
Theorem plotted_sweep_values (unit_system : string) (calc : calculator_tab)
    (sweep_param : string) (start stop : R) (N : nat) :
  (2 <= N)%nat ->
  exists rows : list row,
    parametric_study unit_system calc sweep_param start stop N = Ok rows
    /\ length (df_plot unit_system sweep_param rows) = N
    /\ forall i, (i < N)%nat ->
         exists p : plot_row,
           nth_error (df_plot unit_system sweep_param rows) i = Some p
           /\ plot_Sweep_Value p
              = Fin (plot_scale unit_system sweep_param
                     * linear_sample start stop N i).
Proof.
  intros HN.
  destruct (parametric_study_nth unit_system calc sweep_param start stop N HN)
    as (rows & Hrows & Hlen & Hnth).
  exists rows; split; [exact Hrows | ]; split.
  - unfold df_plot; rewrite length_map; exact Hlen.
  - intros i Hi; destruct (Hnth i Hi) as (r & Hr & Hv).
    exists (df_plot_row unit_system sweep_param r); split.
    + unfold df_plot; rewrite nth_error_map, Hr; reflexivity.
    + unfold df_plot_row, plot_scale; rewrite Hv; cbn [as_float64].
      destruct (String.eqb sweep_param "Allowable Strain ε"),
        (String.eqb unit_system "Metric");
        cbn [negb plot_Sweep_Value f_mul]; rewrite ?f_div_fin by lra;
        f_equal; lra.
Qed.

Lemma plotted_sweep_values_witness :
  exists rows : list row,
    parametric_study "Metric" (imperial_form 0.30) "Length L" 25.4 76.2 5 = Ok rows
    /\ length (df_plot "Metric" "Length L" rows) = 5%nat
    /\ exists p : plot_row,
         nth_error (df_plot "Metric" "Length L" rows) 0 = Some p
         /\ plot_Sweep_Value p = Fin (25.4 * linear_sample 25.4 76.2 5 0).
Proof.
  destruct (plotted_sweep_values "Metric" (imperial_form 0.30) "Length L"
              25.4 76.2 5) as (rows & Hrows & Hlen & Hnth); [lia | ].
  exists rows; split; [exact Hrows | split; [exact Hlen | ]].
  destruct (Hnth 0%nat) as (p & Hp & Hv); [lia | ].
  exists p; split; [exact Hp | exact Hv].
Defined.

(* ================================================================== *)
(** * Families, defaults and the default sweep                          *)
(* ================================================================== *)

(** X18.  The name of a variant contains the word of its own family
    and of no other, so the order of the tests in the engine's and the
    form's [if] chains decides nothing. *)
Theorem family_word_identifies_family (f f' : family) (t : taper) :
  contains (family_name f') (variant_name f t) = true <-> f' = f.
Proof.
  destruct f, t, f'; split; intros H;
    first [reflexivity | discriminate H | (vm_compute in H; discriminate H)].
Qed.

Lemma required_floats_all (profile : string) (h b a r2 Z : R) :
  required_floats profile (PyFloat h) (PyFloat b) (PyFloat a) (PyFloat r2)
    (PyFloat Z) h b a r2 Z.
Proof.
  unfold required_floats.
  destruct (contains "Rectangle" profile);
    [ | destruct (contains "Trapezoid" profile);
        [ | destruct (contains "Ring Segment" profile) ] ];
    repeat split; reflexivity.
Qed.

(** X19.  The two tables of defaults describe one beam as far as the
    lengths go: each metric default length is the imperial one
    converted by [in_to_mm], and for every profile of the catalog the
    deflection the engine returns on the metric defaults is 25.4 times
    the one it returns on the imperial defaults. *)
Theorem metric_defaults_convert_lengths (profile : string) (c : R) :
  dict_get PROFILE_FACTORS profile = Some c ->
  let di := default_inputs "Imperial" in
  let dm := default_inputs "Metric" in
  evals (in_to_mm (PyFloat (def_L di))) (def_L dm)
  /\ evals (in_to_mm (PyFloat (def_h di))) (def_h dm)
  /\ evals (in_to_mm (PyFloat (def_b di))) (def_b dm)
  /\ evals (in_to_mm (PyFloat (def_a di))) (def_a dm)
  /\ evals (in_to_mm (PyFloat (def_r2 di))) (def_r2 dm)
  /\ exists (ri rm : result) (y : R),
       calculate_snap_fit profile (PyFloat (def_E di)) (PyFloat 0.02)
         (PyFloat (def_L di)) (PyFloat (def_h di)) (PyFloat (def_b di))
         (PyFloat (def_a di)) (PyFloat (def_r2 di)) (PyFloat (def_Z di))
         None None = Ok ri
       /\ calculate_snap_fit profile (PyFloat (def_E dm)) (PyFloat 0.02)
            (PyFloat (def_L dm)) (PyFloat (def_h dm)) (PyFloat (def_b dm))
            (PyFloat (def_a dm)) (PyFloat (def_r2 dm)) (PyFloat (def_Z dm))
            None None = Ok rm
       /\ is_num (Permissible_Deflection_y ri) y
       /\ is_num (Permissible_Deflection_y rm) (25.4 * y).
Proof.
  intros Hcat di dm.
  repeat (split; [eexists; split; [reflexivity | ];
                  unfold is_num; cbn; f_equal; lra | ]).
  change (calculate_snap_fit profile (PyFloat (def_E di)) (PyFloat 0.02)
            (PyFloat (def_L di)) (PyFloat (def_h di)) (PyFloat (def_b di))
            (PyFloat (def_a di)) (PyFloat (def_r2 di)) (PyFloat (def_Z di))
            None None)
    with (calculate_snap_fit profile (PyFloat (def_E di)) (PyFloat 0.02)
            (PyFloat (def_L di)) (PyFloat (def_h di)) (PyFloat (def_b di))
            (PyFloat (def_a di)) (PyFloat (def_r2 di)) (PyFloat (def_Z di))
            (Some (PyFloat 0.3)) (Some (PyFloat 5))).
  change (calculate_snap_fit profile (PyFloat (def_E dm)) (PyFloat 0.02)
            (PyFloat (def_L dm)) (PyFloat (def_h dm)) (PyFloat (def_b dm))
            (PyFloat (def_a dm)) (PyFloat (def_r2 dm)) (PyFloat (def_Z dm))
            None None)
    with (calculate_snap_fit profile (PyFloat (def_E dm)) (PyFloat 0.02)
            (PyFloat (def_L dm)) (PyFloat (def_h dm)) (PyFloat (def_b dm))
            (PyFloat (def_a dm)) (PyFloat (def_r2 dm)) (PyFloat (def_Z dm))
            (Some (PyFloat 0.3)) (Some (PyFloat 5))).
  destruct (default_inputs_positive "Imperial") as (HL & Hh & Hb & Ha & Hr & _).
  destruct (default_inputs_positive "Metric") as (HL' & Hh' & Hb' & Ha' & Hr' & _).
  fold di in HL, Hh, Hb, Ha, Hr; fold dm in HL', Hh', Hb', Ha', Hr'.
  rewrite (call_on_floats profile c _ _ _ _ _ _ _ _ _ _ _ _ _ _ _ Hcat
             (required_floats_all profile _ _ _ _ _))
    by (apply positive_no_zero_divisor; assumption).
  rewrite (call_on_floats profile c _ _ _ _ _ _ _ _ _ _ _ _ _ _ _ Hcat
             (required_floats_all profile _ _ _ _ _))
    by (apply positive_no_zero_divisor; assumption).
  do 3 eexists; split; [reflexivity | ]; split; [reflexivity | ].
  cbn [Permissible_Deflection_y]; split; [reflexivity | ].
  unfold is_num; cbn [real_of]; f_equal.
  unfold deflection_formula, di, dm; cbn [default_inputs String.eqb Ascii.eqb
    Bool.eqb def_L def_h def_b def_a def_r2].
  destruct (contains "Rectangle" profile);
    [ | destruct (contains "Trapezoid" profile);
        [ | destruct (contains "Ring Segment" profile) ] ]; lra.
Qed.

Lemma metric_defaults_convert_lengths_witness :
  evals (in_to_mm (PyFloat (def_a (default_inputs "Imperial"))))
    (def_a (default_inputs "Metric")).
Proof.
  exact (proj1 (proj2 (proj2 (proj2
           (metric_defaults_convert_lengths "Trapezoid – Y Dimensions Halved"
              1.64 eq_refl))))).
Defined.

(** X20.  The range the Parametric Study tab proposes is sound for
    every choice of parameter and unit system: it starts at a positive
    value and ends above it (three times the default thickness or
    length, or from 0.01 to 0.05 for the strain), so the proposed sweep
    returns its [N] rows with strictly increasing samples and a finite
    positive deflection and deflection force in each. *)
Theorem default_sweep_sound (unit_system : string) (calc : calculator_tab)
    (sweep_param : string) (N : nat) :
  (2 <= N)%nat ->
  let d := default_inputs unit_system in
  let start := start_default d sweep_param in
  let stop := stop_default d sweep_param in
  0 < start < stop
  /\ (sweep_param = "Thickness h"%string \/ sweep_param = "Length L"%string ->
      stop = start * 3)
  /\ exists rows : list row,
       parametric_study unit_system calc sweep_param start stop N = Ok rows
       /\ length rows = N
       /\ forall i, (i < N)%nat ->
            exists (r : row) (x y P : R),
              nth_error rows i = Some r
              /\ Sweep_Value r = NpFloat64 (Fin x)
              /\ x = linear_sample start stop N i
              /\ start <= x <= stop
              /\ (forall j, (i < j)%nat -> x < linear_sample start stop N j)
              /\ row_y r = NpFloat64 (Fin y) /\ 0 < y
              /\ row_P r = NpFloat64 (Fin P) /\ 0 < P.
Proof.
  intros HN d start stop.
  pose proof (default_range_positive unit_system sweep_param) as Hrange.
  change (0 < start < stop) in Hrange.
  split; [exact Hrange | split].
  - unfold start, stop, start_default, stop_default.
    intros [-> | ->]; reflexivity.
  - clearbody start stop; destruct Hrange as (Hstart & Hstop).
    destruct (parametric_study_nth unit_system calc sweep_param start stop N HN)
      as (rows & Hrows & Hlen & _).
    exists rows; split; [exact Hrows | split; [exact Hlen | ]].
    intros i Hi.
    destruct (study_row_at unit_system calc sweep_param start stop N i HN Hi)
      as (rows' & r & Hrows' & _ & Hr & Hbody).
    rewrite Hrows in Hrows'; injection Hrows' as <-.
    pose proof (linear_sample_between start stop N i HN Hi) as Hx.
    rewrite Rmin_left, Rmax_right in Hx by lra.
    set (x := linear_sample start stop N i) in *.
    destruct (sweep_body_closed_form unit_system (in_mu calc) (in_alpha calc)
                sweep_param x) as (r0 & Hr0 & Hv & Hy & HP); [lra | ].
    rewrite Hbody in Hr0; injection Hr0 as <-.
    destruct (sweep_formulas_positive unit_system sweep_param x) as (Hy0 & HP0);
      [lra | ].
    exists r, x, (sweep_y (default_inputs unit_system) sweep_param x),
      (sweep_P (default_inputs unit_system) sweep_param x).
    repeat split; try assumption; try apply Hx.
    intros j Hij.
    destruct (Nat.lt_ge_cases j N) as [HjN | HjN].
    + destruct (linear_sample_step start stop N i j Hij HjN) as (Hstep & Hpos).
      fold x in Hstep; nra.
    + assert (Hdiv : 0 < INR (N - 1)) by (apply lt_0_INR; lia).
      assert (HjN' : INR (N - 1) < INR j) by (apply lt_INR; lia).
      assert (Hq : 1 < INR j / INR (N - 1)).
      { apply Rmult_lt_reg_r with (INR (N - 1)); [exact Hdiv | ].
        unfold Rdiv; rewrite Rmult_assoc, Rinv_l by lra; lra. }
      assert (Hs : linear_sample start stop N j
                   = start + INR j / INR (N - 1) * (stop - start))
        by (unfold linear_sample; field; lra).
      rewrite Hs; nra.
Qed.

Lemma default_sweep_sound_witness :
  let d := default_inputs "Imperial" in
  0 < start_default d "Allowable Strain ε" < stop_default d "Allowable Strain ε"
  /\ exists rows : list row,
       parametric_study "Imperial" (imperial_form 0.30) "Allowable Strain ε"
         (start_default d "Allowable Strain ε")
         (stop_default d "Allowable Strain ε") 20 = Ok rows
       /\ length rows = 20%nat.
Proof.
  intros d.
  destruct (default_sweep_sound "Imperial" (imperial_form 0.30)
              "Allowable Strain ε" 20) as (Hrange & _ & rows & Hrows & Hlen & _);
    [lia | ].
  split; [exact Hrange | exists rows; split; assumption].
Defined.
